(** * The MT4 bridge Expert Advisor: a shallow embedding

    Two revisions of the same MQL4 program are present in the repository:
    [mt4/Expert Advisor.mq4] (called [Original] below) and the later file
    with the FIXES header (called [Revised] below).  Both are embedded; a
    [Version] argument selects the revision wherever their code differs.

    Conventions of the embedding:
    - MQL4 [int], [datetime] and [long] values are [Z]; no arithmetic of the
      program can leave the machine range (the only increments are bounded
      by the buffer size), so no wrap-around is written out;
    - MQL4 [double] values are binary64 values of IEEE 754 ([spec_float]
      of the Standard Library, with 53 bits of precision): the arithmetic
      rounds to nearest, and infinities and NaN are values;
    - MQL4 [string] values are [string];
    - the terminal (market data, clock, order pools, WebRequest, OrderSend)
      is a [Host]: every call to the terminal reads the host at the index of
      that call, so a host may answer every call differently;
    - calls with an outside effect (WebRequest, OrderSend, Print) are
      recorded in a trace, newest first. *)

From Stdlib Require Import ZArith QArith List String Ascii Bool Lia.
From Stdlib Require Import SpecFloat.
Import ListNotations.
Local Open Scope string_scope.
Local Open Scope list_scope.
Local Open Scope Z_scope.

(** ** MQL4 string library *)

(** Two points of the string library that the program text does not
    settle.  [StringTrimLeft(value);] and [StringTrimRight(value);] are
    statements whose result is discarded: where these functions return the
    trimmed copy (MQL4) the statements do nothing, where they trim their
    argument in place (MQL5) they change [value]; [trim_in_place] selects
    the reading.  [StringSubstr] with a length of 0 gives the text up to
    the end of the string where 0 is the default value of the length (so
    the reference of MQL4), and the empty text otherwise; [zero_is_rest]
    selects the reading.  Every statement below that takes a [Library]
    holds for the four combinations. *)
Record Library := {
  trim_in_place : bool;
  zero_is_rest : bool
}.

(** The two libraries of the examples: the one trims a copy and reads a
    length of 0 as the rest of the string, the other trims in place and
    reads it as the empty text. *)
Definition mql4_library : Library := {| trim_in_place := false; zero_is_rest := true |}.
Definition mql5_library : Library := {| trim_in_place := true; zero_is_rest := false |}.

Module MqlString.

(** The double-quote character (ASCII 34), an escaped quote in the source. *)
Definition dquote : string := String "034"%char EmptyString.

(** [StringLen] *)
Definition StringLen (s : string) : Z := Z.of_nat (String.length s).

(** [StringSubstr(s, start, len)]: a start outside the string gives the
    empty string; a negative length means: up to the end of the string,
    and so does a length of 0 when [zero_is_rest] holds. *)
Definition StringSubstr (lib : Library) (s : string) (start len : Z) : string :=
  if start <? 0 then EmptyString
  else if (len <? 0) || ((len =? 0) && zero_is_rest lib)
       then substring (Z.to_nat start) (String.length s) s
       else substring (Z.to_nat start) (Z.to_nat len) s.

(** [StringFind(s, pat)] from position 0: index of the first occurrence,
    [-1] when there is none. *)
Definition StringFind (s pat : string) : Z :=
  match index 0 pat s with
  | Some n => Z.of_nat n
  | None => -1
  end.

(** The characters removed by [StringTrimLeft] and [StringTrimRight]:
    space, tab, line feed and carriage return. *)
Definition is_blank (c : ascii) : bool :=
  (Ascii.eqb c " " || Ascii.eqb c "009" || Ascii.eqb c "010" || Ascii.eqb c "013")%char.

Fixpoint StringTrimLeft (s : string) : string :=
  match s with
  | EmptyString => EmptyString
  | String c s' => if is_blank c then StringTrimLeft s' else s
  end.

Fixpoint StringTrimRight (s : string) : string :=
  match s with
  | EmptyString => EmptyString
  | String c s' =>
      match StringTrimRight s' with
      | EmptyString => if is_blank c then EmptyString else String c EmptyString
      | t => String c t
      end
  end.

End MqlString.
Import MqlString.

(** The two revisions of the program. *)
Inductive Version := Original | Revised.

(** ** ExtractValue *)
Module Extract.

(** The search token: the key between double quotes, then a colon. *)
Definition search_token (key : string) : string :=
  (dquote ++ key ++ dquote ++ ":")%string.

(** [Original]: the scanning loop
    [while (end < StringLen(json)) { ... end++; }] with its [inString]
    flag.  [fuel] bounds the number of iterations; the loop ends within
    [StringLen(json) - end] of them (lemma [ExtractFacts.scan_quoted_fuel]). *)
Fixpoint scan_quoted (lib : Library) (fuel : nat) (json : string) (end_ : Z)
    (inString : bool) : Z :=
  match fuel with
  | O => end_
  | S fuel' =>
      if end_ <? StringLen json then
        let ch := StringSubstr lib json end_ 1 in
        if (ch =? dquote)%string
           && ((end_ =? 0)%Z || negb (StringSubstr lib json (end_ - 1) 1 =? "\")%string)
        then scan_quoted lib fuel' json (end_ + 1) (negb inString)
        else if negb inString && ((ch =? ",") || (ch =? "}"))%string
             then end_
             else scan_quoted lib fuel' json (end_ + 1) inString
      else end_
  end.

(** [Original] ExtractValue.  [StringTrimLeft(value); StringTrimRight(value);]
    are statements whose result is discarded; they change [value] only
    where the library trims in place ([trim_in_place]). *)
Definition ExtractValue_original (lib : Library) (json key : string) : string :=
  let search := search_token key in
  let start := StringFind json search in
  if (start =? -1)%Z then EmptyString
  else
    let start := start + StringLen search in
    let end_ := scan_quoted lib (String.length json) json start false in
    let value := StringSubstr lib json start (end_ - start) in
    let value :=
      if trim_in_place lib then StringTrimRight (StringTrimLeft value) else value in
    if ((StringSubstr lib value 0 1 =? dquote)
        && (StringSubstr lib value (StringLen value - 1) 1 =? dquote))%string
    then StringSubstr lib value 1 (StringLen value - 2)
    else value.

(** [Revised]: the loop that advances [start] over spaces and double
    quotes; it ends at the end of the text at the latest (lemma
    [ExtractFacts.skip_leading_fuel]). *)
Fixpoint skip_leading (lib : Library) (fuel : nat) (json : string) (start : Z) : Z :=
  match fuel with
  | O => start
  | S fuel' =>
      if ((StringSubstr lib json start 1 =? " ")
          || (StringSubstr lib json start 1 =? dquote))%string
      then skip_leading lib fuel' json (start + 1)
      else start
  end.

(** [Revised]: the loop that advances [end] to the first comma or closing
    brace, or to the end of the text (lemma [ExtractFacts.scan_plain_fuel]). *)
Fixpoint scan_plain (lib : Library) (fuel : nat) (json : string) (end_ : Z) : Z :=
  match fuel with
  | O => end_
  | S fuel' =>
      if end_ <? StringLen json then
        let ch := StringSubstr lib json end_ 1 in
        if ((ch =? ",") || (ch =? "}"))%string then end_
        else scan_plain lib fuel' json (end_ + 1)
      else end_
  end.

(** [Revised]: the loop that removes trailing spaces and quotes, one
    character a turn (lemma [ExtractFacts.trim_trailing_fuel]). *)
Fixpoint trim_trailing (lib : Library) (fuel : nat) (value : string) : string :=
  match fuel with
  | O => value
  | S fuel' =>
      if ((StringSubstr lib value (StringLen value - 1) 1 =? " ")
          || (StringSubstr lib value (StringLen value - 1) 1 =? dquote))%string
      then trim_trailing lib fuel' (StringSubstr lib value 0 (StringLen value - 1))
      else value
  end.

(** [Revised] ExtractValue (the retry after a failed search repeats the
    same search, as in the source). *)
Definition ExtractValue_revised (lib : Library) (json key : string) : string :=
  let search := search_token key in
  let start := StringFind json search in
  let found :=
    if (start =? -1)%Z then
      let search := search_token key in
      let start := StringFind json search in
      if (start =? -1)%Z then None else Some start
    else Some start in
  match found with
  | None => EmptyString
  | Some start =>
      let start := start + StringLen search in
      let start := skip_leading lib (S (String.length json)) json start in
      let end_ := scan_plain lib (String.length json) json start in
      let value := StringSubstr lib json start (end_ - start) in
      trim_trailing lib (S (String.length value)) value
  end.

Definition ExtractValue (v : Version) (lib : Library) (json key : string) : string :=
  match v with
  | Original => ExtractValue_original lib json key
  | Revised => ExtractValue_revised lib json key
  end.

(** Text without double quote and backslash. *)
Fixpoint plain (s : string) : bool :=
  match s with
  | EmptyString => true
  | String c s' => negb (Ascii.eqb c "034") && negb (Ascii.eqb c "\") && plain s'
  end.

(** What may follow a value: nothing, a comma or a closing brace. *)
Definition ends_field (rest : string) : bool :=
  match rest with
  | EmptyString => true
  | String c _ => Ascii.eqb c "," || Ascii.eqb c "}"
  end.

End Extract.

(** ** MQL4 doubles *)

(** A [double] is a binary64 value: the specification of floating-point
    arithmetic of the Standard Library at a precision of 53 bits and the
    exponent bound 1024.  Sums, differences, products and quotients are
    rounded to nearest, ties to even.  The values that the terminal gives
    are meant in their canonical form ([valid_binary 53 1024]), which the
    operations keep. *)
Definition double : Type := spec_float.

Definition double_add : double -> double -> double := SFadd 53 1024.
Definition double_sub : double -> double -> double := SFsub 53 1024.
Definition double_mul : double -> double -> double := SFmul 53 1024.
Definition double_div : double -> double -> double := SFdiv 53 1024.

(** [x > y], [x < y] and [x <= y] on doubles; each is false when [x] or
    [y] is NaN. *)
Definition double_gt (x y : double) : bool := SFltb y x.
Definition double_lt (x y : double) : bool := SFltb x y.
Definition double_le (x y : double) : bool := SFleb x y.

(** A double other than NaN. *)
Definition is_number (x : double) : bool :=
  match x with S754_nan => false | _ => true end.

(** The conversion of an [int] to a double; it is exact for every 32-bit
    value. *)
Definition double_of_int (n : Z) : double := binary_normalize 53 1024 n 0 false.

Definition double_zero : double := S754_zero false.

(** The double that the decimal numeral [digits / 10^places] denotes, for
    [digits] and [10^places] that doubles hold exactly: their quotient,
    rounded once. *)
Definition decimal (digits : Z) (places : nat) : double :=
  double_div (double_of_int digits) (double_of_int (10 ^ Z.of_nat places)).

(** The real number that a finite double stands for (0 for the others). *)
Definition exact_value (x : double) : Q :=
  match x with
  | S754_finite s m e => (if s then -1 else 1) * inject_Z (Zpos m) * Qpower 2 e
  | _ => 0
  end.

(** ** The terminal *)

(** An entry of an order pool, with the fields the program reads. *)
Record Order := {
  o_ticket : Z;
  o_symbol : string;
  o_magic : Z;
  o_close_price : double;
  o_profit : double;
  o_close_time : Z
}.

(** What a WebRequest leaves behind: the value of [GetLastError()] after
    it, the status it returned, and the response body as text. *)
Record WebReply := { wr_error : Z; wr_code : Z; wr_body : string }.

(** What an OrderSend leaves behind: the ticket (not positive on failure)
    and the value of [GetLastError()] after it. *)
Record SendReply := { os_ticket : Z; os_error : Z }.

(** The terminal.  A field of type [nat -> _] is read at the index of the
    call; an order pool is read once per scan (when its size is asked for)
    and [None] is an entry that [OrderSelect] fails to select. *)
Record Host := {
  h_bid : nat -> double;
  h_ask : nat -> double;
  h_spread : nat -> double;
  h_volume : nat -> Z;
  h_GetTickCount : nat -> Z;
  h_TimeCurrent : nat -> Z;
  h_trades : nat -> list (option Order);
  h_history : nat -> list (option Order);
  h_web : nat -> WebReply;
  h_order_send : nat -> SendReply;
  h_Point : double;
  h_StringToDouble : string -> double
}.

(** One buffered tick: the arguments of the [StringFormat] call of
    CollectTickData.  Formatted text is kept symbolic: a payload is the
    tuple of values the format string is applied to. *)
Record TickRec := {
  tk_timestamp : Z; tk_bid : double; tk_ask : double; tk_spread : double; tk_volume : Z
}.

Inductive Payload :=
| NoPayload
| TicksPayload (symbol : string) (ticks : list (option TickRec))
| TradeOpenPayload (ticket : Z) (symbol direction : string) (lots price : double)
    (open_time : Z) (sl tp : double)
| TradeClosePayload (ticket : Z) (close_price profit : double) (close_time : Z).

(** The test that a payload is the empty text. *)
Definition payload_empty (p : Payload) : bool :=
  match p with NoPayload => true | _ => false end.

Inductive PrintArg := PStr (s : string) | PInt (n : Z) | PDbl (x : double).

Inductive Effect :=
| EvPrint (args : list PrintArg)
| EvWebRequest (method url : string) (texts : list string) (data : Payload)
| EvOrderSend (symbol : string) (cmd : Z) (volume price : double) (slippage : Z)
    (stoploss takeprofit : double) (comment : string) (magic expiration arrow_color : Z).

(** The world outside the program's own variables: how many calls the
    terminal has answered, and what the program has done to it, newest
    first. *)
Record World := { calls : nat; trace : list Effect }.

Definition H (A : Type) : Type := World -> A * World.

Definition ret {A} (a : A) : H A := fun w => (a, w).

Definition bind {A B} (m : H A) (k : A -> H B) : H B :=
  fun w => let (a, w') := m w in k a w'.

Notation "x <- m ;; k" := (bind m (fun x => k))
  (at level 61, m at next level, right associativity).
Notation "m ;; k" := (bind m (fun _ => k))
  (at level 61, right associativity).

Definition emit (e : Effect) : H unit :=
  fun w => (tt, {| calls := calls w; trace := e :: trace w |}).

Definition ask {A} (f : nat -> A) : H A :=
  fun w => (f (calls w), {| calls := S (calls w); trace := trace w |}).

Definition Print (args : list PrintArg) : H unit := emit (EvPrint args).

(** ** The program *)

(** The input parameters. *)
Record Config := {
  BackendURL : string;
  BackendAPIKey : string;
  Symbol : string;
  LotSize : double;
  MaxSpread : Z;
  MaxPositions : Z;
  Slippage : Z;
  MagicNumber : Z;
  EnableTrading : bool
}.

(** The defaults of the [input] declarations. *)
Definition default_config : Config := {|
  BackendURL := "https://ai-trading-backend-m1k7.onrender.com";
  BackendAPIKey := "production";
  Symbol := "EURUSD";
  LotSize := decimal 1 2;
  MaxSpread := 20;
  MaxPositions := 3;
  Slippage := 30;
  MagicNumber := 123456;
  EnableTrading := false
|}.

(** The global variables ([lastLoggedTicket] exists in [Revised] only;
    [Original] never touches it). *)
Record Globals := {
  lastSignalPoll : Z;
  lastTickSend : Z;
  tickData : list (option TickRec);
  tickCount : Z;
  isConnected : bool;
  lastLoggedTicket : Z
}.

Definition tickBufferSize : Z := 500.
Definition signalPollInterval : Z := 500.

Definition initial_globals : Globals := {|
  lastSignalPoll := 0;
  lastTickSend := 0;
  tickData := [];
  tickCount := 0;
  isConnected := false;
  lastLoggedTicket := 0
|}.

Definition initial_world : World := {| calls := 0; trace := [] |}.

Definition set_lastSignalPoll (x : Z) (g : Globals) : Globals :=
  {| lastSignalPoll := x; lastTickSend := lastTickSend g; tickData := tickData g;
     tickCount := tickCount g; isConnected := isConnected g;
     lastLoggedTicket := lastLoggedTicket g |}.

Definition set_lastTickSend (x : Z) (g : Globals) : Globals :=
  {| lastSignalPoll := lastSignalPoll g; lastTickSend := x; tickData := tickData g;
     tickCount := tickCount g; isConnected := isConnected g;
     lastLoggedTicket := lastLoggedTicket g |}.

Definition set_tickData (x : list (option TickRec)) (g : Globals) : Globals :=
  {| lastSignalPoll := lastSignalPoll g; lastTickSend := lastTickSend g; tickData := x;
     tickCount := tickCount g; isConnected := isConnected g;
     lastLoggedTicket := lastLoggedTicket g |}.

Definition set_tickCount (x : Z) (g : Globals) : Globals :=
  {| lastSignalPoll := lastSignalPoll g; lastTickSend := lastTickSend g;
     tickData := tickData g; tickCount := x; isConnected := isConnected g;
     lastLoggedTicket := lastLoggedTicket g |}.

Definition set_isConnected (x : bool) (g : Globals) : Globals :=
  {| lastSignalPoll := lastSignalPoll g; lastTickSend := lastTickSend g;
     tickData := tickData g; tickCount := tickCount g; isConnected := x;
     lastLoggedTicket := lastLoggedTicket g |}.

Definition set_lastLoggedTicket (x : Z) (g : Globals) : Globals :=
  {| lastSignalPoll := lastSignalPoll g; lastTickSend := lastTickSend g;
     tickData := tickData g; tickCount := tickCount g; isConnected := isConnected g;
     lastLoggedTicket := x |}.

(** [ArrayResize(a, n)]: the first [n] entries are kept, new entries are
    empty. *)
Definition ArrayResize {A} (a : list (option A)) (n : nat) : list (option A) :=
  firstn n a ++ repeat None (n - List.length a).

(** [a[i] = x].  An index outside the array stops an MQL4 program with a
    critical error; CollectTickData writes at [tickCount], below
    [tickBufferSize], the size OnInit gives the array. *)
Fixpoint array_set {A} (a : list A) (i : nat) (x : A) : list A :=
  match a, i with
  | [], _ => []
  | _ :: a', O => x :: a'
  | y :: a', S i' => y :: array_set a' i' x
  end.

Definition OP_BUY : Z := 0.
Definition OP_SELL : Z := 1.
Definition clrBlue : Z := 16711680.
Definition INIT_SUCCEEDED : Z := 0.
Definition crlf : string := String "013"%char (String "010"%char EmptyString).

Section Program.

Variable v : Version.
Variable lib : Library.
Variable cfg : Config.
Variable host : Host.

(** Calls to the terminal. *)
Definition MarketInfo_BID : H double := ask (h_bid host).
Definition MarketInfo_ASK : H double := ask (h_ask host).
Definition MarketInfo_SPREAD : H double := ask (h_spread host).
Definition Volume0 : H Z := ask (h_volume host).
Definition GetTickCount : H Z := ask (h_GetTickCount host).
Definition TimeCurrent : H Z := ask (h_TimeCurrent host).
Definition OrdersPool : H (list (option Order)) := ask (h_trades host).
Definition OrdersHistoryPool : H (list (option Order)) := ask (h_history host).

(** [texts] are the text arguments that the call gives between the
    address and the timeout. *)
Definition WebRequest (method url : string) (texts : list string) (data : Payload)
    : H WebReply :=
  emit (EvWebRequest method url texts data) ;; ask (h_web host).

Definition OrderSend (symbol : string) (cmd : Z) (volume price : double) (slippage : Z)
    (stoploss takeprofit : double) (comment : string) (magic expiration arrow_color : Z)
    : H SendReply :=
  emit (EvOrderSend symbol cmd volume price slippage stoploss takeprofit comment
          magic expiration arrow_color) ;;
  ask (h_order_send host).

(** SendHttpRequest: the empty text on a WebRequest error, the response
    body otherwise.  [Revised] calls [WebRequest(method, url, headers,
    timeout, data, result_data, result_headers)]; [Original] calls
    [WebRequest(method, url, empty text, headers, timeout, data,
    result_data, empty text)], which is none of the declared forms of
    WebRequest: the request records the texts as the call gives them and
    does not decide which of them the terminal takes for the headers. *)
Definition SendHttpRequest (url : string) (payload : Payload) : H string :=
  let headers :=
    ("Content-Type: application/json" ++ crlf ++ "Authorization: Bearer "
       ++ BackendAPIKey cfg)%string in
  let texts :=
    match v with
    | Original => [EmptyString; headers]
    | Revised => [headers]
    end in
  reply <- WebRequest (if payload_empty payload then "GET" else "POST") url texts payload ;;
  if negb (wr_error reply =? 0) then
    Print (match v with
           | Original => [PStr "HTTP request failed with error: "; PInt (wr_error reply)]
           | Revised => [PStr "HTTP request failed with error: "; PInt (wr_error reply);
                         PStr " (Code: "; PInt (wr_code reply); PStr ")"]
           end) ;;
    ret EmptyString
  else
    (match v with
     | Original => ret tt
     | Revised =>
         if negb (wr_code reply =? 200) && negb (wr_code reply =? 201)
         then Print [PStr "HTTP request returned non-OK status: "; PInt (wr_code reply)]
         else ret tt
     end) ;;
    ret (wr_body reply).

Definition TestBackendConnection : H bool :=
  response <- SendHttpRequest (BackendURL cfg ++ "/api/health") NoPayload ;;
  if negb (response =? EmptyString)%string && (StringFind response "healthy" >=? 0)
  then ret true
  else ret false.

(** CollectTickData *)
Definition CollectTickData (g : Globals) : H Globals :=
  if tickCount g >=? tickBufferSize then ret g
  else
    bid <- MarketInfo_BID ;;
    ask_ <- MarketInfo_ASK ;;
    spread <- MarketInfo_SPREAD ;;
    volume <- Volume0 ;;
    now <- TimeCurrent ;;
    let tickJson := {| tk_timestamp := now; tk_bid := bid; tk_ask := ask_;
                       tk_spread := spread; tk_volume := volume |} in
    let g := set_tickData (array_set (tickData g) (Z.to_nat (tickCount g)) (Some tickJson)) g in
    let g := set_tickCount (tickCount g + 1) g in
    (match v with
     | Original =>
         if Z.rem (tickCount g) 100 =? 0
         then Print [PStr "Collected "; PInt (tickCount g); PStr " ticks"]
         else ret tt
     | Revised => ret tt
     end) ;;
    ret g.

(** SendTickData.  The payload is the symbol and the first [tickCount]
    entries of the buffer, in order. *)
Definition SendTickData (g : Globals) : H Globals :=
  if tickCount g =? 0 then ret g
  else
    let payload := TicksPayload (Symbol cfg) (firstn (Z.to_nat (tickCount g)) (tickData g)) in
    response <- SendHttpRequest (BackendURL cfg ++ "/api/ticks") payload ;;
    if negb (response =? EmptyString)%string then
      (match v with
       | Original => Print [PStr "Tick data sent successfully, response: "; PStr response]
       | Revised => ret tt
       end) ;;
      let g := set_tickCount 0 g in
      now <- GetTickCount ;;
      ret (set_lastTickSend now g)
    else
      Print [PStr "Failed to send tick data"] ;;
      ret g.

(** CountOpenPositions: the loop runs over the pool from its last position
    down to 0; the count does not depend on that order. *)
Definition order_is_ours (o : option Order) : bool :=
  match o with
  | Some o => (o_symbol o =? Symbol cfg)%string && (o_magic o =? MagicNumber cfg)
  | None => false
  end.

Fixpoint count_ours (pool : list (option Order)) (count : Z) : Z :=
  match pool with
  | [] => count
  | o :: rest => count_ours rest (if order_is_ours o then count + 1 else count)
  end.

Definition CountOpenPositions : H Z :=
  pool <- OrdersPool ;;
  ret (count_ours (rev pool) 0).

(** ValidateSignal.  In [currentSpread > MaxSpread] and in
    [Slippage * Point] the [int] is converted to a double; the product,
    the sum and the difference are those of doubles. *)
Definition ValidateSignal (direction : string) (entryPrice sl tp : double) : H bool :=
  currentSpread <- MarketInfo_SPREAD ;;
  if double_gt currentSpread (double_of_int (MaxSpread cfg)) then
    Print [PStr "Spread too high: "; PDbl currentSpread] ;;
    ret false
  else
    openPositions <- CountOpenPositions ;;
    if openPositions >=? MaxPositions cfg then
      Print [PStr "Too many open positions: "; PInt openPositions] ;;
      ret false
    else
      if negb (direction =? "BUY")%string && negb (direction =? "SELL")%string then
        Print [PStr "Invalid direction: "; PStr direction] ;;
        ret false
      else
        bid <- MarketInfo_BID ;;
        ask_ <- MarketInfo_ASK ;;
        if (direction =? "BUY")%string
           && double_gt entryPrice
                (double_add ask_ (double_mul (double_of_int (Slippage cfg)) (h_Point host)))
        then
          Print [PStr "BUY entry price too high"] ;;
          ret false
        else
          if (direction =? "SELL")%string
             && double_lt entryPrice
                  (double_sub bid (double_mul (double_of_int (Slippage cfg)) (h_Point host)))
          then
            Print [PStr "SELL entry price too low"] ;;
            ret false
          else ret true.

(** LogTradeToBackend *)
Definition LogTradeToBackend (ticket : Z) (direction : string) (lots price sl tp : double)
    : H unit :=
  now <- TimeCurrent ;;
  let payload := TradeOpenPayload ticket (Symbol cfg) direction lots price now sl tp in
  response <- SendHttpRequest (BackendURL cfg ++ "/api/trades") payload ;;
  if negb (response =? EmptyString)%string
  then Print [PStr "Trade logged to backend successfully"]
  else Print [PStr "Failed to log trade to backend"].

(** [(int) x] for a double [x]: the fraction is dropped.  For an
    infinity and for NaN the model gives 0, and it does not cut a whole
    number to the range of [int]; the program computes such casts and
    never uses their values. *)
Definition double_to_int (x : double) : Z :=
  match x with
  | S754_finite s m e =>
      let whole :=
        match e with
        | Z0 => Zpos m
        | Zpos _ => Zpos m * 2 ^ e
        | Zneg _ => Zpos m / 2 ^ (- e)
        end in
      if s then - whole else whole
  | _ => 0
  end.

(** ExecuteSignal.  [Original] computes [slPoints] and [tpPoints] and
    never uses them. *)
Definition ExecuteSignal (direction : string) (entryPrice sl tp : double) : H unit :=
  let orderType := if (direction =? "BUY")%string then OP_BUY else OP_SELL in
  price <- (if (direction =? "BUY")%string then MarketInfo_ASK else MarketInfo_BID) ;;
  let unused :=
    match v with
    | Original =>
        let points x y := Z.abs (double_to_int (double_div (double_sub x y) (h_Point host))) in
        let slPoints := points entryPrice sl in
        let tpPoints := points tp entryPrice in
        if (direction =? "SELL")%string
        then (points sl entryPrice, points entryPrice tp)
        else (slPoints, tpPoints)
    | Revised => (0, 0)
    end in
  reply <- OrderSend (Symbol cfg) orderType (LotSize cfg) price (Slippage cfg) sl tp
             "AI Scalping Signal" (MagicNumber cfg) 0 clrBlue ;;
  let ticket := os_ticket reply in
  if ticket >? 0 then
    Print [PStr "Order executed successfully: "; PInt ticket; PStr " ("; PStr direction;
           PStr ")"] ;;
    LogTradeToBackend ticket direction (LotSize cfg) price sl tp
  else
    Print [PStr "Order execution failed: "; PInt (os_error reply)].

(** The test that makes CheckForSignals return at once. *)
Definition no_signal_response (response : string) : bool :=
  match v with
  | Original => (response =? EmptyString)%string || (response =? "no_signal")%string
  | Revised => (response =? EmptyString)%string || (StringFind response "no_signal" >=? 0)
  end.

(** CheckForSignals, after the early return: the response is decoded,
    validated and executed. *)
Definition CheckForSignals_handle (response : string) : H unit :=
  let signal := response in
  let direction := Extract.ExtractValue v lib signal "direction" in
  let entryPrice :=
    h_StringToDouble host (Extract.ExtractValue v lib signal "entry_price") in
  let sl := h_StringToDouble host (Extract.ExtractValue v lib signal "sl") in
  let tp := h_StringToDouble host (Extract.ExtractValue v lib signal "tp") in
  let confidence :=
    h_StringToDouble host (Extract.ExtractValue v lib signal "confidence") in
  Print [PStr "Received signal: "; PStr direction; PStr " @ "; PDbl entryPrice;
         PStr " (confidence: "; PDbl confidence; PStr ")"] ;;
  ok <- ValidateSignal direction entryPrice sl tp ;;
  if negb ok then Print [PStr "Signal validation failed"]
  else ExecuteSignal direction entryPrice sl tp.

(** CheckForSignals *)
Definition CheckForSignals : H unit :=
  response <- SendHttpRequest (BackendURL cfg ++ "/api/signals") NoPayload ;;
  if no_signal_response response then ret tt
  else CheckForSignals_handle response.

(** OnInit: the scan of the order history of [Revised], from the last
    position down to 0.  [MathMax] works on doubles, which hold every
    [int] exactly. *)
Fixpoint init_watermark (pool : list (option Order)) (last : Z) : Z :=
  match pool with
  | [] => last
  | o :: rest =>
      init_watermark rest
        (match o with
         | Some o' => if order_is_ours o then Z.max last (o_ticket o') else last
         | None => last
         end)
  end.

Definition OnInit (g : Globals) : H (Z * Globals) :=
  Print [PStr "AI Scalping EA initialized for "; PStr (Symbol cfg)] ;;
  let g := set_tickData (ArrayResize (tickData g) (Z.to_nat tickBufferSize)) g in
  connected <- TestBackendConnection ;;
  g <- (if connected
        then Print [PStr "Backend connection successful"] ;; ret (set_isConnected true g)
        else Print [PStr "Backend connection failed - check URL and API key"] ;;
             ret (set_isConnected false g)) ;;
  match v with
  | Original => ret (INIT_SUCCEEDED, g)
  | Revised =>
      history <- OrdersHistoryPool ;;
      let g := set_lastLoggedTicket (init_watermark (rev history) (lastLoggedTicket g)) g in
      Print [PStr "Last logged ticket set to: "; PInt (lastLoggedTicket g)] ;;
      ret (INIT_SUCCEEDED, g)
  end.

(** OnDeinit *)
Definition OnDeinit (reason : Z) (g : Globals) : H Globals :=
  Print [PStr "AI Scalping EA deinitialized"] ;;
  g <- (if tickCount g >? 0 then SendTickData g else ret g) ;;
  ret (set_tickData [] g).

(** OnTick: the block that polls for signals. *)
Definition OnTick_poll (g : Globals) : H Globals :=
  now <- GetTickCount ;;
  if now - lastSignalPoll g >? signalPollInterval then
    CheckForSignals ;;
    now <- GetTickCount ;;
    ret (set_lastSignalPoll now g)
  else ret g.

(** OnTick: the block that sends the buffered ticks.  The clock is read
    only when the buffer is not full. *)
Definition OnTick_flush (g : Globals) : H Globals :=
  if tickCount g >=? tickBufferSize then SendTickData g
  else
    now <- GetTickCount ;;
    if now - lastTickSend g >? 30000 then SendTickData g else ret g.

(** OnTick up to the block that sends the buffered ticks. *)
Definition OnTick_collect_and_poll (g : Globals) : H Globals :=
  g <- CollectTickData g ;;
  match v with
  | Original => OnTick_poll g
  | Revised => if EnableTrading cfg then OnTick_poll g else ret g
  end.

(** The test that lets OnTick do anything at all. *)
Definition OnTick_runs (g : Globals) : bool :=
  match v with
  | Original => negb (negb (isConnected g) || negb (EnableTrading cfg))
  | Revised => negb (negb (isConnected g))
  end.

Definition OnTick (g : Globals) : H Globals :=
  if OnTick_runs g then
    g <- OnTick_collect_and_poll g ;;
    OnTick_flush g
  else ret g.

(** The close report, built from the selected order. *)
Definition close_payload (o : Order) : Payload :=
  TradeClosePayload (o_ticket o) (o_close_price o) (o_profit o) (o_close_time o).

(** [Original]: LogClosedTradeToBackend, on the selected order. *)
Definition LogClosedTradeToBackend (o : Order) : H unit :=
  response <- SendHttpRequest (BackendURL cfg ++ "/api/trades") (close_payload o) ;;
  if negb (response =? EmptyString)%string
  then Print [PStr "Closed trade logged to backend"]
  else Print [PStr "Failed to log closed trade"].

(** OnTrade: the loop over the order history, given from its last
    position down to 0; a [break] ends the recursion. *)
Fixpoint OnTrade_loop (pool : list (option Order)) (g : Globals) : H Globals :=
  match pool with
  | [] => ret g
  | None :: rest => OnTrade_loop rest g
  | Some o :: rest =>
      match v with
      | Original =>
          if order_is_ours (Some o) then
            if o_close_time o >? 0 then
              LogClosedTradeToBackend o ;;
              ret g
            else OnTrade_loop rest g
          else OnTrade_loop rest g
      | Revised =>
          if order_is_ours (Some o) && (o_ticket o >? lastLoggedTicket g) then
            let g := set_lastLoggedTicket (o_ticket o) g in
            response <- SendHttpRequest (BackendURL cfg ++ "/api/trades") (close_payload o) ;;
            (if negb (response =? EmptyString)%string
             then Print [PStr "Closed trade logged to backend: "; PInt (o_ticket o)]
             else Print [PStr "Failed to log closed trade: "; PInt (o_ticket o)]) ;;
            ret g
          else OnTrade_loop rest g
      end
  end.

Definition OnTrade (g : Globals) : H Globals :=
  history <- OrdersHistoryPool ;;
  OnTrade_loop (rev history) g.

(** The callbacks of the terminal, and the program run on a sequence of
    them. *)
Inductive Callback :=
| CbInit
| CbTick
| CbTrade
| CbDeinit (reason : Z).

Definition step (cb : Callback) (g : Globals) : H Globals :=
  match cb with
  | CbInit => r <- OnInit g ;; ret (snd r)
  | CbTick => OnTick g
  | CbTrade => OnTrade g
  | CbDeinit reason => OnDeinit reason g
  end.

Fixpoint run (cbs : list Callback) (g : Globals) : H Globals :=
  match cbs with
  | [] => ret g
  | cb :: rest => g <- step cb g ;; run rest g
  end.

End Program.

(** ** Observations on traces *)

(** The tickets of the close reports sent, newest first. *)
Fixpoint reported_tickets (tr : list Effect) : list Z :=
  match tr with
  | [] => []
  | EvWebRequest _ _ _ (TradeClosePayload ticket _ _ _) :: rest =>
      ticket :: reported_tickets rest
  | _ :: rest => reported_tickets rest
  end.

(** The number of tick uploads sent. *)
Definition is_tick_upload (e : Effect) : bool :=
  match e with EvWebRequest _ _ _ (TicksPayload _ _) => true | _ => false end.

Definition tick_uploads (tr : list Effect) : nat :=
  List.length (filter is_tick_upload tr).

(** The greatest of a list of tickets and a lower bound. *)
Definition max_ticket (l : list Z) (low : Z) : Z := fold_right Z.max low l.

(** The number of signals that were decoded (CheckForSignals prints each
    one before it validates it). *)
Definition is_received (e : Effect) : bool :=
  match e with
  | EvPrint (PStr s :: _) => (s =? "Received signal: ")%string
  | _ => false
  end.

Definition signals_received (tr : list Effect) : nat :=
  List.length (filter is_received tr).

(** The orders submitted, newest first. *)
Definition is_order_send (e : Effect) : bool :=
  match e with EvOrderSend _ _ _ _ _ _ _ _ _ _ _ => true | _ => false end.

Definition orders_sent (tr : list Effect) : list Effect := filter is_order_send tr.

(** The number of entries of a pool that carry this session's symbol and
    magic number. *)
Definition open_positions (cfg : Config) (pool : list (option Order)) : Z :=
  Z.of_nat (List.length (filter (order_is_ours cfg) pool)).

(** The tickets of those entries. *)
Fixpoint our_tickets (cfg : Config) (pool : list (option Order)) : list Z :=
  match pool with
  | [] => []
  | Some o :: rest =>
      if order_is_ours cfg (Some o) then o_ticket o :: our_tickets cfg rest
      else our_tickets cfg rest
  | None :: rest => our_tickets cfg rest
  end.

(** The tickets that the session starts of a run of [Revised] find in the
    order history, newest first.  OnInit reads the history as its second
    call to the terminal, after the health check. *)
Fixpoint session_start_tickets (lib : Library) (cfg : Config) (host : Host)
    (cbs : list Callback) (g : Globals) (w : World) : list Z :=
  match cbs with
  | [] => []
  | cb :: rest =>
      let (g', w') := step Revised lib cfg host cb g w in
      session_start_tickets lib cfg host rest g' w'
      ++ match cb with
         | CbInit => our_tickets cfg (h_history host (S (calls w)))
         | _ => []
         end
  end.

(** ** Sample terminals for the concrete scenarios *)

Definition ok_reply (body : string) : WebReply :=
  {| wr_error := 0; wr_code := 200; wr_body := body |}.

(** A failed WebRequest: error 5203, no status, no body. *)
Definition failed_reply : WebReply :=
  {| wr_error := 5203; wr_code := -1; wr_body := EmptyString |}.

Definition sample_order (ticket : Z) : Order :=
  {| o_ticket := ticket; o_symbol := "EURUSD"; o_magic := 123456;
     o_close_price := decimal 11 1; o_profit := double_of_int 1;
     o_close_time := 1700000000 |}.

(** A terminal with constant quotes and clock on a four-digit symbol
    ([Point] is 0.0001). *)
Definition sample_host (spread ask_ bid : double) (clock : Z) (web : nat -> WebReply)
    (trades history : list (option Order)) : Host :=
  {| h_bid := fun _ => bid;
     h_ask := fun _ => ask_;
     h_spread := fun _ => spread;
     h_volume := fun _ => 1;
     h_GetTickCount := fun _ => clock;
     h_TimeCurrent := fun _ => 1700000000;
     h_trades := fun _ => trades;
     h_history := fun _ => history;
     h_web := web;
     h_order_send := fun _ => {| os_ticket := 1; os_error := 0 |};
     h_Point := decimal 1 4;
     h_StringToDouble := fun _ => double_zero |}.

Definition connected_globals (count last_send : Z) : Globals :=
  {| lastSignalPoll := 0; lastTickSend := last_send;
     tickData := repeat None (Z.to_nat tickBufferSize);
     tickCount := count; isConnected := true; lastLoggedTicket := 0 |}.

(** The text of the C2 scenario: an object whose key [k] has the quoted
    value [a,b]. *)
Definition sample_json : string :=
  ("{" ++ Extract.search_token "k" ++ dquote ++ "a,b" ++ dquote ++ "}")%string.

(** Scenario A: a spread of 25 points. *)
Definition wide_spread_host : Host :=
  sample_host (double_of_int 25) (decimal 11 1) (decimal 10998 4) 0 (fun _ => ok_reply "ok") [] [].

(** Scenario B: three open positions of this session. *)
Definition full_book_host : Host :=
  sample_host (double_of_int 10) (decimal 11 1) (decimal 10998 4) 0 (fun _ => ok_reply "ok")
    [Some (sample_order 1); Some (sample_order 2); Some (sample_order 3)] [].

(** Scenario C: ask 1.10000, no open position, spread 10. *)
Definition calm_host : Host :=
  sample_host (double_of_int 10) (decimal 11 1) (decimal 10998 4) 0 (fun _ => ok_reply "ok") [] [].

(** Scenario D: the first WebRequest fails, the later ones succeed. *)
Definition flaky_host : Host :=
  sample_host (double_of_int 10) (decimal 11 1) (decimal 10998 4) 0
    (fun n => match n with O => failed_reply | S _ => ok_reply "ok" end) [] [].

(** A clock that reads 30001 ms. *)
Definition late_host : Host :=
  sample_host (double_of_int 10) (decimal 11 1) (decimal 10998 4) 30001
    (fun _ => ok_reply "ok") [] [].

(** A backend that answers every request with the sentinel. *)
Definition idle_host : Host :=
  sample_host (double_of_int 10) (decimal 11 1) (decimal 10998 4) 0
    (fun _ => ok_reply "no_signal") [] [].

(** A clock that reads 30000 ms. *)
Definition boundary_host : Host :=
  sample_host (double_of_int 10) (decimal 11 1) (decimal 11 1) 30000 (fun _ => ok_reply "ok") [] [].

(** A backend whose answer holds the sentinel among other text. *)
Definition busy_host : Host :=
  sample_host (double_of_int 10) (decimal 11 1) (decimal 11 1) 0
    (fun _ => ok_reply "status: no_signal") [] [].

(** An account whose history holds ticket 7 of this session. *)
Definition restart_host : Host :=
  sample_host (double_of_int 10) (decimal 11 1) (decimal 11 1) 0 (fun _ => ok_reply "healthy") []
    [Some (sample_order 7)].

(** A three-digit symbol: [Point] is 0.001, the ask is 150.000. *)
Definition yen_host : Host :=
  {| h_bid := fun _ => decimal 14999 2;
     h_ask := fun _ => decimal 150 0;
     h_spread := fun _ => double_of_int 10;
     h_volume := fun _ => 1;
     h_GetTickCount := fun _ => 0;
     h_TimeCurrent := fun _ => 1700000000;
     h_trades := fun _ => [];
     h_history := fun _ => [];
     h_web := fun _ => ok_reply "ok";
     h_order_send := fun _ => {| os_ticket := 1; os_error := 0 |};
     h_Point := decimal 1 3;
     h_StringToDouble := fun _ => double_zero |}.

(** ** Vocabulary of the proofs *)

(** [does P R m]: from any world, [m] adds to the trace only effects that
    satisfy [P], and returns a value that satisfies [R]. *)
Definition does {A} (P : Effect -> Prop) (R : A -> Prop) (m : H A) : Prop :=
  forall w, exists new,
    trace (snd (m w)) = new ++ trace w /\ Forall P new /\ R (fst (m w)).

(** The property that every value has. *)
Definition any {A} (a : A) : Prop := True.

(** Effects that are neither a tick upload nor a close report. *)
Definition other_effect (e : Effect) : Prop :=
  match e with
  | EvWebRequest _ _ _ (TicksPayload _ _) => False
  | EvWebRequest _ _ _ (TradeClosePayload _ _ _ _) => False
  | _ => True
  end.

(** Effects that are not a close report. *)
Definition not_close_report (e : Effect) : Prop :=
  match e with EvWebRequest _ _ _ (TradeClosePayload _ _ _ _) => False | _ => True end.

(** Effects that are not a tick upload. *)
Definition not_tick_upload (e : Effect) : Prop := is_tick_upload e = false.

(** Effects that are not the print of a decoded signal. *)
Definition not_received (e : Effect) : Prop := is_received e = false.

(** Effects that are not an OrderSend. *)
Definition not_order_send (e : Effect) : Prop := is_order_send e = false.

(** Prints. *)
Definition is_print (e : Effect) : Prop :=
  match e with EvPrint _ => True | _ => False end.

(** What CollectTickData, and OnTick up to its last block, may do to the
    global variables. *)
Definition collected (g g' : Globals) : Prop :=
  tickCount g' = (if tickCount g >=? tickBufferSize then tickCount g else tickCount g + 1)
  /\ lastTickSend g' = lastTickSend g
  /\ lastLoggedTicket g' = lastLoggedTicket g
  /\ isConnected g' = isConnected g.

(** What SendTickData may do to them. *)
Definition flushed (g g' : Globals) : Prop :=
  g' = g \/ exists now, g' = set_lastTickSend now (set_tickCount 0 g).

(** What the polling block of OnTick may do to them. *)
Definition polled (g g' : Globals) : Prop :=
  g' = g \/ exists now, g' = set_lastSignalPoll now g.

(** What OnTick and OnDeinit keep: the watermark, and the bound on the
    tick count. *)
Definition ticked (g g' : Globals) : Prop :=
  lastLoggedTicket g' = lastLoggedTicket g
  /\ (tickCount g <= tickBufferSize -> tickCount g' <= tickBufferSize).

(** What OnInit keeps. *)
Definition initialised (g g' : Globals) : Prop :=
  tickCount g' = tickCount g /\ lastTickSend g' = lastTickSend g.

(** What one session start finds in the order history. *)
Definition scanned (cfg : Config) (host : Host) (cb : Callback) (w : World) : list Z :=
  match cb with
  | CbInit => our_tickets cfg (h_history host (S (calls w)))
  | _ => []
  end.

(** ** Shapes of field texts *)

(** The characters that the ExtractValue of [Revised] removes around a
    value: space and double quote. *)
Definition is_pad (c : ascii) : bool := Ascii.eqb c " " || Ascii.eqb c "034".

(** The characters that end a field: comma and closing brace. *)
Definition is_delimiter (c : ascii) : bool := Ascii.eqb c "," || Ascii.eqb c "}".

(** Text made of spaces and double quotes only. *)
Fixpoint padding (s : string) : bool :=
  match s with
  | EmptyString => true
  | String c s' => is_pad c && padding s'
  end.

(** Text without comma and closing brace. *)
Fixpoint undelimited (s : string) : bool :=
  match s with
  | EmptyString => true
  | String c s' => negb (is_delimiter c) && undelimited s'
  end.

(** Text without double quote. *)
Fixpoint unquoted (s : string) : bool :=
  match s with
  | EmptyString => true
  | String c s' => negb (Ascii.eqb c "034") && unquoted s'
  end.

(** The last character of a text, if it has one. *)
Fixpoint last_char (s : string) : option ascii :=
  match s with
  | EmptyString => None
  | String c EmptyString => Some c
  | String _ s' => last_char s'
  end.

(** The first character of a text, if it has one. *)
Definition first_char (s : string) : option ascii :=
  match s with
  | EmptyString => None
  | String c _ => Some c
  end.

(** [clear_of bad s]: neither the first nor the last character of [s]
    satisfies [bad]. *)
Definition clear_of (bad : ascii -> bool) (s : string) : bool :=
  match first_char s, last_char s with
  | Some c, Some d => negb (bad c) && negb (bad d)
  | _, _ => true
  end.

(** ** More observations *)

(** The [headers] text that SendHttpRequest builds for every request. *)
Definition request_headers (cfg : Config) : string :=
  ("Content-Type: application/json" ++ crlf ++ "Authorization: Bearer "
     ++ BackendAPIKey cfg)%string.

(** The texts that the WebRequest call of SendHttpRequest carries between
    the address and the timeout: the headers in [Revised]; the empty text
    and then the headers in [Original]. *)
Definition request_texts (v : Version) (cfg : Config) : list string :=
  match v with
  | Original => [EmptyString; request_headers cfg]
  | Revised => [request_headers cfg]
  end.

(** A request sent to the backend. *)
Definition is_web_request (e : Effect) : bool :=
  match e with EvWebRequest _ _ _ _ => true | _ => false end.

(** The requests of a trace, newest first. *)
Definition web_requests (tr : list Effect) : list Effect := filter is_web_request tr.

(** The ticks that the next upload would carry: the first [tickCount]
    entries of the buffer. *)
Definition batch (g : Globals) : list (option TickRec) :=
  firstn (Z.to_nat (tickCount g)) (tickData g).

(** Effects that need no permission to trade: prints, health checks, tick
    uploads and close reports, each sent to its own address. *)
Definition housekeeping (cfg : Config) (e : Effect) : Prop :=
  match e with
  | EvPrint _ => True
  | EvOrderSend _ _ _ _ _ _ _ _ _ _ _ => False
  | EvWebRequest _ url _ NoPayload => url = (BackendURL cfg ++ "/api/health")%string
  | EvWebRequest _ url _ (TicksPayload _ _) => url = (BackendURL cfg ++ "/api/ticks")%string
  | EvWebRequest _ url _ (TradeClosePayload _ _ _ _) =>
      url = (BackendURL cfg ++ "/api/trades")%string
  | EvWebRequest _ _ _ (TradeOpenPayload _ _ _ _ _ _ _ _) => False
  end.

(** A request for signals. *)
Definition is_signal_poll (cfg : Config) (e : Effect) : bool :=
  match e with
  | EvWebRequest _ url _ _ => (url =? BackendURL cfg ++ "/api/signals")%string
  | _ => false
  end.

(** The number of requests for signals of a trace. *)
Definition signal_polls (cfg : Config) (tr : list Effect) : nat :=
  List.length (filter (is_signal_poll cfg) tr).

(** Callbacks between a session start and its end. *)
Definition tick_or_trade (cb : Callback) : bool :=
  match cb with CbTick | CbTrade => true | _ => false end.

(** Tickets listed newest first, each above all the older ones. *)
Fixpoint descending (l : list Z) : Prop :=
  match l with
  | [] => True
  | t :: older => Forall (fun x => x < t) older /\ descending older
  end.

(** An entry of the history that OnTrade of [Original] reports: selected,
    of this session, with a close time. *)
Definition closed_ours (cfg : Config) (e : option Order) : bool :=
  match e with
  | Some o => order_is_ours cfg (Some o) && (o_close_time o >? 0)
  | None => false
  end.

(** An entry of the history that OnTrade of [Revised] reports: selected,
    of this session, with a ticket above the watermark. *)
Definition fresh_ours (cfg : Config) (watermark : Z) (e : option Order) : bool :=
  match e with
  | Some o => order_is_ours cfg (Some o) && (o_ticket o >? watermark)
  | None => false
  end.

(** What OnTrade may do to the global variables. *)
Definition traded (g g' : Globals) : Prop :=
  g' = g \/ exists ticket, g' = set_lastLoggedTicket ticket g.

(** A buffer of the size OnInit gives it, with a tick count inside it. *)
Definition well_sized (g : Globals) : Prop :=
  List.length (tickData g) = Z.to_nat tickBufferSize
  /\ 0 <= tickCount g <= tickBufferSize.

(** ** More sample texts and terminals *)

(** A signal with padded, quoted and bare fields. *)
Definition sample_signal : string :=
  ("{" ++ Extract.search_token "direction" ++ " " ++ dquote ++ "BUY" ++ dquote ++ " ,"
       ++ Extract.search_token "entry_price" ++ "1.10250,"
       ++ Extract.search_token "sl" ++ "1.1000}")%string.


(** * Properties *)

(** ** ExtractValue *)

Module ExtractFacts.
Import Extract.

Section Readings.
Variable lib : Library.

Lemma length_append a b : String.length (a ++ b) = (String.length a + String.length b)%nat.
Proof. induction a as [|c a IH]; simpl; auto. Qed.

Lemma append_assoc (a b c : string) : ((a ++ b) ++ c = a ++ (b ++ c))%string.
Proof. induction a as [|x a IH]; simpl; [reflexivity|]. rewrite IH. reflexivity. Qed.

Lemma substring_skip a b n m :
  substring (String.length a + n) m (a ++ b) = substring n m b.
Proof. induction a as [|c a IH]; simpl; auto. Qed.

Lemma substring_take a b : substring 0 (String.length a) (a ++ b) = a.
Proof.
  induction a as [|c a IH]; simpl.
  - destruct b; reflexivity.
  - rewrite IH. reflexivity.
Qed.

(** The piece [b] of [a ++ b ++ c]. *)
Lemma StringSubstr_middle a b c :
  b <> EmptyString ->
  StringSubstr lib (a ++ b ++ c) (Z.of_nat (String.length a)) (Z.of_nat (String.length b))
  = b.
Proof.
  intros Hb. unfold StringSubstr.
  replace (Z.of_nat (String.length a) <? 0) with false by (symmetry; apply Z.ltb_ge; lia).
  replace (Z.of_nat (String.length b) <? 0) with false by (symmetry; apply Z.ltb_ge; lia).
  replace (Z.of_nat (String.length b) =? 0) with false
    by (symmetry; apply Z.eqb_neq; destruct b; [contradiction|simpl String.length; lia]).
  cbn [andb orb].
  rewrite !Nat2Z.id.
  rewrite <- (Nat.add_0_r (String.length a)), substring_skip.
  apply substring_take.
Qed.

(** The character at a position. *)
Lemma StringSubstr_char a c b :
  StringSubstr lib (a ++ String c b) (Z.of_nat (String.length a)) 1 = String c EmptyString.
Proof.
  apply (StringSubstr_middle a (String c EmptyString) b). discriminate.
Qed.

Lemma StringLen_append a b : StringLen (a ++ b) = StringLen a + StringLen b.
Proof. unfold StringLen. rewrite length_append. lia. Qed.

Lemma single_eqb c d :
  (String c EmptyString =? String d EmptyString)%string = Ascii.eqb c d.
Proof. simpl. destruct (Ascii.eqb c d); reflexivity. Qed.

(** Inside a quoted value the scan runs up to the closing quote and stops
    right after it. *)
Lemma scan_quoted_inside val : forall a c0 rest fuel,
  plain val = true -> Ascii.eqb c0 "\" = false -> ends_field rest = true ->
  (String.length val + 2 <= fuel)%nat ->
  scan_quoted lib fuel (a ++ String c0 (val ++ dquote ++ rest))
    (Z.of_nat (String.length a + 1)) true
  = Z.of_nat (String.length a + 1 + String.length val + 1).
Proof.
  induction val as [|c val IH]; intros a c0 rest fuel Hp Hc Hr Hf.
  - destruct fuel as [|[|fuel]]; [simpl in Hf; lia|simpl in Hf; lia|].
    set (json := (a ++ String c0 (EmptyString ++ dquote ++ rest))%string).
    assert (J : json = ((a ++ String c0 EmptyString) ++ String "034" rest)%string).
    { unfold json. rewrite append_assoc. reflexivity. }
    assert (L : StringLen json = Z.of_nat (String.length a + 1) + 1 + StringLen rest).
    { rewrite J, !StringLen_append. unfold StringLen. simpl. lia. }
    cbn [scan_quoted].
    replace (Z.of_nat (String.length a + 1) <? StringLen json) with true
      by (symmetry; apply Z.ltb_lt; rewrite L; unfold StringLen; lia).
    assert (C1 : StringSubstr lib json (Z.of_nat (String.length a + 1)) 1 = dquote).
    { rewrite J. replace (String.length a + 1)%nat
        with (String.length (a ++ String c0 EmptyString)) by (rewrite length_append; reflexivity).
      apply StringSubstr_char. }
    assert (C0 : StringSubstr lib json (Z.of_nat (String.length a + 1) - 1) 1
                 = String c0 EmptyString).
    { replace (Z.of_nat (String.length a + 1) - 1) with (Z.of_nat (String.length a)) by lia.
      apply StringSubstr_char. }
    rewrite C1, C0, single_eqb, Hc. cbn [String.eqb dquote Ascii.eqb Bool.eqb andb orb negb].
    rewrite orb_true_r. cbn [andb negb].
    destruct rest as [|r rest].
    + replace (Z.of_nat (String.length a + 1) + 1 <? StringLen json) with false
        by (symmetry; apply Z.ltb_ge; rewrite L; unfold StringLen; simpl; lia).
      simpl. lia.
    + replace (Z.of_nat (String.length a + 1) + 1 <? StringLen json) with true
        by (symmetry; apply Z.ltb_lt; rewrite L; unfold StringLen; simpl; lia).
      assert (C2 : StringSubstr lib json (Z.of_nat (String.length a + 1) + 1) 1
                   = String r EmptyString).
      { rewrite J.
        replace ((a ++ String c0 EmptyString) ++ String "034" (String r rest))%string
          with (((a ++ String c0 EmptyString) ++ dquote) ++ String r rest)%string
          by (rewrite (append_assoc _ dquote); reflexivity).
        replace (Z.of_nat (String.length a + 1) + 1)
          with (Z.of_nat (String.length ((a ++ String c0 EmptyString) ++ dquote)))
          by (rewrite !length_append; simpl; lia).
        apply StringSubstr_char. }
      rewrite C2. simpl in Hr.
      assert (Q : Ascii.eqb r "034" = false).
      { apply orb_true_iff in Hr. destruct Hr as [E|E]; apply Ascii.eqb_eq in E; subst r;
          reflexivity. }
      unfold dquote. rewrite !single_eqb, Q, Hr. simpl. lia.
  - simpl in Hp. apply andb_true_iff in Hp. destruct Hp as [Hp Hv].
    apply andb_true_iff in Hp. destruct Hp as [Hq Hb].
    apply negb_true_iff in Hq, Hb.
    destruct fuel as [|fuel]; [simpl in Hf; lia|].
    set (json := (a ++ String c0 (String c val ++ dquote ++ rest))%string).
    assert (J : json = ((a ++ String c0 EmptyString) ++ String c (val ++ dquote ++ rest))%string).
    { unfold json. rewrite append_assoc. reflexivity. }
    assert (L : Z.of_nat (String.length a + 1) < StringLen json).
    { rewrite J, !StringLen_append. unfold StringLen. simpl. lia. }
    cbn [scan_quoted].
    replace (Z.of_nat (String.length a + 1) <? StringLen json) with true
      by (symmetry; apply Z.ltb_lt; exact L).
    assert (C1 : StringSubstr lib json (Z.of_nat (String.length a + 1)) 1 = String c EmptyString).
    { rewrite J. replace (String.length a + 1)%nat
        with (String.length (a ++ String c0 EmptyString)) by (rewrite length_append; reflexivity).
      apply StringSubstr_char. }
    rewrite C1. unfold dquote at 1. rewrite single_eqb, Hq. cbn [andb negb].
    rewrite J.
    replace (Z.of_nat (String.length a + 1) + 1)
      with (Z.of_nat (String.length (a ++ String c0 EmptyString) + 1))
      by (rewrite length_append; simpl; lia).
    rewrite IH; auto.
    + rewrite length_append. simpl. lia.
    + simpl in Hf. lia.
Qed.

(** From the character before a quoted value, the scan stops right after
    the closing quote. *)
Lemma scan_quoted_value a c0 val rest fuel :
  plain val = true -> Ascii.eqb c0 "\" = false -> ends_field rest = true ->
  (String.length val + 3 <= fuel)%nat ->
  scan_quoted lib fuel (a ++ String c0 (dquote ++ val ++ dquote ++ rest))
    (Z.of_nat (String.length a + 1)) false
  = Z.of_nat (String.length a + 1 + String.length val + 2).
Proof.
  intros Hp Hc Hr Hf.
  destruct fuel as [|fuel]; [lia|].
  set (json := (a ++ String c0 (dquote ++ val ++ dquote ++ rest))%string).
  assert (J : json = ((a ++ String c0 EmptyString)
                        ++ String "034" (val ++ dquote ++ rest))%string).
  { unfold json. rewrite append_assoc. reflexivity. }
  assert (L : Z.of_nat (String.length a + 1) < StringLen json).
  { rewrite J, !StringLen_append. unfold StringLen. simpl. lia. }
  cbn [scan_quoted].
  replace (Z.of_nat (String.length a + 1) <? StringLen json) with true
    by (symmetry; apply Z.ltb_lt; exact L).
  assert (C1 : StringSubstr lib json (Z.of_nat (String.length a + 1)) 1 = dquote).
  { rewrite J. replace (String.length a + 1)%nat
      with (String.length (a ++ String c0 EmptyString)) by (rewrite length_append; reflexivity).
    apply StringSubstr_char. }
  assert (C0 : StringSubstr lib json (Z.of_nat (String.length a + 1) - 1) 1
               = String c0 EmptyString).
  { replace (Z.of_nat (String.length a + 1) - 1) with (Z.of_nat (String.length a)) by lia.
    apply StringSubstr_char. }
  rewrite C1, C0, single_eqb, Hc, String.eqb_refl, orb_true_r.
  cbn [andb negb].
  rewrite J.
  replace (Z.of_nat (String.length a + 1) + 1)
    with (Z.of_nat (String.length (a ++ String c0 EmptyString) + 1))
    by (rewrite length_append; simpl; lia).
  rewrite scan_quoted_inside; auto.
  - rewrite length_append. simpl. lia.
  - lia.
Qed.

Lemma StringTrimRight_kept s c :
  is_blank c = false ->
  StringTrimRight (s ++ String c EmptyString) = (s ++ String c EmptyString)%string.
Proof.
  intros Hc. induction s as [|d s IH]; simpl.
  - rewrite Hc. reflexivity.
  - rewrite IH. destruct (s ++ String c EmptyString)%string eqn:E; [|reflexivity].
    destruct s; discriminate.
Qed.

(** [Original] returns a quoted value whole and without its quotes,
    whatever commas and braces it holds. *)
Lemma ExtractValue_original_quoted pre key val rest :
  let json := (pre ++ search_token key ++ dquote ++ val ++ dquote ++ rest)%string in
  StringFind json (search_token key) = StringLen pre ->
  val <> EmptyString ->
  plain val = true -> ends_field rest = true ->
  ExtractValue_original lib json key = val.
Proof.
  intros json Hfind Hne Hp Hr.
  set (a := (pre ++ dquote ++ key ++ dquote)%string).
  assert (J : json = (a ++ String ":" (dquote ++ val ++ dquote ++ rest))%string).
  { unfold json, a, search_token. rewrite !append_assoc. reflexivity. }
  assert (S0 : StringLen pre + StringLen (search_token key)
               = Z.of_nat (String.length a + 1)).
  { unfold a, search_token, StringLen. rewrite !length_append. simpl. lia. }
  unfold ExtractValue_original. rewrite Hfind.
  replace (StringLen pre =? -1) with false
    by (symmetry; apply Z.eqb_neq; unfold StringLen; lia).
  cbv zeta. rewrite S0.
  assert (E : scan_quoted lib (String.length json) json (Z.of_nat (String.length a + 1)) false
              = Z.of_nat (String.length a + 1 + String.length val + 2)).
  { rewrite J at 2. apply scan_quoted_value; auto.
    rewrite J, !length_append. simpl. rewrite !length_append. simpl. lia. }
  rewrite E.
  set (quoted := (dquote ++ val ++ dquote)%string).
  assert (V : StringSubstr lib json (Z.of_nat (String.length a + 1))
                (Z.of_nat (String.length a + 1 + String.length val + 2)
                 - Z.of_nat (String.length a + 1)) = quoted).
  { replace (Z.of_nat (String.length a + 1 + String.length val + 2)
             - Z.of_nat (String.length a + 1))
      with (Z.of_nat (String.length quoted))
      by (unfold quoted; rewrite !length_append; simpl; lia).
    replace (String.length a + 1)%nat with (String.length (a ++ ":"))
      by (rewrite length_append; reflexivity).
    replace json with ((a ++ ":") ++ quoted ++ rest)%string.
    - apply StringSubstr_middle. discriminate.
    - rewrite J. unfold quoted. rewrite !append_assoc. reflexivity. }
  rewrite V.
  assert (T : (if trim_in_place lib then StringTrimRight (StringTrimLeft quoted) else quoted)
              = quoted).
  { destruct (trim_in_place lib); [|reflexivity].
    unfold quoted. simpl StringTrimLeft.
    change (String "034" (val ++ dquote))%string
      with ((String "034" val) ++ String "034" EmptyString)%string.
    apply StringTrimRight_kept. reflexivity. }
  rewrite T.
  assert (Q0 : StringSubstr lib quoted 0 1 = dquote).
  { apply (StringSubstr_char EmptyString "034" (val ++ dquote)). }
  assert (Q1 : StringSubstr lib quoted (StringLen quoted - 1) 1 = dquote).
  { replace (StringLen quoted - 1) with (Z.of_nat (String.length (dquote ++ val)))
      by (unfold quoted, StringLen; rewrite !length_append;
          change (String.length dquote) with 1%nat; lia).
    unfold quoted. rewrite <- append_assoc.
    apply StringSubstr_char. }
  rewrite Q0, Q1, String.eqb_refl. cbn [andb].
  replace (StringLen quoted - 2) with (Z.of_nat (String.length val))
    by (unfold quoted, StringLen; rewrite !length_append;
        change (String.length dquote) with 1%nat; lia).
  apply (StringSubstr_middle dquote val dquote Hne).
Qed.

(** *** The loops end within their fuel *)

Lemma substring_beyond s n m : (String.length s <= n)%nat -> substring n m s = EmptyString.
Proof.
  revert n. induction s as [|c s IH]; intros n Hn.
  - destruct n, m; reflexivity.
  - destruct n as [|n]; [simpl in Hn; lia|]. simpl. apply IH. simpl in Hn. lia.
Qed.

Lemma StringSubstr_beyond s start len :
  StringLen s <= start -> 0 <= len -> StringSubstr lib s start len = EmptyString.
Proof.
  intros Hs Hl. unfold StringSubstr, StringLen in *.
  destruct (start <? 0); [reflexivity|].
  destruct ((len <? 0) || _); apply substring_beyond; lia.
Qed.

Lemma substring_length s m :
  String.length (substring 0 m s) = Nat.min m (String.length s).
Proof.
  revert m. induction s as [|c s IH]; intros [|m]; simpl; auto.
Qed.

Lemma scan_quoted_fuel fuel : forall k json e b,
  StringLen json - e <= Z.of_nat fuel ->
  scan_quoted lib (fuel + k) json e b = scan_quoted lib fuel json e b.
Proof.
  induction fuel as [|fuel IH]; intros k json e b Hf.
  - simpl. destruct k; [reflexivity|]. simpl.
    replace (e <? StringLen json) with false by (symmetry; apply Z.ltb_ge; lia).
    reflexivity.
  - simpl. destruct (e <? StringLen json) eqn:In; [|reflexivity].
    rewrite !IH by lia. reflexivity.
Qed.

Lemma scan_plain_fuel fuel : forall k json e,
  StringLen json - e <= Z.of_nat fuel ->
  scan_plain lib (fuel + k) json e = scan_plain lib fuel json e.
Proof.
  induction fuel as [|fuel IH]; intros k json e Hf.
  - simpl. destruct k; [reflexivity|]. simpl.
    replace (e <? StringLen json) with false by (symmetry; apply Z.ltb_ge; lia).
    reflexivity.
  - simpl. destruct (e <? StringLen json) eqn:In; [|reflexivity].
    rewrite IH by lia. reflexivity.
Qed.

Lemma skip_leading_fuel fuel : forall k json start,
  StringLen json - start < Z.of_nat fuel ->
  skip_leading lib (fuel + k) json start = skip_leading lib fuel json start.
Proof.
  induction fuel as [|fuel IH]; intros k json start Hf.
  - unfold StringLen in Hf. simpl.
    destruct k; [reflexivity|]. simpl.
    rewrite StringSubstr_beyond by (unfold StringLen; lia). reflexivity.
  - simpl. destruct (_ || _)%bool eqn:Skip; [|reflexivity].
    apply IH. lia.
Qed.

(** The tests of the loops, on one character. *)
Lemma pad_test c :
  ((String c EmptyString =? " ") || (String c EmptyString =? dquote))%string = is_pad c.
Proof. unfold dquote. rewrite !single_eqb. reflexivity. Qed.

Lemma delimiter_test c :
  ((String c EmptyString =? ",") || (String c EmptyString =? "}"))%string = is_delimiter c.
Proof. rewrite !single_eqb. reflexivity. Qed.

(** The first loop of [Revised] ends on a position that holds neither a
    space nor a quote: it ends by its test, not for want of fuel. *)
Lemma skip_leading_stops fuel : forall json start,
  StringLen json - start < Z.of_nat fuel ->
  let p := skip_leading lib fuel json start in
  start <= p
  /\ ((StringSubstr lib json p 1 =? " ") || (StringSubstr lib json p 1 =? dquote))%string
     = false.
Proof.
  induction fuel as [|fuel IH]; intros json start Hf; cbn [skip_leading].
  - split; [lia|]. rewrite StringSubstr_beyond by lia. reflexivity.
  - destruct (_ || _)%bool eqn:Skip.
    + destruct (IH json (start + 1)) as [Le Stop]; [lia|]. split; [lia|exact Stop].
    + split; [lia|exact Skip].
Qed.

Lemma substring_first s : forall m n c,
  first_char (substring m n s) = Some c -> substring m 1 s = String c EmptyString.
Proof.
  induction s as [|x s IH]; intros m n c E.
  - destruct m, n; discriminate E.
  - destruct m as [|m].
    + destruct n as [|n]; [discriminate E|]. simpl in E. injection E as ->.
      simpl. destruct s; reflexivity.
    + simpl in E. simpl. apply (IH m n c E).
Qed.

(** What ExtractValue of [Revised] extracts behind the first loop starts
    with neither a space nor a quote, whatever its length. *)
Lemma skipped_value_clear json start len :
  0 <= start ->
  let p := skip_leading lib (S (String.length json)) json start in
  match first_char (StringSubstr lib json p len) with
  | Some c => is_pad c = false
  | None => True
  end.
Proof.
  intros Hs p.
  destruct (skip_leading_stops (S (String.length json)) json start) as [Le Stop];
    [unfold StringLen; lia|].
  fold p in Le, Stop.
  destruct (first_char (StringSubstr lib json p len)) as [c|] eqn:Fc; [|exact I].
  assert (C : StringSubstr lib json p 1 = String c EmptyString).
  { unfold StringSubstr in *.
    replace (p <? 0) with false in * by (symmetry; apply Z.ltb_ge; lia).
    cbn [Z.ltb Z.eqb Z.compare andb orb].
    destruct ((len <? 0) || _); apply (substring_first _ _ _ _ Fc). }
  rewrite C, pad_test in Stop. exact Stop.
Qed.

(** The last loop of [Revised], on a text that does not start with a space
    or a quote (or in the reading where a length of 0 gives the empty
    text): more fuel than the length of the text changes nothing. *)
Lemma trim_trailing_fuel fuel : forall k value,
  zero_is_rest lib = false
  \/ match first_char value with Some c => is_pad c = false | None => True end ->
  (String.length value < fuel)%nat ->
  trim_trailing lib (fuel + k) value = trim_trailing lib fuel value.
Proof.
  induction fuel as [|fuel IH]; intros k value Hz Hf; [lia|].
  simpl. destruct (_ || _)%bool eqn:Trim; [|reflexivity].
  destruct value as [|c value]; [discriminate Trim|].
  destruct value as [|d value].
  - assert (P : is_pad c = true).
    { pose proof (StringSubstr_char EmptyString c EmptyString) as C.
      change (StringSubstr lib (String c EmptyString)
                (StringLen (String c EmptyString) - 1) 1 = String c EmptyString) in C.
      rewrite C, pad_test in Trim. exact Trim. }
    destruct Hz as [Hz|Hz]; [|simpl in Hz; congruence].
    apply IH; [left; exact Hz|].
    unfold StringSubstr. rewrite Hz. simpl. simpl in Hf. lia.
  - assert (V : StringSubstr lib (String c (String d value))
                  0 (StringLen (String c (String d value)) - 1)
                = String c (substring 0 (String.length value) (String d value))).
    { unfold StringSubstr, StringLen.
      replace (Z.of_nat (String.length (String c (String d value))) - 1)
        with (Z.of_nat (S (String.length value))) by (simpl String.length; lia).
      replace (Z.of_nat (S (String.length value)) <? 0) with false
        by (symmetry; apply Z.ltb_ge; lia).
      replace (Z.of_nat (S (String.length value)) =? 0) with false
        by (symmetry; apply Z.eqb_neq; lia).
      cbn [andb orb]. rewrite Nat2Z.id. reflexivity. }
    rewrite V. apply IH.
    + destruct Hz as [Hz|Hz]; [left; exact Hz|right; exact Hz].
    + change (String.length (String c (substring 0 (String.length value) (String d value))))
        with (S (String.length (substring 0 (String.length value) (String d value)))).
      rewrite substring_length. simpl in Hf. simpl String.length. lia.
Qed.

(** The fuel that ExtractValue gives its loops is never used up: more
    fuel changes nothing, at the positions and on the value that the
    loops of ExtractValue meet. *)
Lemma ExtractValue_fuel_enough json start b len k :
  0 <= start ->
  let p := skip_leading lib (S (String.length json)) json start in
  let value := StringSubstr lib json p len in
  scan_quoted lib (String.length json + k) json start b
    = scan_quoted lib (String.length json) json start b
  /\ scan_plain lib (String.length json + k) json p
     = scan_plain lib (String.length json) json p
  /\ skip_leading lib (S (String.length json) + k) json start = p
  /\ trim_trailing lib (S (String.length value) + k) value
     = trim_trailing lib (S (String.length value)) value.
Proof.
  intros Hs p value.
  destruct (skip_leading_stops (S (String.length json)) json start) as [Le _];
    [unfold StringLen; lia|].
  fold p in Le. repeat split.
  - apply scan_quoted_fuel. unfold StringLen. lia.
  - apply scan_plain_fuel. unfold StringLen. lia.
  - apply skip_leading_fuel. unfold StringLen. lia.
  - apply trim_trailing_fuel; [right; apply skipped_value_clear, Hs|lia].
Qed.

(** *** Finding a text *)

Lemma substring_split s : forall m n,
  (m + n <= String.length s)%nat ->
  exists pre post, s = (pre ++ substring m n s ++ post)%string /\ String.length pre = m.
Proof.
  induction s as [|c s IH]; intros m n Hl.
  - simpl in Hl. assert (m = O) by lia. assert (n = O) by lia. subst.
    exists EmptyString, EmptyString. split; reflexivity.
  - destruct m as [|m].
    + destruct n as [|n].
      * exists EmptyString, (String c s). split; reflexivity.
      * simpl in Hl. destruct (IH O n) as (pre & post & E & L); [lia|].
        destruct pre; [|discriminate L]. simpl in E.
        exists EmptyString, post. split; [|reflexivity]. simpl. rewrite <- E. reflexivity.
    + simpl in Hl. destruct (IH m n) as (pre & post & E & L); [lia|].
      exists (String c pre), post. split; [|simpl; rewrite L; reflexivity].
      simpl. rewrite <- E. reflexivity.
Qed.

Lemma substring_full s : forall m n,
  (0 < n)%nat -> String.length (substring m n s) = n -> (m + n <= String.length s)%nat.
Proof.
  induction s as [|c s IH]; intros m n Hn E.
  - destruct m, n; simpl in E; lia.
  - destruct m as [|m].
    + rewrite substring_length in E. lia.
    + simpl in E. specialize (IH m n Hn E). simpl. lia.
Qed.

(** [StringFind] finds a text exactly when it occurs somewhere. *)
Lemma StringFind_contains s pat :
  pat <> EmptyString ->
  (0 <= StringFind s pat <-> exists pre post, s = (pre ++ pat ++ post)%string).
Proof.
  intros Hne. unfold StringFind. split.
  - destruct (index 0 pat s) as [m|] eqn:E; [intros _|lia].
    apply index_correct1 in E.
    assert (B : (m + String.length pat <= String.length s)%nat).
    { apply substring_full; [destruct pat; [contradiction|simpl; lia]|].
      rewrite E. reflexivity. }
    destruct (substring_split s m (String.length pat) B) as (pre & post & S1 & _).
    rewrite E in S1. exists pre, post. exact S1.
  - intros (pre & post & ->).
    destruct (index 0 pat (pre ++ pat ++ post)) as [m|] eqn:E; [lia|].
    exfalso.
    apply (index_correct3 0 (String.length pre) pat (pre ++ pat ++ post) E Hne); [lia|].
    rewrite <- (Nat.add_0_r (String.length pre)), substring_skip.
    apply substring_take.
Qed.

End Readings.

End ExtractFacts.

(** ** Comparisons and counts *)

(** The comparison of doubles, read from the other side. *)
Lemma SFcompare_swap x y : SFcompare y x = option_map CompOpp (SFcompare x y).
Proof.
  destruct x as [sx|sx| |sx mx ex], y as [sy|sy| |sy my ey]; simpl; try reflexivity;
    try (destruct sx; reflexivity); try (destruct sy; reflexivity);
    try (destruct sx, sy; reflexivity).
  assert (M : Pos.compare_cont Eq my mx = CompOpp (Pos.compare_cont Eq mx my)).
  { rewrite (Pos.compare_cont_antisym mx my Eq). reflexivity. }
  destruct sx, sy; simpl; try reflexivity;
    rewrite (Z.compare_antisym ex ey), M;
    destruct (ex ?= ey)%Z; simpl; try reflexivity;
    destruct (Pos.compare_cont Eq mx my); reflexivity.
Qed.

Lemma SFcompare_numbers x y :
  is_number x = true -> is_number y = true -> SFcompare x y <> None.
Proof. destruct x, y; simpl; discriminate. Qed.

(** On doubles other than NaN, [x > y] fails exactly when [x <= y]
    holds. *)
Lemma double_gt_le x y :
  is_number x = true -> is_number y = true ->
  (double_gt x y = false <-> double_le x y = true).
Proof.
  intros Hx Hy. unfold double_gt, double_le, SFltb, SFleb.
  rewrite (SFcompare_swap x y).
  pose proof (SFcompare_numbers x y Hx Hy) as N.
  destruct (SFcompare x y) as [[| |]|]; simpl; try contradiction;
    split; intros; try reflexivity; try discriminate.
Qed.

Lemma double_lt_ge x y :
  is_number x = true -> is_number y = true ->
  (double_lt x y = false <-> double_le y x = true).
Proof. intros Hx Hy. apply (double_gt_le y x Hy Hx). Qed.

Lemma count_ours_filter cfg pool count :
  count_ours cfg pool count =
  count + Z.of_nat (List.length (filter (order_is_ours cfg) pool)).
Proof.
  revert count. induction pool as [|o rest IH]; intros count; simpl.
  - lia.
  - rewrite IH. destruct (order_is_ours cfg o); simpl List.length; lia.
Qed.

Lemma count_ours_rev cfg pool :
  count_ours cfg (rev pool) 0 = open_positions cfg pool.
Proof.
  rewrite count_ours_filter. unfold open_positions.
  assert (E : forall l, List.length (filter (order_is_ours cfg) (rev l))
                        = List.length (filter (order_is_ours cfg) l)).
  { induction l as [|a l IH]; simpl; [reflexivity|].
    rewrite filter_app, length_app, IH. simpl.
    destruct (order_is_ours cfg a); simpl; lia. }
  rewrite E. lia.
Qed.

(** ** ValidateSignal *)

Ltac run_H :=
  unfold bind, ret, emit, ask, Print; simpl.

(** C6.  ValidateSignal checks the spread first: when it is above
    [MaxSpread] (the test [currentSpread > MaxSpread] of the code, on
    doubles) the signal is rejected with the spread message after that one
    reading, whatever the signal and the rest of the market.  When the
    spread passes and the open positions of this session (its symbol and
    magic number) number [MaxPositions] or more, the signal is rejected with
    the position message, whatever its direction and prices. *)
Theorem ValidateSignal_check_order cfg host direction entryPrice sl tp w :
  let spread := h_spread host (calls w) in
  let positions := open_positions cfg (h_trades host (S (calls w))) in
  (double_gt spread (double_of_int (MaxSpread cfg)) = true ->
   ValidateSignal cfg host direction entryPrice sl tp w =
     (false, {| calls := S (calls w);
                trace := EvPrint [PStr "Spread too high: "; PDbl spread] :: trace w |}))
  /\
  (double_gt spread (double_of_int (MaxSpread cfg)) = false ->
   MaxPositions cfg <= positions ->
   ValidateSignal cfg host direction entryPrice sl tp w =
     (false, {| calls := S (S (calls w));
                trace := EvPrint [PStr "Too many open positions: "; PInt positions]
                           :: trace w |})).
Proof.
  intros spread positions. split.
  - intros Hs.
    unfold ValidateSignal, MarketInfo_SPREAD. run_H.
    fold spread. rewrite Hs. reflexivity.
  - intros Hs Hp.
    unfold ValidateSignal, MarketInfo_SPREAD, CountOpenPositions, OrdersPool. run_H.
    fold spread. rewrite Hs. cbn. rewrite count_ours_rev. fold positions.
    replace (positions >=? MaxPositions cfg) with true by (symmetry; apply Z.geb_le; lia).
    reflexivity.
Qed.

(** C10.  With the spread and position checks passed, every direction
    that is not exactly the text BUY and not exactly the text SELL is
    rejected with the invalid-direction message; the comparison is that of
    texts, character by character. *)
Theorem ValidateSignal_direction cfg host direction entryPrice sl tp w :
  double_gt (h_spread host (calls w)) (double_of_int (MaxSpread cfg)) = false ->
  open_positions cfg (h_trades host (S (calls w))) < MaxPositions cfg ->
  direction <> "BUY" -> direction <> "SELL" ->
  ValidateSignal cfg host direction entryPrice sl tp w =
    (false, {| calls := S (S (calls w));
               trace := EvPrint [PStr "Invalid direction: "; PStr direction] :: trace w |}).
Proof.
  intros Hs Hp Hb Hl.
  apply String.eqb_neq in Hb, Hl.
  unfold ValidateSignal, MarketInfo_SPREAD, CountOpenPositions, OrdersPool. run_H.
  rewrite Hs. cbn. rewrite count_ours_rev.
  replace (_ >=? MaxPositions cfg) with false
    by (symmetry; rewrite Z.geb_leb; apply Z.leb_gt; lia).
  rewrite Hb, Hl. reflexivity.
Qed.

(** C7 (amended).  With the spread and position checks passed and prices
    that are numbers, a BUY signal is accepted exactly when its entry
    price is at most the ask read by the validator plus [Slippage * Point],
    a SELL signal exactly when its entry price is at least the bid read
    minus [Slippage * Point], where the product, the sum and the
    difference are those of doubles, each rounded to nearest.  With an ask
    of 1.10000 and a tolerance of 0.0030, an entry of 1.10250 is accepted
    and an entry of 1.10500 is rejected. *)
Theorem ValidateSignal_price cfg host entryPrice sl tp w :
  let ask_ := h_ask host (3 + calls w) in
  let bid := h_bid host (2 + calls w) in
  let tolerance := double_mul (double_of_int (Slippage cfg)) (h_Point host) in
  double_gt (h_spread host (calls w)) (double_of_int (MaxSpread cfg)) = false ->
  open_positions cfg (h_trades host (S (calls w))) < MaxPositions cfg ->
  is_number entryPrice = true ->
  (is_number (double_add ask_ tolerance) = true ->
   (fst (ValidateSignal cfg host "BUY" entryPrice sl tp w) = true
    <-> double_le entryPrice (double_add ask_ tolerance) = true))
  /\ (is_number (double_sub bid tolerance) = true ->
      (fst (ValidateSignal cfg host "SELL" entryPrice sl tp w) = true
       <-> double_le (double_sub bid tolerance) entryPrice = true))
  /\ (ask_ = decimal 110000 5 -> tolerance = decimal 30 4 ->
      fst (ValidateSignal cfg host "BUY" (decimal 110250 5) sl tp w) = true
      /\ fst (ValidateSignal cfg host "BUY" (decimal 110500 5) sl tp w) = false).
Proof.
  intros ask_ bid tolerance Hs Hp He.
  assert (B : forall e, fst (ValidateSignal cfg host "BUY" e sl tp w)
                        = negb (double_gt e (double_add ask_ tolerance))).
  { intros e. unfold ValidateSignal, MarketInfo_SPREAD, CountOpenPositions, OrdersPool,
      MarketInfo_BID, MarketInfo_ASK. run_H.
    rewrite Hs. cbn. rewrite count_ours_rev.
    replace (_ >=? MaxPositions cfg) with false
      by (symmetry; rewrite Z.geb_leb; apply Z.leb_gt; lia).
    cbn. change (h_ask host (S (S (S (calls w))))) with ask_. fold tolerance.
    destruct (double_gt e (double_add ask_ tolerance)); reflexivity. }
  split; [|split].
  - intros Hn. rewrite B, negb_true_iff. apply double_gt_le; assumption.
  - intros Hn.
    assert (S0 : fst (ValidateSignal cfg host "SELL" entryPrice sl tp w)
                 = negb (double_lt entryPrice (double_sub bid tolerance))).
    { unfold ValidateSignal, MarketInfo_SPREAD, CountOpenPositions, OrdersPool,
        MarketInfo_BID, MarketInfo_ASK. run_H.
      rewrite Hs. cbn. rewrite count_ours_rev.
      replace (_ >=? MaxPositions cfg) with false
        by (symmetry; rewrite Z.geb_leb; apply Z.leb_gt; lia).
      cbn. change (h_bid host (S (S (calls w)))) with bid. fold tolerance.
      destruct (double_lt entryPrice (double_sub bid tolerance)); reflexivity. }
    rewrite S0, negb_true_iff. apply double_lt_ge; assumption.
  - intros Ea Et. rewrite !B, Ea, Et. split; vm_compute; reflexivity.
Qed.

(** C7 as stated fails: on a three-digit symbol with an ask of 150.000
    and the default slippage of 30 points, the double of the entry price
    150.03 is above the ask plus 30 times [Point] as real numbers, and the
    signal is accepted: the sum of the doubles rounds to the entry
    price. *)
Lemma exact_price_bound_fails :
  let entry := decimal 15003 2 in
  let ask_ := h_ask yen_host 3 in
  let tolerance := (inject_Z (Slippage default_config) * exact_value (h_Point yen_host))%Q in
  ~ (fst (ValidateSignal default_config yen_host "BUY" entry double_zero double_zero
            initial_world) = true
     <-> (exact_value entry <= exact_value ask_ + tolerance)%Q).
Proof.
  intros entry ask_ tolerance [Accepted _].
  assert (A : fst (ValidateSignal default_config yen_host "BUY" entry double_zero double_zero
                     initial_world) = true) by (vm_compute; reflexivity).
  specialize (Accepted A). vm_compute in Accepted. apply Accepted. reflexivity.
Qed.

(** ** Traces and results of computations *)

Section Does.
Context {A B : Type} (P : Effect -> Prop).

Lemma does_ret (R : A -> Prop) (a : A) : R a -> does P R (ret a).
Proof. intros Ha w. exists []. repeat split; [constructor|exact Ha]. Qed.

Lemma does_ret_any (a : A) : does P any (ret a).
Proof. apply does_ret. exact I. Qed.

Lemma does_ask (f : nat -> A) : does P any (ask f).
Proof. intros w. exists []. repeat split. constructor. Qed.

Lemma does_emit e : P e -> does P any (emit e).
Proof. intros He w. exists [e]. repeat split. repeat constructor. exact He. Qed.

Lemma does_bind (Q : A -> Prop) (R : B -> Prop) (m : H A) (k : A -> H B) :
  does P Q m -> (forall a, Q a -> does P R (k a)) -> does P R (bind m k).
Proof.
  intros Hm Hk w. unfold bind.
  destruct (Hm w) as [n1 [E1 [F1 Q1]]]. destruct (m w) as [a w1]. simpl in E1, Q1.
  destruct (Hk a Q1 w1) as [n2 [E2 [F2 R2]]].
  exists (n2 ++ n1). repeat split.
  - rewrite E2, E1. apply app_assoc.
  - apply Forall_app. split; assumption.
  - exact R2.
Qed.

Lemma does_weaken (P' : Effect -> Prop) (R R' : A -> Prop) (m : H A) :
  (forall e, P e -> P' e) -> (forall a, R a -> R' a) -> does P R m -> does P' R' m.
Proof.
  intros HP HR Hm w. destruct (Hm w) as [n [E [F r]]].
  exists n. repeat split; auto. revert F. apply Forall_impl, HP.
Qed.

Lemma does_any (R : A -> Prop) (m : H A) : does P R m -> does P any m.
Proof. apply does_weaken; unfold any; auto. Qed.

End Does.

Ltac does_step :=
  match goal with
  | |- does _ _ (bind _ _) => eapply does_bind; [|intros ? _]
  | |- does _ _ (ret _) => apply does_ret_any
  | |- does _ _ (ask _) => apply does_ask
  | |- does _ _ (emit ?e) => apply does_emit; simpl; try tauto; try reflexivity
  | |- does _ _ (Print _) => unfold Print
  | |- does _ _ (if ?c then _ else _) => destruct c
  | |- does _ _ (match ?x with _ => _ end) => destruct x
  | |- does _ _ (let _ := _ in _) => cbv zeta
  end.

Ltac does_auto := repeat does_step.

Lemma SendHttpRequest_does P v cfg host url payload :
  (forall a, P (EvPrint a)) -> (forall m h, P (EvWebRequest m url h payload)) ->
  does P any (SendHttpRequest v cfg host url payload).
Proof.
  intros Hp Hw. unfold SendHttpRequest, WebRequest. does_auto; auto. 
Qed.

Lemma SendHttpRequest_not_received v cfg host url payload :
  does not_received any (SendHttpRequest v cfg host url payload).
Proof.
  unfold SendHttpRequest, WebRequest. destruct v; does_auto; auto.
Qed.

Lemma ValidateSignal_does P cfg host d e sl tp :
  (forall a, P (EvPrint a)) -> does P any (ValidateSignal cfg host d e sl tp).
Proof.
  intros Hp.
  unfold ValidateSignal, CountOpenPositions, MarketInfo_SPREAD, MarketInfo_ASK,
    MarketInfo_BID, OrdersPool.
  does_auto; auto.
Qed.

Lemma ValidateSignal_not_received cfg host d e sl tp :
  does not_received any (ValidateSignal cfg host d e sl tp).
Proof.
  unfold ValidateSignal, CountOpenPositions, MarketInfo_SPREAD, MarketInfo_ASK,
    MarketInfo_BID, OrdersPool.
  does_auto; auto.
Qed.

Lemma ExecuteSignal_does v cfg host d e sl tp :
  does other_effect any (ExecuteSignal v cfg host d e sl tp).
Proof.
  unfold ExecuteSignal, LogTradeToBackend, OrderSend, MarketInfo_ASK, MarketInfo_BID,
    TimeCurrent.
  does_auto; try (apply SendHttpRequest_does; simpl; auto).
Qed.

Lemma ExecuteSignal_not_received v cfg host d e sl tp :
  does not_received any (ExecuteSignal v cfg host d e sl tp).
Proof.
  unfold ExecuteSignal, LogTradeToBackend, OrderSend, MarketInfo_ASK, MarketInfo_BID,
    TimeCurrent.
  does_auto; try apply SendHttpRequest_not_received.
Qed.

Lemma CheckForSignals_does v tip cfg host :
  does other_effect any (CheckForSignals v tip cfg host).
Proof.
  unfold CheckForSignals, CheckForSignals_handle.
  does_auto;
    try (apply SendHttpRequest_does; simpl; auto);
    try (apply ValidateSignal_does; simpl; auto);
    try apply ExecuteSignal_does.
Qed.

Lemma CollectTickData_does v host g :
  does other_effect (collected g) (CollectTickData v host g).
Proof.
  unfold CollectTickData, collected.
  destruct (tickCount g >=? tickBufferSize) eqn:Full.
  - apply does_ret. auto.
  - unfold MarketInfo_BID, MarketInfo_ASK, MarketInfo_SPREAD, Volume0, TimeCurrent.
    destruct v; does_auto; apply does_ret; simpl; auto.
Qed.

Lemma SendTickData_does v cfg host g :
  does not_close_report (flushed g) (SendTickData v cfg host g).
Proof.
  unfold SendTickData, flushed, GetTickCount.
  destruct (tickCount g =? 0).
  - apply does_ret. auto.
  - eapply does_bind; [apply SendHttpRequest_does; simpl; auto|]. intros response _.
    destruct (negb (response =? EmptyString)%string).
    + eapply does_bind; [destruct v; does_auto|]. intros _ _.
      cbv zeta. eapply does_bind; [apply does_ask|]. intros now _.
      apply does_ret. right. exists now. reflexivity.
    + does_auto. apply does_ret. auto.
Qed.

Lemma OnTick_poll_does v tip cfg host g :
  does other_effect (polled g) (OnTick_poll v tip cfg host g).
Proof.
  unfold OnTick_poll, polled, GetTickCount.
  eapply does_bind; [apply does_ask|]. intros now _.
  destruct (now - lastSignalPoll g >? signalPollInterval).
  - eapply does_bind; [apply CheckForSignals_does|]. intros _ _.
    eapply does_bind; [apply does_ask|]. intros now' _.
    apply does_ret. right. exists now'. reflexivity.
  - apply does_ret. auto.
Qed.

Lemma other_not_close e : other_effect e -> not_close_report e.
Proof. destruct e as [| ? ? ? []|]; simpl; auto. Qed.

Lemma other_not_upload e : other_effect e -> not_tick_upload e.
Proof. destruct e as [| ? ? ? []|]; simpl; unfold not_tick_upload; simpl; tauto. Qed.

Lemma flushed_tickCount g g' :
  flushed g g' -> tickCount g <= tickBufferSize -> tickCount g' <= tickBufferSize.
Proof.
  intros [->|[now ->]] Hb; [exact Hb|]. simpl. unfold tickBufferSize. lia.
Qed.

Lemma collected_tickCount g g' :
  collected g g' -> tickCount g <= tickBufferSize -> tickCount g' <= tickBufferSize.
Proof.
  intros [E _] Hb. rewrite E.
  destruct (tickCount g >=? tickBufferSize) eqn:F; [exact Hb|].
  rewrite Z.geb_leb in F. apply Z.leb_gt in F. lia.
Qed.

(** What OnTick leaves of the global variables. *)
Lemma OnTick_collect_and_poll_does v tip cfg host g :
  does other_effect (collected g) (OnTick_collect_and_poll v tip cfg host g).
Proof.
  unfold OnTick_collect_and_poll.
  eapply does_bind; [apply CollectTickData_does|]. intros g1 C1.
  assert (K : forall g2, polled g1 g2 -> collected g g2).
  { intros g2 [->|[now ->]]; [exact C1|]. exact C1. }
  destruct v.
  - apply does_weaken with (P := other_effect) (R := polled g1);
      [auto|exact K|apply OnTick_poll_does].
  - destruct (EnableTrading cfg).
    + apply does_weaken with (P := other_effect) (R := polled g1);
      [auto|exact K|apply OnTick_poll_does].
    + apply does_ret. exact C1.
Qed.

Lemma OnTick_flush_does v cfg host g :
  does not_close_report (flushed g) (OnTick_flush v cfg host g).
Proof.
  unfold OnTick_flush, GetTickCount.
  destruct (tickCount g >=? tickBufferSize); [apply SendTickData_does|].
  eapply does_bind; [apply does_ask|]. intros now _.
  destruct (now - lastTickSend g >? 30000); [apply SendTickData_does|].
  apply does_ret. left. reflexivity.
Qed.

Lemma OnTick_does v tip cfg host g :
  does not_close_report (ticked g) (OnTick v tip cfg host g).
Proof.
  unfold OnTick. destruct (OnTick_runs v cfg g).
  - eapply does_bind.
    + apply does_weaken with (P := other_effect) (R := collected g);
        [apply other_not_close|intros a Ha; exact Ha|apply OnTick_collect_and_poll_does].
    + intros g1 C1.
      apply does_weaken with (P := not_close_report) (R := flushed g1);
        [auto| |apply OnTick_flush_does].
      intros g2 F2. split.
      * destruct C1 as (_ & _ & L & _). destruct F2 as [->|[now ->]]; exact L.
      * intros Hb. eapply flushed_tickCount; [exact F2|].
        eapply collected_tickCount; eassumption.
  - apply does_ret. split; auto.
Qed.

(** *** Observations and appended traces *)

Lemma reported_tickets_app a b :
  reported_tickets (a ++ b) = reported_tickets a ++ reported_tickets b.
Proof.
  induction a as [|e a IH]; simpl; [reflexivity|].
  destruct e as [| ? ? ? []|]; simpl; rewrite IH; reflexivity.
Qed.

Lemma reported_tickets_none new :
  Forall not_close_report new -> reported_tickets new = [].
Proof.
  induction 1 as [|e new He _ IH]; simpl; [reflexivity|].
  destruct e as [| ? ? ? []|]; simpl in *; auto. contradiction.
Qed.

Lemma tick_uploads_app a b :
  tick_uploads (a ++ b) = (tick_uploads a + tick_uploads b)%nat.
Proof. unfold tick_uploads. rewrite filter_app. apply length_app. Qed.

Lemma tick_uploads_none new :
  Forall not_tick_upload new -> tick_uploads new = O.
Proof.
  unfold tick_uploads.
  induction 1 as [|e new He _ IH]; simpl; [reflexivity|].
  rewrite He. exact IH.
Qed.

Lemma signals_received_app a b :
  signals_received (a ++ b) = (signals_received a + signals_received b)%nat.
Proof. unfold signals_received. rewrite filter_app. apply length_app. Qed.

Lemma signals_received_none new :
  Forall not_received new -> signals_received new = O.
Proof.
  unfold signals_received.
  induction 1 as [|e new He _ IH]; simpl; [reflexivity|].
  rewrite He. exact IH.
Qed.

(** *** SendHttpRequest *)

(** One WebRequest, one answer of the terminal, then prints only. *)
Lemma SendHttpRequest_trace v cfg host url payload w :
  exists prints method headers,
    trace (snd (SendHttpRequest v cfg host url payload w))
      = prints ++ EvWebRequest method url headers payload :: trace w
    /\ Forall is_print prints
    /\ calls (snd (SendHttpRequest v cfg host url payload w)) = S (calls w).
Proof.
  unfold SendHttpRequest, WebRequest, Print, bind, emit, ask, ret. cbn.
  destruct (negb (wr_error (h_web host (calls w)) =? 0)); cbn.
  - eexists [_], _, _. cbn. repeat split. repeat constructor.
  - destruct v; cbn.
    + exists [ ]. eexists _, _. cbn. repeat split. constructor.
    + destruct (negb (wr_code (h_web host (calls w)) =? 200)
                && negb (wr_code (h_web host (calls w)) =? 201)); cbn.
      * eexists [_], _, _. cbn. repeat split. repeat constructor.
      * exists [ ]. eexists _, _. cbn. repeat split. constructor.
Qed.

Lemma is_print_not_close e : is_print e -> not_close_report e.
Proof. destruct e; simpl; tauto. Qed.

Lemma is_print_not_upload e : is_print e -> not_tick_upload e.
Proof. destruct e; simpl; unfold not_tick_upload; simpl; tauto. Qed.

(** *** The list maximum *)

Lemma max_ticket_low l low : low <= max_ticket l low.
Proof. induction l as [|t l IH]; simpl; lia. Qed.

Lemma max_ticket_app a b low :
  max_ticket (a ++ b) low = Z.max (max_ticket a low) (max_ticket b low).
Proof.
  induction a as [|t a IH]; simpl.
  - pose proof (max_ticket_low b low). lia.
  - rewrite IH. lia.
Qed.

Lemma max_ticket_base l low low' :
  max_ticket l (Z.max low low') = Z.max (max_ticket l low) low'.
Proof. induction l as [|t l IH]; simpl; [reflexivity|]. rewrite IH. lia. Qed.

Lemma max_ticket_nest l l' low :
  max_ticket l (max_ticket l' low) = max_ticket (l ++ l') low.
Proof. unfold max_ticket. symmetry. apply fold_right_app. Qed.

Lemma max_ticket_rev l low : max_ticket (rev l) low = max_ticket l low.
Proof.
  induction l as [|t l IH]; simpl; [reflexivity|].
  rewrite max_ticket_app, IH. simpl. pose proof (max_ticket_low l low). lia.
Qed.

Lemma our_tickets_app cfg a b :
  our_tickets cfg (a ++ b) = our_tickets cfg a ++ our_tickets cfg b.
Proof.
  induction a as [|[o|] a IH]; simpl; auto.
  destruct (_ && _); simpl; rewrite IH; reflexivity.
Qed.

Lemma our_tickets_rev cfg l : our_tickets cfg (rev l) = rev (our_tickets cfg l).
Proof.
  induction l as [|[o|] l IH]; simpl; auto.
  - rewrite our_tickets_app, IH. simpl.
    destruct (_ && _); simpl; [reflexivity|apply app_nil_r].
  - rewrite our_tickets_app, IH. simpl. apply app_nil_r.
Qed.

(** The scan of OnInit computes the maximum. *)
Lemma init_watermark_max cfg pool last :
  init_watermark cfg pool last = max_ticket (our_tickets cfg pool) last.
Proof.
  revert last. induction pool as [|[o|] pool IH]; intros last; simpl; auto.
  rewrite IH. destruct (_ && _); simpl; [|reflexivity].
  rewrite max_ticket_base. lia.
Qed.

(** *** The callbacks, one by one *)

Lemma TestBackendConnection_does v cfg host :
  does other_effect any (TestBackendConnection v cfg host).
Proof.
  unfold TestBackendConnection.
  eapply does_bind; [apply SendHttpRequest_does; simpl; auto|]. intros r _.
  does_auto.
Qed.

Lemma TestBackendConnection_calls v cfg host w :
  calls (snd (TestBackendConnection v cfg host w)) = S (calls w).
Proof.
  unfold TestBackendConnection, bind.
  destruct (SendHttpRequest_trace v cfg host (BackendURL cfg ++ "/api/health") NoPayload w)
    as (p & m & h & _ & _ & C).
  destruct (SendHttpRequest _ _ _ _ _ w) as [r w1]. simpl in C.
  destruct (_ && _); exact C.
Qed.

Lemma OnInit_does v cfg host g :
  does other_effect (fun r => initialised g (snd r)) (OnInit v cfg host g).
Proof.
  unfold OnInit, OrdersHistoryPool. cbv zeta.
  eapply does_bind; [does_auto|]. intros _ _.
  eapply does_bind; [apply TestBackendConnection_does|]. intros c _.
  eapply does_bind with (Q := initialised g).
  - destruct c; (eapply does_bind; [does_auto|]; intros _ _; apply does_ret; split; reflexivity).
  - intros g1 I1. destruct v.
    + apply does_ret. exact I1.
    + eapply does_bind; [apply does_ask|]. intros h _.
      eapply does_bind; [does_auto|]. intros _ _. apply does_ret. exact I1.
Qed.

Lemma OnInit_watermark cfg host g w :
  lastLoggedTicket (snd (fst (OnInit Revised cfg host g w)))
  = max_ticket (our_tickets cfg (h_history host (S (calls w)))) (lastLoggedTicket g).
Proof.
  unfold OnInit, OrdersHistoryPool. cbv zeta. unfold bind at 1. cbn [Print emit].
  unfold bind at 1.
  pose proof (TestBackendConnection_calls Revised cfg host
                {| calls := calls w;
                   trace := EvPrint [PStr "AI Scalping EA initialized for "; PStr (Symbol cfg)]
                              :: trace w |}) as C.
  destruct (TestBackendConnection _ _ _ _) as [c w1]. simpl in C.
  destruct c; unfold bind, Print, emit, ask, ret; cbn; rewrite C;
    rewrite init_watermark_max, our_tickets_rev, max_ticket_rev; reflexivity.
Qed.

Lemma OnDeinit_does v cfg host reason g :
  does not_close_report (ticked g) (OnDeinit v cfg host reason g).
Proof.
  unfold OnDeinit.
  eapply does_bind; [does_auto|]. intros _ _.
  eapply does_bind with (Q := flushed g).
  - destruct (tickCount g >? 0); [apply SendTickData_does|apply does_ret; left; reflexivity].
  - intros g1 F1. apply does_ret. split.
    + destruct F1 as [->|[now ->]]; reflexivity.
    + intros Hb. apply (flushed_tickCount g g1 F1 Hb).
Qed.

(** OnTrade: every version leaves the tick buffer alone. *)
Lemma OnTrade_loop_tickCount v cfg host pool g w :
  tickCount (fst (OnTrade_loop v cfg host pool g w)) = tickCount g.
Proof.
  revert g w. induction pool as [|[o|] pool IH]; intros g w; simpl; auto.
  destruct v.
  - destruct (_ && _); [|apply IH].
    destruct (o_close_time o >? 0); [|apply IH].
    unfold bind. destruct (LogClosedTradeToBackend _ _ _ _ w). reflexivity.
  - destruct (_ && _ && _); [|apply IH].
    unfold bind. destruct (SendHttpRequest _ _ _ _ _ w) as [r w1].
    destruct (negb _); reflexivity.
Qed.

(** OnTrade of [Revised]: a report moves the watermark to the reported
    ticket, which is above the old watermark; no report, no move. *)
Lemma OnTrade_loop_watermark cfg host pool g w :
  exists new,
    trace (snd (OnTrade_loop Revised cfg host pool g w)) = new ++ trace w
    /\ lastLoggedTicket (fst (OnTrade_loop Revised cfg host pool g w))
       = max_ticket (reported_tickets new) (lastLoggedTicket g)
    /\ (reported_tickets new = []
        \/ exists t, reported_tickets new = [t] /\ lastLoggedTicket g < t).
Proof.
  revert g w. induction pool as [|[o|] pool IH]; intros g w; simpl.
  - exists []. repeat split. left. reflexivity.
  - destruct (_ && _ && (o_ticket o >? lastLoggedTicket g)) eqn:Found; [|apply IH].
    apply andb_true_iff in Found. destruct Found as [_ Above].
    apply Z.gtb_lt in Above.
    unfold bind.
    destruct (SendHttpRequest_trace Revised cfg host (BackendURL cfg ++ "/api/trades")
                (close_payload o) w) as (prints & m & h & E & Fp & _).
    destruct (SendHttpRequest _ _ _ _ _ w) as [r w1]. simpl in E.
    assert (R : forall p, reported_tickets
                  (EvPrint p :: prints ++ [EvWebRequest m (BackendURL cfg ++ "/api/trades") h
                                             (close_payload o)]) = [o_ticket o]).
    { intros p. simpl. rewrite reported_tickets_app, reported_tickets_none.
      - reflexivity.
      - revert Fp. apply Forall_impl, is_print_not_close. }
    set (report := EvWebRequest m (BackendURL cfg ++ "/api/trades") h (close_payload o)) in *.
    assert (Fin : forall p, exists new,
               EvPrint p :: trace w1 = new ++ trace w
               /\ o_ticket o = max_ticket (reported_tickets new) (lastLoggedTicket g)
               /\ (reported_tickets new = []
                   \/ exists t, reported_tickets new = [t] /\ lastLoggedTicket g < t)).
    { intros p. exists (EvPrint p :: prints ++ [report]). split.
      - rewrite E. cbn. rewrite <- app_assoc. reflexivity.
      - rewrite R. cbn. split; [lia|]. right. eexists. split; [reflexivity|lia]. }
    destruct (negb (r =? EmptyString)%string); cbn; apply Fin.
  - apply IH.
Qed.

(** *** Sequences of callbacks *)

Lemma does_result {A} P (R : A -> Prop) (m : H A) w : does P R m -> R (fst (m w)).
Proof. intros Hm. destruct (Hm w) as (new & _ & _ & r). exact r. Qed.

Lemma does_trace {A} P (R : A -> Prop) (m : H A) w :
  does P R m -> exists new, trace (snd (m w)) = new ++ trace w /\ Forall P new.
Proof. intros Hm. destruct (Hm w) as (new & E & F & _). exists new. auto. Qed.

Lemma step_tickCount v tip cfg host cb g w :
  tickCount g <= tickBufferSize ->
  tickCount (fst (step v tip cfg host cb g w)) <= tickBufferSize.
Proof.
  intros Hb. destruct cb as [| | |reason]; simpl.
  - unfold bind.
    pose proof (does_result _ _ _ w (OnInit_does v cfg host g)) as [E _].
    destruct (OnInit v cfg host g w) as [[r g1] w1]. simpl in *. lia.
  - apply (does_result _ _ _ w (OnTick_does v tip cfg host g)). exact Hb.
  - unfold OnTrade, bind, OrdersHistoryPool, ask.
    rewrite OnTrade_loop_tickCount. exact Hb.
  - apply (does_result _ _ _ w (OnDeinit_does v cfg host reason g)). exact Hb.
Qed.

Lemma run_tickCount v tip cfg host cbs g w :
  tickCount g <= tickBufferSize ->
  tickCount (fst (run v tip cfg host cbs g w)) <= tickBufferSize.
Proof.
  revert g w. induction cbs as [|cb cbs IH]; intros g w Hb; simpl; [exact Hb|].
  unfold bind.
  pose proof (step_tickCount v tip cfg host cb g w Hb) as S1.
  destruct (step v tip cfg host cb g w) as [g1 w1]. apply IH. exact S1.
Qed.

Lemma step_watermark tip cfg host cb g w :
  exists new,
    trace (snd (step Revised tip cfg host cb g w)) = new ++ trace w
    /\ lastLoggedTicket (fst (step Revised tip cfg host cb g w))
       = max_ticket (reported_tickets new ++ scanned cfg host cb w) (lastLoggedTicket g).
Proof.
  destruct cb as [| | |reason]; simpl.
  - destruct (does_trace _ _ _ w (OnInit_does Revised cfg host g)) as (new & E & F).
    pose proof (OnInit_watermark cfg host g w) as L.
    unfold bind. destruct (OnInit Revised cfg host g w) as [[r g1] w1]. simpl in *.
    exists new. split; [exact E|].
    rewrite reported_tickets_none; [exact L|].
    revert F. apply Forall_impl, other_not_close.
  - destruct (OnTick_does Revised tip cfg host g w) as (new & E & F & L & _).
    exists new. split; [exact E|].
    rewrite (reported_tickets_none new F). exact L.
  - unfold OnTrade, bind, OrdersHistoryPool, ask.
    destruct (OnTrade_loop_watermark cfg host (rev (h_history host (calls w))) g
                {| calls := S (calls w); trace := trace w |}) as (new & E & L & _).
    exists new. rewrite app_nil_r. split; [exact E|exact L].
  - destruct (OnDeinit_does Revised cfg host reason g w) as (new & E & F & L & _).
    exists new. split; [exact E|].
    rewrite (reported_tickets_none new F). exact L.
Qed.

Lemma run_watermark tip cfg host cbs g w :
  exists new,
    trace (snd (run Revised tip cfg host cbs g w)) = new ++ trace w
    /\ lastLoggedTicket (fst (run Revised tip cfg host cbs g w))
       = max_ticket (reported_tickets new ++ session_start_tickets tip cfg host cbs g w)
           (lastLoggedTicket g).
Proof.
  revert g w. induction cbs as [|cb cbs IH]; intros g w; simpl.
  - exists []. split; reflexivity.
  - unfold bind.
    destruct (step_watermark tip cfg host cb g w) as (n1 & E1 & L1).
    destruct (step Revised tip cfg host cb g w) as [g1 w1]. simpl in E1, L1.
    destruct (IH g1 w1) as (n2 & E2 & L2).
    exists (n2 ++ n1). split.
    + rewrite E2, E1. apply app_assoc.
    + rewrite L2, L1. fold (scanned cfg host cb w).
      rewrite max_ticket_nest, reported_tickets_app, !max_ticket_app. lia.
Qed.

Lemma tick_uploads_cons_other e tr :
  not_tick_upload e -> tick_uploads (e :: tr) = tick_uploads tr.
Proof. unfold tick_uploads, not_tick_upload. simpl. intros ->. reflexivity. Qed.

Lemma SendTickData_uploads v cfg host g w :
  tickCount g <> 0 ->
  tick_uploads (trace (snd (SendTickData v cfg host g w))) = S (tick_uploads (trace w)).
Proof.
  intros Hn. unfold SendTickData. apply Z.eqb_neq in Hn. rewrite Hn. unfold bind.
  destruct (SendHttpRequest_trace v cfg host (BackendURL cfg ++ "/api/ticks")
              (TicksPayload (Symbol cfg) (firstn (Z.to_nat (tickCount g)) (tickData g))) w)
    as (prints & m & h & E & Fp & _).
  destruct (SendHttpRequest _ _ _ _ _ w) as [r w1]. simpl in E.
  assert (U : tick_uploads (trace w1) = S (tick_uploads (trace w))).
  { rewrite E, tick_uploads_app, tick_uploads_none.
    - reflexivity.
    - revert Fp. apply Forall_impl, is_print_not_upload. }
  destruct (negb (r =? EmptyString)%string); destruct v; cbn;
    rewrite ?tick_uploads_cons_other by reflexivity; exact U.
Qed.

(** C3 (amended).  On a tick that OnTick handles, with a tick count that
    is not negative: after the tick is collected and the signals polled,
    one upload of the buffer is sent when the tick count has reached
    [tickBufferSize] or when the clock is strictly more than 30000 ms past
    [lastTickSend]; otherwise none is sent and OnTick ends in the state it
    had then.  At 30000 ms exactly a buffer that is not full is kept. *)
Theorem OnTick_flush_exactly v tip cfg host g w :
  OnTick_runs v cfg g = true -> 0 <= tickCount g ->
  let mid := OnTick_collect_and_poll v tip cfg host g w in
  let size := tickCount (fst mid) in
  let elapsed := h_GetTickCount host (calls (snd mid)) - lastTickSend (fst mid) in
  let after := OnTick v tip cfg host g w in
  size = (if tickCount g >=? tickBufferSize then tickCount g else tickCount g + 1)
  /\ lastTickSend (fst mid) = lastTickSend g
  /\ (tickBufferSize <= size \/ 30000 < elapsed ->
      tick_uploads (trace (snd after)) = S (tick_uploads (trace w)))
  /\ (size < tickBufferSize /\ elapsed <= 30000 ->
      tick_uploads (trace (snd after)) = tick_uploads (trace w)
      /\ fst after = fst mid).
Proof.
  intros Hr Hc mid size elapsed after.
  destruct (OnTick_collect_and_poll_does v tip cfg host g w)
    as (new & E & F & Sz & Lt & _).
  fold mid in E, Sz, Lt. fold size in Sz.
  assert (U : tick_uploads (trace (snd mid)) = tick_uploads (trace w)).
  { rewrite E, tick_uploads_app, tick_uploads_none; [reflexivity|].
    revert F. apply Forall_impl, other_not_upload. }
  assert (Pos : size <> 0).
  { rewrite Sz. destruct (tickCount g >=? tickBufferSize) eqn:Full.
    - apply Z.geb_le in Full. unfold tickBufferSize in Full. lia.
    - lia. }
  assert (A : after = OnTick_flush v cfg host (fst mid) (snd mid)).
  { unfold after, OnTick. rewrite Hr. unfold bind. fold mid.
    destruct mid as [g1 w1]. reflexivity. }
  split; [exact Sz|]. split; [exact Lt|].
  rewrite A. unfold OnTick_flush, bind, GetTickCount, ask. fold size elapsed.
  split.
  - intros Due.
    destruct (size >=? tickBufferSize) eqn:Full; cbv beta iota.
    + rewrite (SendTickData_uploads v cfg host (fst mid) (snd mid) Pos), U. reflexivity.
    + rewrite Z.geb_leb in Full. apply Z.leb_gt in Full.
      cbv beta iota. fold elapsed.
      replace (elapsed >? 30000) with true by (symmetry; apply Z.gtb_lt; lia).
      rewrite (SendTickData_uploads v cfg host (fst mid) _ Pos). cbn [trace]. rewrite U.
      reflexivity.
  - intros [Small Early].
    replace (size >=? tickBufferSize) with false
      by (symmetry; rewrite Z.geb_leb; apply Z.leb_gt; lia).
    cbv beta iota. fold elapsed.
    replace (elapsed >? 30000) with false
      by (symmetry; rewrite Z.gtb_ltb; apply Z.ltb_ge; lia).
    cbn [ret snd fst trace]. split; [exact U|reflexivity].
Qed.

(** C3 as stated fails: with one tick buffered and the clock exactly
    30000 ms past [lastTickSend], nothing is uploaded. *)
Lemma flush_not_at_30000 :
  let g := connected_globals 0 0 in
  let mid := OnTick_collect_and_poll Revised mql4_library default_config boundary_host g
               initial_world in
  let elapsed := h_GetTickCount boundary_host (calls (snd mid)) - lastTickSend (fst mid) in
  let after := OnTick Revised mql4_library default_config boundary_host g initial_world in
  ~ (tickCount (fst mid) = tickBufferSize \/ elapsed >= 30000
     <-> tick_uploads (trace (snd after)) = S (tick_uploads (trace initial_world))).
Proof.
  intros g mid elapsed after [Fires _].
  assert (E : elapsed >= 30000) by (vm_compute; discriminate).
  specialize (Fires (or_intror E)). vm_compute in Fires. discriminate.
Qed.


(** *** ExecuteSignal *)

Lemma orders_sent_none new : Forall not_order_send new -> orders_sent new = [].
Proof.
  unfold orders_sent.
  induction 1 as [|e new He _ IH]; simpl; [reflexivity|].
  rewrite He. exact IH.
Qed.

Lemma LogTradeToBackend_does v cfg host ticket d lots price sl tp :
  does not_order_send any (LogTradeToBackend v cfg host ticket d lots price sl tp).
Proof.
  unfold LogTradeToBackend, TimeCurrent.
  does_auto. apply SendHttpRequest_does; reflexivity.
Qed.

(** C9.  In both revisions ExecuteSignal submits one order, whose price is
    the ask (for BUY) or the bid (otherwise) that the terminal gives at that
    moment; the entry price of the signal has no influence on anything
    ExecuteSignal does. *)
Theorem ExecuteSignal_price v cfg host direction entryPrice sl tp w :
  let live := if (direction =? "BUY")%string
              then h_ask host (calls w) else h_bid host (calls w) in
  let cmd := if (direction =? "BUY")%string then OP_BUY else OP_SELL in
  orders_sent (trace (snd (ExecuteSignal v cfg host direction entryPrice sl tp w)))
  = EvOrderSend (Symbol cfg) cmd (LotSize cfg) live (Slippage cfg) sl tp
      "AI Scalping Signal" (MagicNumber cfg) 0 clrBlue :: orders_sent (trace w)
  /\ (forall entryPrice',
        ExecuteSignal v cfg host direction entryPrice' sl tp w
        = ExecuteSignal v cfg host direction entryPrice sl tp w).
Proof.
  intros live cmd. split; [|reflexivity].
  unfold ExecuteSignal. cbv zeta. fold cmd.
  set (order := EvOrderSend (Symbol cfg) cmd (LotSize cfg) live (Slippage cfg) sl tp
                  "AI Scalping Signal" (MagicNumber cfg) 0 clrBlue).
  assert (Rest : forall (m : H unit) w0,
             does not_order_send any m ->
             trace w0 = order :: trace w ->
             orders_sent (trace (snd (m w0))) = order :: orders_sent (trace w)).
  { intros m w0 Hm E0. destruct (Hm w0) as (new & E & F & _).
    rewrite E, E0. unfold orders_sent at 1. rewrite filter_app.
    fold (orders_sent new). rewrite (orders_sent_none new F). reflexivity. }
  unfold bind at 1.
  assert (P : (if (direction =? "BUY")%string then MarketInfo_ASK host else MarketInfo_BID host) w
              = (live, {| calls := S (calls w); trace := trace w |})).
  { unfold live. destruct (direction =? "BUY")%string; reflexivity. }
  rewrite P. unfold bind at 1.
  change (OrderSend host (Symbol cfg) cmd (LotSize cfg) live (Slippage cfg) sl tp
            "AI Scalping Signal" (MagicNumber cfg) 0 clrBlue
            {| calls := S (calls w); trace := trace w |})
    with (h_order_send host (S (calls w)),
          {| calls := S (S (calls w)); trace := order :: trace w |}).
  cbv beta iota.
  destruct (os_ticket (h_order_send host (S (calls w))) >? 0).
  - apply Rest; [|reflexivity].
    eapply does_bind; [does_auto|]. intros _ _. apply LogTradeToBackend_does.
  - apply Rest; [|reflexivity]. does_auto.
Qed.

(** *** CheckForSignals *)

Lemma CheckForSignals_handle_received v tip cfg host response w :
  signals_received (trace (snd (CheckForSignals_handle v tip cfg host response w)))
  = S (signals_received (trace w)).
Proof.
  unfold CheckForSignals_handle. cbv zeta. unfold bind at 1. unfold Print at 1, emit at 1.
  set (w0 := {| calls := calls w; trace := _ :: trace w |}).
  assert (D : does not_received any
                (bind (ValidateSignal cfg host
                         (Extract.ExtractValue v tip response "direction")
                         (h_StringToDouble host
                            (Extract.ExtractValue v tip response "entry_price"))
                         (h_StringToDouble host (Extract.ExtractValue v tip response "sl"))
                         (h_StringToDouble host (Extract.ExtractValue v tip response "tp")))
                   (fun ok => if negb ok then Print [PStr "Signal validation failed"]
                              else ExecuteSignal v cfg host
                                     (Extract.ExtractValue v tip response "direction")
                                     (h_StringToDouble host
                                        (Extract.ExtractValue v tip response "entry_price"))
                                     (h_StringToDouble host
                                        (Extract.ExtractValue v tip response "sl"))
                                     (h_StringToDouble host
                                        (Extract.ExtractValue v tip response "tp"))))).
  { eapply does_bind; [apply ValidateSignal_not_received|]. intros ok _.
    destruct (negb ok); [does_auto|apply ExecuteSignal_not_received]. }
  destruct (D w0) as (new & E & F & _).
  rewrite E, signals_received_app, (signals_received_none new F).
  reflexivity.
Qed.

(** C8 (amended).  CheckForSignals does nothing beyond its request exactly
    when the response is empty or, in [Original], is the text [no_signal],
    in [Revised], holds the text [no_signal] at some position.  Every other
    response is decoded, printed and passed to ValidateSignal. *)
Theorem CheckForSignals_skips v tip cfg host w :
  let sent := SendHttpRequest v cfg host (BackendURL cfg ++ "/api/signals") NoPayload w in
  let response := fst sent in
  let skip := response = EmptyString
              \/ match v with
                 | Original => response = "no_signal"
                 | Revised => exists pre post, response = (pre ++ "no_signal" ++ post)%string
                 end in
  let after := CheckForSignals v tip cfg host w in
  (skip -> after = (tt, snd sent))
  /\ (~ skip -> after = CheckForSignals_handle v tip cfg host response (snd sent))
  /\ (skip <-> signals_received (trace (snd after)) = signals_received (trace w))
  /\ (~ skip <-> signals_received (trace (snd after)) = S (signals_received (trace w))).
Proof.
  intros sent response skip after.
  assert (B : no_signal_response v response = true <-> skip).
  { unfold no_signal_response, skip. destruct v.
    - rewrite orb_true_iff, !String.eqb_eq. tauto.
    - rewrite orb_true_iff, String.eqb_eq, Z.geb_le.
      rewrite (ExtractFacts.StringFind_contains response "no_signal") by discriminate.
      tauto. }
  assert (S0 : signals_received (trace (snd sent)) = signals_received (trace w)).
  { destruct (SendHttpRequest_not_received v cfg host (BackendURL cfg ++ "/api/signals")
                NoPayload w) as (new & E & F & _).
    fold sent in E. rewrite E, signals_received_app, (signals_received_none new F).
    reflexivity. }
  assert (A : after = if no_signal_response v response then (tt, snd sent)
                      else CheckForSignals_handle v tip cfg host response (snd sent)).
  { unfold after, CheckForSignals, bind. fold sent. unfold response.
    destruct sent as [r w1]. simpl. destruct (no_signal_response v r); reflexivity. }
  destruct (no_signal_response v response) eqn:N.
  - assert (Sk : skip) by (apply B; reflexivity).
    rewrite A. cbn [snd]. rewrite S0.
    repeat split; auto; try tauto; intros; lia.
  - assert (Sk : ~ skip) by (rewrite <- B; discriminate).
    rewrite A, CheckForSignals_handle_received, S0.
    repeat split; auto; try tauto; intros; try lia.
Qed.

(** C8 as stated fails for [Revised]: a response that holds the sentinel
    among other text is neither empty nor the sentinel, and is skipped. *)
Lemma containing_sentinel_is_skipped :
  let sent := SendHttpRequest Revised default_config busy_host
                (BackendURL default_config ++ "/api/signals") NoPayload initial_world in
  let response := fst sent in
  let after := CheckForSignals Revised mql4_library default_config busy_host initial_world in
  ~ (response = EmptyString \/ response = "no_signal"
     <-> signals_received (trace (snd after)) = signals_received (trace initial_world)).
Proof.
  intros sent response after [_ Skipped].
  assert (E : signals_received (trace (snd after)) = signals_received (trace initial_world))
    by (vm_compute; reflexivity).
  destruct (Skipped E) as [R|R]; vm_compute in R; discriminate.
Qed.

(** C1 (amended).  In [Revised], for every terminal and every sequence of
    callbacks run from the initial state: the watermark [lastLoggedTicket]
    is the greatest of the tickets sent in close reports and of the tickets
    of this session's orders that the session starts found in the order
    history (0 when there are none); every reported ticket is at most the
    watermark; and from any state, any further sequence of callbacks leaves
    the watermark at least as high as it was.  The answers of the backend
    play no part, so a failed report moves the watermark like a successful
    one. *)
Theorem watermark_is_maximum tip cfg host cbs :
  let final := run Revised tip cfg host cbs initial_globals initial_world in
  lastLoggedTicket (fst final)
  = max_ticket (reported_tickets (trace (snd final))
                ++ session_start_tickets tip cfg host cbs initial_globals initial_world) 0
  /\ Forall (fun t => t <= lastLoggedTicket (fst final)) (reported_tickets (trace (snd final)))
  /\ (forall g w more,
        lastLoggedTicket g <= lastLoggedTicket (fst (run Revised tip cfg host more g w))).
Proof.
  intros final.
  destruct (run_watermark tip cfg host cbs initial_globals initial_world) as (new & E & L).
  fold final in E, L. simpl in E, L. rewrite app_nil_r in E.
  assert (M : lastLoggedTicket (fst final)
              = max_ticket (reported_tickets (trace (snd final))
                  ++ session_start_tickets tip cfg host cbs initial_globals initial_world) 0).
  { rewrite E. exact L. }
  split; [exact M|]. split.
  - rewrite M, max_ticket_app.
    generalize (reported_tickets (trace (snd final))) as l.
    intros l. induction l as [|t l IH]; constructor.
    + simpl. lia.
    + revert IH. apply Forall_impl. intros a. simpl. lia.
  - intros g w more.
    destruct (run_watermark tip cfg host more g w) as (n & _ & L').
    rewrite L'. apply max_ticket_low.
Qed.

(** C1 as stated fails: after one session start on an account whose
    history holds ticket 7 of this session, the watermark is 7 and no close
    has been reported. *)
Lemma watermark_above_reports :
  let final := run Revised mql4_library default_config restart_host [CbInit]
                 initial_globals initial_world in
  lastLoggedTicket (fst final) <> max_ticket (reported_tickets (trace (snd final))) 0.
Proof. vm_compute. discriminate. Qed.

(** C5.  In both revisions, on every terminal: a tick count within the
    capacity stays within it over every sequence of callbacks, and over
    every single CollectTickData and SendTickData whatever the backend
    answers; CollectTickData on a full buffer changes nothing and reads
    nothing from the terminal. *)
Theorem tickCount_never_exceeds_capacity v tip cfg host :
  (forall cbs g w,
     tickCount g <= tickBufferSize ->
     tickCount (fst (run v tip cfg host cbs g w)) <= tickBufferSize)
  /\ (forall g w,
        tickCount g <= tickBufferSize ->
        tickCount (fst (CollectTickData v host g w)) <= tickBufferSize
        /\ tickCount (fst (SendTickData v cfg host g w)) <= tickBufferSize)
  /\ (forall g w,
        tickCount g = tickBufferSize -> CollectTickData v host g w = (g, w)).
Proof.
  split; [|split].
  - intros cbs g w. apply run_tickCount.
  - intros g w Hb. split.
    + eapply collected_tickCount; [|exact Hb].
      apply (does_result _ _ _ w (CollectTickData_does v host g)).
    + eapply flushed_tickCount; [|exact Hb].
      apply (does_result _ _ _ w (SendTickData_does v cfg host g)).
  - intros g w Hf. unfold CollectTickData. rewrite Hf. reflexivity.
Qed.

(** ** Scenarios *)

(** C2.  On the object whose key [k] has the quoted value [a,b], the
    ExtractValue of [Revised] returns [a], the text before the comma, where
    the claim asks for [a,b]; the ExtractValue of [Original] returns [a,b]
    (lemma [ExtractFacts.ExtractValue_original_quoted] gives it for every
    quoted value that follows the colon at once, is not empty and holds no
    quote and no backslash). *)
Theorem ExtractValue_quoted_comma tip :
  Extract.ExtractValue Revised tip sample_json "k" = "a"
  /\ Extract.ExtractValue Revised tip sample_json "k" <> "a,b"
  /\ Extract.ExtractValue Original tip sample_json "k" = "a,b".
Proof.
  split; [|split].
  - vm_compute. reflexivity.
  - vm_compute. discriminate.
  - apply (ExtractFacts.ExtractValue_original_quoted tip "{" "k" "a,b" "}");
      [reflexivity|discriminate|reflexivity|reflexivity].
Qed.

Lemma ValidateSignal_check_order_witness :
  (double_gt (h_spread wide_spread_host 0) (double_of_int (MaxSpread default_config)) = true
   /\ fst (ValidateSignal default_config wide_spread_host "BUY" (decimal 11 1)
             (double_of_int 1) (decimal 12 1) initial_world) = false)
  /\ (double_gt (h_spread full_book_host 0) (double_of_int (MaxSpread default_config))
      = false
      /\ MaxPositions default_config <= open_positions default_config (h_trades full_book_host 1)
      /\ fst (ValidateSignal default_config full_book_host "BUY" (decimal 11 1)
                (double_of_int 1) (decimal 12 1) initial_world) = false).
Proof.
  split.
  - assert (Hs : double_gt (h_spread wide_spread_host 0)
                   (double_of_int (MaxSpread default_config)) = true) by reflexivity.
    split; [exact Hs|].
    rewrite (proj1 (ValidateSignal_check_order default_config wide_spread_host "BUY"
                      (decimal 11 1) (double_of_int 1) (decimal 12 1) initial_world) Hs).
    reflexivity.
  - assert (Hs : double_gt (h_spread full_book_host 0)
                   (double_of_int (MaxSpread default_config)) = false) by reflexivity.
    assert (Hp : MaxPositions default_config
                 <= open_positions default_config (h_trades full_book_host 1))
      by (vm_compute; discriminate).
    split; [exact Hs|]. split; [exact Hp|].
    rewrite (proj2 (ValidateSignal_check_order default_config full_book_host "BUY"
                      (decimal 11 1) (double_of_int 1) (decimal 12 1) initial_world) Hs Hp).
    reflexivity.
Defined.

Lemma ValidateSignal_price_witness :
  fst (ValidateSignal default_config calm_host "BUY" (decimal 110250 5) (double_of_int 1)
         (decimal 12 1) initial_world) = true
  /\ fst (ValidateSignal default_config calm_host "BUY" (decimal 110500 5) (double_of_int 1)
            (decimal 12 1) initial_world) = false.
Proof.
  assert (Hs : double_gt (h_spread calm_host (calls initial_world))
                 (double_of_int (MaxSpread default_config)) = false) by reflexivity.
  assert (Hp : open_positions default_config (h_trades calm_host (S (calls initial_world)))
               < MaxPositions default_config) by reflexivity.
  assert (He : is_number (decimal 110250 5) = true) by reflexivity.
  destruct (ValidateSignal_price default_config calm_host (decimal 110250 5)
              (double_of_int 1) (decimal 12 1) initial_world Hs Hp He)
    as (Buy & _ & Scenario).
  split.
  - apply Buy; reflexivity.
  - apply Scenario; reflexivity.
Defined.

Lemma ValidateSignal_direction_witness :
  fst (ValidateSignal default_config calm_host "Buy" (decimal 11 1) (double_of_int 1)
         (decimal 12 1) initial_world)
  = false.
Proof.
  assert (Hs : double_gt (h_spread calm_host (calls initial_world))
                 (double_of_int (MaxSpread default_config)) = false) by reflexivity.
  assert (Hp : open_positions default_config (h_trades calm_host (S (calls initial_world)))
               < MaxPositions default_config) by reflexivity.
  rewrite (ValidateSignal_direction default_config calm_host "Buy" (decimal 11 1)
             (double_of_int 1) (decimal 12 1) initial_world Hs Hp);
    [reflexivity|discriminate|discriminate].
Defined.

Lemma OnTick_flush_exactly_witness :
  tick_uploads (trace (snd (OnTick Revised mql4_library default_config late_host
                              (connected_globals 0 0) initial_world))) = 1%nat.
Proof.
  assert (Hr : OnTick_runs Revised default_config (connected_globals 0 0) = true)
    by reflexivity.
  assert (Hc : 0 <= tickCount (connected_globals 0 0)) by (vm_compute; discriminate).
  destruct (OnTick_flush_exactly Revised mql4_library default_config late_host
              (connected_globals 0 0) initial_world Hr Hc) as (_ & _ & Fires & _).
  rewrite Fires; [reflexivity|].
  right. vm_compute. reflexivity.
Defined.


Lemma tickCount_never_exceeds_capacity_witness :
  tickCount (fst (run Revised mql4_library default_config calm_host [CbInit; CbTick; CbTick]
                    initial_globals initial_world)) <= tickBufferSize
  /\ CollectTickData Revised calm_host (connected_globals 500 0) initial_world
     = (connected_globals 500 0, initial_world).
Proof.
  destruct (tickCount_never_exceeds_capacity Revised mql4_library default_config calm_host)
    as (Runs & _ & Dropped).
  split.
  - apply Runs. vm_compute. discriminate.
  - apply Dropped. reflexivity.
Defined.

Lemma CheckForSignals_skips_witness :
  CheckForSignals Original mql4_library default_config idle_host initial_world
  = (tt, snd (SendHttpRequest Original default_config idle_host
                (BackendURL default_config ++ "/api/signals") NoPayload initial_world))
  /\ signals_received
       (trace (snd (CheckForSignals Original mql4_library default_config calm_host initial_world)))
     = 1%nat.
Proof.
  split.
  - destruct (CheckForSignals_skips Original mql4_library default_config idle_host initial_world)
      as (Skipped & _).
    apply Skipped. right. reflexivity.
  - destruct (CheckForSignals_skips Original mql4_library default_config calm_host initial_world)
      as (_ & _ & _ & Handled).
    apply Handled. intros [E|E]; vm_compute in E; discriminate.
Defined.

Module FieldFacts.
Import Extract ExtractFacts.

Section Readings.
Variable lib : Library.

Lemma append_nil_r (s : string) : (s ++ EmptyString)%string = s.
Proof. induction s as [|c s IH]; simpl; [reflexivity|]. rewrite IH. reflexivity. Qed.

(** A text is empty or ends in a last character. *)
Lemma last_char_split s d :
  last_char s = Some d -> exists init, s = (init ++ String d EmptyString)%string.
Proof.
  induction s as [|c s IH]; simpl; [discriminate|].
  destruct s as [|c' s'].
  - intros E. injection E as ->. exists EmptyString. reflexivity.
  - intros E. destruct (IH E) as [init ->]. exists (String c init). reflexivity.
Qed.

Lemma last_char_none s : last_char s = None -> s = EmptyString.
Proof.
  induction s as [|c s IH]; [reflexivity|]. simpl.
  destruct s; [discriminate|]. intros E. specialize (IH E). discriminate.
Qed.

Lemma last_char_app s d : last_char (s ++ String d EmptyString) = Some d.
Proof.
  induction s as [|c s IH]; [reflexivity|]. simpl.
  destruct (s ++ String d EmptyString)%string eqn:E; [destruct s; discriminate|].
  exact IH.
Qed.

Lemma string_end_cases s :
  s = EmptyString \/ exists init d, s = (init ++ String d EmptyString)%string.
Proof.
  destruct (last_char s) as [d|] eqn:E.
  - right. destruct (last_char_split s d E) as [init ->]. eauto.
  - left. apply last_char_none, E.
Qed.

Lemma padding_app a b : padding (a ++ b) = padding a && padding b.
Proof.
  induction a as [|c a IH]; simpl; [reflexivity|]. rewrite IH. apply andb_assoc.
Qed.

Lemma undelimited_app a b : undelimited (a ++ b) = undelimited a && undelimited b.
Proof.
  induction a as [|c a IH]; simpl; [reflexivity|]. rewrite IH. apply andb_assoc.
Qed.

Lemma pad_not_delimiter c : is_pad c = true -> is_delimiter c = false.
Proof.
  unfold is_pad, is_delimiter. intros E. apply orb_true_iff in E.
  destruct E as [E|E]; apply Ascii.eqb_eq in E; subst c; reflexivity.
Qed.

Lemma padding_undelimited s : padding s = true -> undelimited s = true.
Proof.
  induction s as [|c s IH]; simpl; [reflexivity|].
  intros E. apply andb_true_iff in E. destruct E as [Ec Es].
  rewrite (pad_not_delimiter c Ec), (IH Es). reflexivity.
Qed.

Lemma ends_field_first rest :
  ends_field rest = true ->
  match rest with EmptyString => True | String c _ => is_delimiter c = true end.
Proof. destruct rest; simpl; auto. Qed.

(** The character at a position, or nothing at the end of the text. *)
Lemma StringSubstr_at a b :
  StringSubstr lib (a ++ b) (Z.of_nat (String.length a)) 1
  = match b with EmptyString => EmptyString | String c _ => String c EmptyString end.
Proof.
  destruct b as [|c b].
  - apply StringSubstr_beyond; [|lia]. unfold StringLen. rewrite length_append. simpl. lia.
  - apply StringSubstr_char.
Qed.

Lemma step_position a c :
  Z.of_nat (String.length a) + 1 = Z.of_nat (String.length (a ++ String c EmptyString)).
Proof. rewrite length_append. simpl. lia. Qed.

Lemma regroup a c b :
  (a ++ String c b)%string = ((a ++ String c EmptyString) ++ b)%string.
Proof. rewrite append_assoc. reflexivity. Qed.

(** [Revised]: the first loop passes the padding and stops on what
    follows. *)
Lemma skip_leading_over pad : forall a b fuel,
  padding pad = true ->
  match b with EmptyString => True | String c _ => is_pad c = false end ->
  (String.length pad < fuel)%nat ->
  skip_leading lib fuel (a ++ pad ++ b) (Z.of_nat (String.length a))
  = Z.of_nat (String.length a + String.length pad).
Proof.
  induction pad as [|p pad IH]; intros a b fuel Hp Hb Hf.
  - destruct fuel as [|fuel]; [simpl in Hf; lia|].
    cbn [skip_leading append]. rewrite StringSubstr_at.
    destruct b as [|c b].
    + simpl. lia.
    + rewrite pad_test, Hb. simpl. lia.
  - simpl in Hp. apply andb_true_iff in Hp. destruct Hp as [Hc Hp].
    destruct fuel as [|fuel]; [simpl in Hf; lia|].
    cbn [skip_leading]. rewrite StringSubstr_at.
    cbn [append]. rewrite pad_test, Hc.
    rewrite (step_position a p), (regroup a p (pad ++ b)).
    rewrite IH; auto.
    + rewrite length_append. simpl. lia.
    + simpl in Hf. lia.
Qed.

(** [Revised]: the second loop passes what holds no comma and no brace
    and stops at the end of the field. *)
Lemma scan_plain_over body : forall a rest fuel,
  undelimited body = true -> ends_field rest = true ->
  (String.length body < fuel)%nat ->
  scan_plain lib fuel (a ++ body ++ rest) (Z.of_nat (String.length a))
  = Z.of_nat (String.length a + String.length body).
Proof.
  induction body as [|c body IH]; intros a rest fuel Hb Hr Hf.
  - destruct fuel as [|fuel]; [simpl in Hf; lia|].
    cbn [scan_plain append].
    destruct rest as [|r rest].
    + replace (Z.of_nat (String.length a) <? StringLen (a ++ EmptyString)) with false
        by (symmetry; apply Z.ltb_ge; unfold StringLen; rewrite length_append; simpl; lia).
      simpl. lia.
    + replace (Z.of_nat (String.length a) <? StringLen (a ++ String r rest)) with true
        by (symmetry; apply Z.ltb_lt; unfold StringLen; rewrite length_append;
            simpl String.length; lia).
      rewrite StringSubstr_at, delimiter_test.
      simpl in Hr. unfold is_delimiter. rewrite Hr. simpl. lia.
  - simpl in Hb. apply andb_true_iff in Hb. destruct Hb as [Hc Hb].
    apply negb_true_iff in Hc.
    destruct fuel as [|fuel]; [simpl in Hf; lia|].
    cbn [scan_plain].
    replace (Z.of_nat (String.length a) <? StringLen (a ++ String c body ++ rest)) with true
      by (symmetry; apply Z.ltb_lt; unfold StringLen; rewrite length_append;
          simpl String.length; lia).
    rewrite StringSubstr_at. cbn [append]. rewrite delimiter_test, Hc.
    rewrite (step_position a c), (regroup a c (body ++ rest)).
    rewrite IH; auto.
    + rewrite length_append. simpl. lia.
    + simpl in Hf. lia.
Qed.

(** [Original]: outside quotes, the loop passes what holds no quote, no
    comma and no brace, and stops at the end of the field. *)
Lemma scan_quoted_over body : forall a rest fuel,
  unquoted body = true -> undelimited body = true -> ends_field rest = true ->
  (String.length body < fuel)%nat ->
  scan_quoted lib fuel (a ++ body ++ rest) (Z.of_nat (String.length a)) false
  = Z.of_nat (String.length a + String.length body).
Proof.
  induction body as [|c body IH]; intros a rest fuel Hq Hb Hr Hf.
  - destruct fuel as [|fuel]; [simpl in Hf; lia|].
    cbn [scan_quoted append].
    destruct rest as [|r rest].
    + replace (Z.of_nat (String.length a) <? StringLen (a ++ EmptyString)) with false
        by (symmetry; apply Z.ltb_ge; unfold StringLen; rewrite length_append; simpl; lia).
      simpl. lia.
    + replace (Z.of_nat (String.length a) <? StringLen (a ++ String r rest)) with true
        by (symmetry; apply Z.ltb_lt; unfold StringLen; rewrite length_append;
            simpl String.length; lia).
      rewrite StringSubstr_at, delimiter_test.
      simpl in Hr.
      assert (Q : Ascii.eqb r "034" = false).
      { apply orb_true_iff in Hr. destruct Hr as [E|E]; apply Ascii.eqb_eq in E; subst r;
          reflexivity. }
      unfold dquote at 1. rewrite single_eqb, Q. unfold is_delimiter. rewrite Hr.
      simpl. lia.
  - simpl in Hq, Hb.
    apply andb_true_iff in Hq. destruct Hq as [Hcq Hq].
    apply andb_true_iff in Hb. destruct Hb as [Hc Hb].
    apply negb_true_iff in Hc, Hcq.
    destruct fuel as [|fuel]; [simpl in Hf; lia|].
    cbn [scan_quoted].
    replace (Z.of_nat (String.length a) <? StringLen (a ++ String c body ++ rest)) with true
      by (symmetry; apply Z.ltb_lt; unfold StringLen; rewrite length_append;
          simpl String.length; lia).
    rewrite StringSubstr_at. cbn [append]. rewrite delimiter_test, Hc.
    unfold dquote at 1. rewrite single_eqb, Hcq. cbn [andb negb].
    rewrite (step_position a c), (regroup a c (body ++ rest)).
    rewrite IH; auto.
    + rewrite length_append. simpl. lia.
    + simpl in Hf. lia.
Qed.


(** [Revised]: the last loop removes the padding behind a value and stops
    on the last character of the value. *)
Lemma trim_trailing_over n : forall trail core fuel,
  String.length trail = n ->
  padding trail = true ->
  core <> EmptyString ->
  match last_char core with Some d => is_pad d = false | None => True end ->
  (n < fuel)%nat ->
  trim_trailing lib fuel (core ++ trail) = core.
Proof.
  induction n as [|n IH]; intros trail core fuel Hn Hp Hne Hc Hf.
  - destruct trail; [|discriminate Hn]. rewrite append_nil_r.
    destruct fuel as [|fuel]; [lia|]. cbn [trim_trailing].
    destruct (string_end_cases core) as [->|(init & d & ->)].
    + reflexivity.
    + rewrite last_char_app in Hc.
      replace (StringLen (init ++ String d EmptyString) - 1)
        with (Z.of_nat (String.length init))
        by (unfold StringLen; rewrite length_append; simpl; lia).
      rewrite StringSubstr_at, pad_test, Hc. reflexivity.
  - destruct (string_end_cases trail) as [->|(t & p & ->)]; [discriminate Hn|].
    rewrite length_append in Hn. simpl in Hn.
    rewrite padding_app in Hp. apply andb_true_iff in Hp. destruct Hp as [Ht Hp].
    simpl in Hp. rewrite andb_true_r in Hp.
    destruct fuel as [|fuel]; [lia|]. cbn [trim_trailing].
    rewrite <- append_assoc.
    replace (StringLen ((core ++ t) ++ String p EmptyString) - 1)
      with (Z.of_nat (String.length (core ++ t)))
      by (unfold StringLen; rewrite (length_append (core ++ t)); simpl; lia).
    rewrite StringSubstr_at, pad_test, Hp.
    assert (V : StringSubstr lib ((core ++ t) ++ String p EmptyString) 0
                  (Z.of_nat (String.length (core ++ t))) = (core ++ t)%string).
    { apply (StringSubstr_middle lib EmptyString (core ++ t) (String p EmptyString)).
      destruct core; [contradiction|discriminate]. }
    rewrite V. apply IH; auto; lia.
Qed.

Lemma clear_of_first bad s c rest :
  clear_of bad s = true -> s = String c rest -> bad c = false.
Proof.
  intros H ->. unfold clear_of in H. simpl first_char in H.
  destruct (last_char (String c rest)) as [d|] eqn:E.
  - apply andb_true_iff in H. destruct H as [H _]. apply negb_true_iff, H.
  - apply last_char_none in E. discriminate.
Qed.

Lemma clear_of_last bad s :
  clear_of bad s = true ->
  match last_char s with Some d => bad d = false | None => True end.
Proof.
  unfold clear_of. destruct s as [|c s]; [simpl; auto|].
  simpl first_char. destruct (last_char (String c s)) as [d|]; [|auto].
  intros H. apply andb_true_iff in H. destruct H as [_ H]. apply negb_true_iff, H.
Qed.

Lemma substring_none s n : substring n 0 s = EmptyString.
Proof.
  revert n. induction s as [|c s IH]; intros [|n]; simpl; auto.
Qed.

(** The position behind the search token. *)
Lemma token_end pre key :
  StringLen pre + StringLen (search_token key)
  = Z.of_nat (String.length (pre ++ search_token key)).
Proof. unfold StringLen. rewrite length_append. lia. Qed.

Lemma token_length key : (3 <= String.length (search_token key))%nat.
Proof. unfold search_token. rewrite !length_append. simpl. lia. Qed.

(** [Revised] returns the field up to the first comma or closing brace,
    without the spaces and quotes around it. *)
Lemma ExtractValue_revised_core pre key lead core trail rest :
  let json := (pre ++ search_token key ++ lead ++ core ++ trail ++ rest)%string in
  StringFind json (search_token key) = StringLen pre ->
  core <> EmptyString ->
  padding lead = true -> padding trail = true ->
  undelimited core = true -> clear_of is_pad core = true ->
  ends_field rest = true ->
  ExtractValue_revised lib json key = core.
Proof.
  intros json Hfind Hne Hl Ht Hu Hc Hr.
  set (a := (pre ++ search_token key)%string).
  assert (La : (3 <= String.length a)%nat).
  { unfold a. rewrite length_append. pose proof (token_length key). lia. }
  unfold ExtractValue_revised. rewrite Hfind.
  replace (StringLen pre =? -1) with false
    by (symmetry; apply Z.eqb_neq; unfold StringLen; lia).
  cbv zeta. rewrite token_end. fold a.
  destruct core as [|c0 core']; [contradiction|].
  set (core := String c0 core') in *.
  assert (J : json = ((a ++ lead) ++ (core ++ trail) ++ rest)%string).
  { unfold json, a. rewrite !append_assoc. reflexivity. }
  assert (S1 : skip_leading lib (S (String.length json)) json (Z.of_nat (String.length a))
               = Z.of_nat (String.length (a ++ lead))).
  { replace json with (a ++ lead ++ (core ++ trail ++ rest))%string
      by (rewrite J, !append_assoc; reflexivity).
    rewrite (length_append a lead). apply skip_leading_over; auto.
    - apply (clear_of_first is_pad core c0 core' Hc eq_refl).
    - rewrite !length_append. lia. }
  rewrite S1.
  assert (S2 : scan_plain lib (String.length json) json
                 (Z.of_nat (String.length (a ++ lead)))
               = Z.of_nat (String.length (a ++ lead) + String.length (core ++ trail))).
  { rewrite J at 2. apply scan_plain_over; auto.
    - rewrite undelimited_app, Hu, (padding_undelimited trail Ht). reflexivity.
    - rewrite J, !length_append. lia. }
  rewrite S2.
  replace (Z.of_nat (String.length (a ++ lead) + String.length (core ++ trail))
           - Z.of_nat (String.length (a ++ lead)))
    with (Z.of_nat (String.length (core ++ trail))) by lia.
  rewrite J, StringSubstr_middle by discriminate.
  apply (trim_trailing_over (String.length trail)); auto.
  - apply clear_of_last, Hc.
  - rewrite length_append. lia.
Qed.

Lemma StringTrimLeft_kept s :
  match first_char s with Some c => is_blank c = false | None => True end ->
  StringTrimLeft s = s.
Proof. destruct s as [|c s]; simpl; [reflexivity|]. intros ->. reflexivity. Qed.

Lemma StringTrimRight_clear s :
  match last_char s with Some c => is_blank c = false | None => True end ->
  StringTrimRight s = s.
Proof.
  destruct (string_end_cases s) as [->|(init & d & ->)]; [reflexivity|].
  rewrite last_char_app. apply StringTrimRight_kept.
Qed.

(** [Original] returns a field without quotes as it stands, up to the
    first comma or closing brace. *)
Lemma ExtractValue_original_bare pre key val rest :
  let json := (pre ++ search_token key ++ val ++ rest)%string in
  StringFind json (search_token key) = StringLen pre ->
  val <> EmptyString ->
  unquoted val = true -> undelimited val = true ->
  clear_of is_blank val = true ->
  ends_field rest = true ->
  ExtractValue_original lib json key = val.
Proof.
  intros json Hfind Hne Hq Hu Hc Hr.
  set (a := (pre ++ search_token key)%string).
  assert (La : (3 <= String.length a)%nat).
  { unfold a. rewrite length_append. pose proof (token_length key). lia. }
  assert (J : json = (a ++ val ++ rest)%string).
  { unfold json, a. rewrite !append_assoc. reflexivity. }
  unfold ExtractValue_original. rewrite Hfind.
  replace (StringLen pre =? -1) with false
    by (symmetry; apply Z.eqb_neq; unfold StringLen; lia).
  cbv zeta. rewrite token_end. fold a.
  assert (S1 : scan_quoted lib (String.length json) json (Z.of_nat (String.length a)) false
               = Z.of_nat (String.length a + String.length val)).
  { rewrite J at 2. apply scan_quoted_over; auto. rewrite J, !length_append. lia. }
  rewrite S1.
  replace (Z.of_nat (String.length a + String.length val) - Z.of_nat (String.length a))
    with (Z.of_nat (String.length val)) by lia.
  rewrite J, StringSubstr_middle by exact Hne.
  assert (T : (if trim_in_place lib then StringTrimRight (StringTrimLeft val) else val)
              = val).
  { destruct (trim_in_place lib); [|reflexivity].
    rewrite StringTrimLeft_kept.
    - apply StringTrimRight_clear, clear_of_last, Hc.
    - destruct val as [|c v]; [exact I|]. simpl.
      apply (clear_of_first is_blank (String c v) c v Hc eq_refl). }
  rewrite T.
  assert (F : (StringSubstr lib val 0 1 =? dquote)%string = false).
  { destruct val as [|c v]; [reflexivity|].
    assert (E : StringSubstr lib (String c v) 0 1 = String c EmptyString)
      by apply (StringSubstr_char lib EmptyString c v).
    rewrite E. unfold dquote. rewrite single_eqb.
    simpl in Hq. apply andb_true_iff in Hq. destruct Hq as [Hq _].
    apply negb_true_iff, Hq. }
  rewrite F. reflexivity.
Qed.

(** Without the search token in the text, nothing is found. *)
Lemma StringFind_absent s pat :
  pat <> EmptyString ->
  ~ (exists pre post, s = (pre ++ pat ++ post)%string) ->
  StringFind s pat = -1.
Proof.
  intros Hne Habs. pose proof (StringFind_contains s pat Hne) as C.
  unfold StringFind in *. destruct (index 0 pat s); [|reflexivity].
  exfalso. apply Habs, C. lia.
Qed.


(** Without the search token in the text, both revisions return the empty
    text. *)
Lemma ExtractValue_absent v json key :
  ~ (exists pre post, json = (pre ++ search_token key ++ post)%string) ->
  ExtractValue v lib json key = EmptyString.
Proof.
  intros Habs.
  assert (F : StringFind json (search_token key) = -1).
  { apply StringFind_absent; [|exact Habs]. unfold search_token. discriminate. }
  destruct v; simpl.
  - unfold ExtractValue_original. rewrite F. reflexivity.
  - unfold ExtractValue_revised. rewrite F. reflexivity.
Qed.

End Readings.

End FieldFacts.

(** ** The requests of SendHttpRequest *)

(** SendHttpRequest sends one request, GET without payload and POST with
    one; it returns the body when WebRequest raised no error, whatever
    the status, and the empty text otherwise. *)
Lemma SendHttpRequest_run v cfg host url payload w :
  exists prints,
    SendHttpRequest v cfg host url payload w
    = (if wr_error (h_web host (calls w)) =? 0
       then wr_body (h_web host (calls w)) else EmptyString,
       {| calls := S (calls w);
          trace := prints
                   ++ EvWebRequest (if payload_empty payload then "GET" else "POST") url
                        (request_texts v cfg) payload :: trace w |})
    /\ Forall is_print prints.
Proof.
  unfold SendHttpRequest, WebRequest, Print, bind, emit, ask, ret. cbn.
  fold (request_headers cfg).
  destruct (wr_error (h_web host (calls w)) =? 0); cbn.
  - destruct v; cbn.
    + exists []. split; [reflexivity|constructor].
    + destruct (negb (wr_code (h_web host (calls w)) =? 200)
                && negb (wr_code (h_web host (calls w)) =? 201)); cbn.
      * eexists [_]. split; [reflexivity|]. repeat constructor.
      * exists []. split; [reflexivity|constructor].
  - destruct v; eexists [_]; (split; [reflexivity|repeat constructor]).
Qed.

Lemma web_requests_app a b : web_requests (a ++ b) = web_requests a ++ web_requests b.
Proof. apply filter_app. Qed.

Lemma web_requests_prints prints : Forall is_print prints -> web_requests prints = [].
Proof.
  induction 1 as [|e l He _ IH]; [reflexivity|].
  destruct e; simpl in He; try contradiction. exact IH.
Qed.

Lemma orders_sent_prints prints : Forall is_print prints -> orders_sent prints = [].
Proof.
  induction 1 as [|e l He _ IH]; [reflexivity|].
  destruct e; simpl in He; try contradiction. exact IH.
Qed.

Lemma tick_uploads_prints prints : Forall is_print prints -> tick_uploads prints = O.
Proof.
  intros F. apply tick_uploads_none. revert F. apply Forall_impl, is_print_not_upload.
Qed.

(** Two addresses of the backend differ when their paths do. *)
Lemma append_inj (a x y : string) : (a ++ x)%string = (a ++ y)%string -> x = y.
Proof.
  induction a as [|c a IH]; simpl; [auto|]. intros E. injection E as E. auto.
Qed.

Lemma address_differs (base x y : string) :
  x <> y -> ((base ++ x)%string =? (base ++ y)%string)%string = false.
Proof.
  intros N. apply String.eqb_neq. intros E. apply N, (append_inj base), E.
Qed.

Lemma housekeeping_print cfg e : is_print e -> housekeeping cfg e.
Proof. destruct e; simpl; tauto. Qed.

Lemma housekeeping_no_order cfg e : housekeeping cfg e -> is_order_send e = false.
Proof. destruct e; simpl; tauto. Qed.

Lemma housekeeping_no_poll cfg e : housekeeping cfg e -> is_signal_poll cfg e = false.
Proof.
  destruct e as [| m url h p |]; simpl; auto.
  destruct p; intros H; try contradiction; subst url; apply address_differs; discriminate.
Qed.

(** ** CollectTickData, step by step *)

Lemma CollectTickData_run v host g w :
  tickCount g < tickBufferSize ->
  exists prints,
    CollectTickData v host g w
    = (set_tickCount (tickCount g + 1)
         (set_tickData
            (array_set (tickData g) (Z.to_nat (tickCount g))
               (Some {| tk_timestamp := h_TimeCurrent host (4 + calls w);
                        tk_bid := h_bid host (calls w);
                        tk_ask := h_ask host (1 + calls w);
                        tk_spread := h_spread host (2 + calls w);
                        tk_volume := h_volume host (3 + calls w) |})) g),
       {| calls := (5 + calls w)%nat; trace := prints ++ trace w |})
    /\ Forall is_print prints.
Proof.
  intros Hlt. unfold CollectTickData.
  replace (tickCount g >=? tickBufferSize) with false
    by (symmetry; rewrite Z.geb_leb; apply Z.leb_gt; exact Hlt).
  unfold MarketInfo_BID, MarketInfo_ASK, MarketInfo_SPREAD, Volume0, TimeCurrent,
    bind, ask, ret, Print, emit. cbn.
  destruct v; cbn.
  - destruct (Z.rem (tickCount g + 1) 100 =? 0); cbn.
    + eexists [_]. split; [reflexivity|repeat constructor].
    + exists []. split; [reflexivity|constructor].
  - exists []. split; [reflexivity|constructor].
Qed.

Lemma array_set_length {A} (a : list A) : forall i x,
  List.length (array_set a i x) = List.length a.
Proof.
  induction a as [|y a IH]; intros [|i] x; simpl; auto.
Qed.

Lemma array_set_firstn {A} (a : list A) : forall i x,
  (i < List.length a)%nat -> firstn (S i) (array_set a i x) = firstn i a ++ [x].
Proof.
  induction a as [|y a IH]; intros [|i] x Hi; simpl in *; try lia.
  - destruct a; reflexivity.
  - f_equal. apply IH. lia.
Qed.

Lemma ArrayResize_length {A} (a : list (option A)) n :
  List.length (ArrayResize a n) = n.
Proof.
  unfold ArrayResize. rewrite length_app, length_firstn, repeat_length. lia.
Qed.

(** ** SendTickData, OnInit and OnDeinit, step by step *)

Lemma SendTickData_run v cfg host g w :
  tickCount g <> 0 ->
  let reply := h_web host (calls w) in
  let request := EvWebRequest "POST" (BackendURL cfg ++ "/api/ticks") (request_texts v cfg)
                   (TicksPayload (Symbol cfg) (batch g)) in
  exists prints,
    Forall is_print prints
    /\ SendTickData v cfg host g w
       = if (wr_error reply =? 0) && negb (wr_body reply =? EmptyString)%string
         then (set_lastTickSend (h_GetTickCount host (S (calls w))) (set_tickCount 0 g),
               {| calls := S (S (calls w)); trace := prints ++ request :: trace w |})
         else (g, {| calls := S (calls w); trace := prints ++ request :: trace w |}).
Proof.
  intros Hn reply request. unfold SendTickData.
  apply Z.eqb_neq in Hn. rewrite Hn. unfold bind. fold (batch g).
  destruct (SendHttpRequest_run v cfg host (BackendURL cfg ++ "/api/ticks")
              (TicksPayload (Symbol cfg) (batch g)) w) as (prints & E & F).
  rewrite E. cbn [payload_empty]. fold reply request.
  destruct (wr_error reply =? 0); cbn [andb].
  - destruct (negb (wr_body reply =? EmptyString)%string) eqn:B.
    + destruct v; cbn.
      * eexists (_ :: prints). split; [|reflexivity]. constructor; [exact I|exact F].
      * exists prints. split; [exact F|reflexivity].
    + cbn. eexists (_ :: prints). split; [|reflexivity]. constructor; [exact I|exact F].
  - cbn. eexists (_ :: prints). split; [|reflexivity]. constructor; [exact I|exact F].
Qed.

Lemma TestBackendConnection_run v cfg host w :
  let reply := h_web host (calls w) in
  exists prints,
    Forall is_print prints
    /\ TestBackendConnection v cfg host w
       = ((wr_error reply =? 0) && (StringFind (wr_body reply) "healthy" >=? 0),
          {| calls := S (calls w);
             trace := prints
                      ++ EvWebRequest "GET" (BackendURL cfg ++ "/api/health")
                           (request_texts v cfg) NoPayload :: trace w |}).
Proof.
  intros reply. unfold TestBackendConnection, bind.
  destruct (SendHttpRequest_run v cfg host (BackendURL cfg ++ "/api/health") NoPayload w)
    as (prints & E & F).
  rewrite E. cbn [payload_empty]. fold reply. exists prints. split; [exact F|].
  destruct (wr_error reply =? 0); cbn [andb].
  - destruct (wr_body reply) as [|c body] eqn:B.
    + reflexivity.
    + cbn [String.eqb negb andb]. destruct (_ >=? 0); reflexivity.
  - reflexivity.
Qed.

Lemma OnInit_run v cfg host g w :
  let reply := h_web host (calls w) in
  let connected := (wr_error reply =? 0) && (StringFind (wr_body reply) "healthy" >=? 0) in
  let g1 := set_isConnected connected
              (set_tickData (ArrayResize (tickData g) (Z.to_nat tickBufferSize)) g) in
  exists prints,
    Forall is_print prints
    /\ OnInit v cfg host g w
       = ((INIT_SUCCEEDED,
           match v with
           | Original => g1
           | Revised =>
               set_lastLoggedTicket
                 (init_watermark cfg (rev (h_history host (S (calls w))))
                    (lastLoggedTicket g)) g1
           end),
          {| calls := match v with Original => S (calls w) | Revised => S (S (calls w)) end;
             trace := prints
                      ++ EvWebRequest "GET" (BackendURL cfg ++ "/api/health")
                           (request_texts v cfg) NoPayload
                      :: EvPrint [PStr "AI Scalping EA initialized for "; PStr (Symbol cfg)]
                      :: trace w |}).
Proof.
  intros reply connected g1. unfold OnInit, OrdersHistoryPool. cbv zeta.
  unfold bind at 1. cbn [Print emit].
  unfold bind at 1.
  destruct (TestBackendConnection_run v cfg host
              {| calls := calls w;
                 trace := EvPrint [PStr "AI Scalping EA initialized for "; PStr (Symbol cfg)]
                            :: trace w |}) as (prints & F & E).
  rewrite E. cbn [calls trace]. fold reply connected.
  destruct connected eqn:C; destruct v; unfold bind, Print, emit, ask, ret; cbn;
    try (eexists (_ :: prints); split; [|unfold g1; rewrite C; reflexivity];
         constructor; [exact I|exact F]);
    (eexists (_ :: _ :: prints); split; [|unfold g1; rewrite C; reflexivity];
     repeat (constructor; [exact I|]); exact F).
Qed.

Lemma OnDeinit_run v cfg host reason g w :
  let w0 := {| calls := calls w;
               trace := EvPrint [PStr "AI Scalping EA deinitialized"] :: trace w |} in
  OnDeinit v cfg host reason g w
  = (if tickCount g >? 0
     then (set_tickData [] (fst (SendTickData v cfg host g w0)),
           snd (SendTickData v cfg host g w0))
     else (set_tickData [] g, w0)).
Proof.
  intros w0. unfold OnDeinit. unfold bind at 1. cbn [Print emit]. fold w0.
  unfold bind. destruct (tickCount g >? 0).
  - destruct (SendTickData v cfg host g w0) as [g1 w1]. reflexivity.
  - reflexivity.
Qed.

(** OnTrade changes the watermark at most. *)
Lemma OnTrade_loop_traded v cfg host pool g w :
  traded g (fst (OnTrade_loop v cfg host pool g w)).
Proof.
  revert g w. induction pool as [|[o|] pool IH]; intros g w; simpl.
  - left. reflexivity.
  - destruct v.
    + destruct (_ && _); [|apply IH].
      destruct (o_close_time o >? 0); [|apply IH].
      unfold bind. destruct (LogClosedTradeToBackend _ _ _ _ w). left. reflexivity.
    + destruct (_ && _ && _); [|apply IH].
      unfold bind. destruct (SendHttpRequest _ _ _ _ _ w) as [r w1].
      destruct (negb _); right; eexists; reflexivity.
  - apply IH.
Qed.

Lemma well_sized_flushed g g' : flushed g g' -> well_sized g -> well_sized g'.
Proof.
  intros [->|[now ->]] W; [exact W|].
  destruct W as [L _]. split; [exact L|]. simpl. unfold tickBufferSize. lia.
Qed.

Lemma well_sized_polled g g' : polled g g' -> well_sized g -> well_sized g'.
Proof. intros [->|[now ->]] W; exact W. Qed.

Lemma well_sized_traded g g' : traded g g' -> well_sized g -> well_sized g'.
Proof. intros [->|[t ->]] W; exact W. Qed.

Lemma well_sized_collected v host g w :
  well_sized g -> well_sized (fst (CollectTickData v host g w)).
Proof.
  intros [L [Lo Hi]].
  destruct (Z.ltb_spec (tickCount g) tickBufferSize) as [Lt|Ge].
  - destruct (CollectTickData_run v host g w Lt) as (prints & E & _).
    rewrite E. split; simpl.
    + rewrite array_set_length. exact L.
    + lia.
  - unfold CollectTickData.
    replace (tickCount g >=? tickBufferSize) with true by (symmetry; apply Z.geb_le; lia).
    split; [exact L|]. simpl. lia.
Qed.

Lemma well_sized_OnTick v tip cfg host g w :
  well_sized g -> well_sized (fst (OnTick v tip cfg host g w)).
Proof.
  intros W. unfold OnTick. destruct (OnTick_runs v cfg g); [|exact W].
  unfold bind, OnTick_collect_and_poll. unfold bind.
  pose proof (well_sized_collected v host g w W) as W1.
  destruct (CollectTickData v host g w) as [g1 w1]. simpl in W1.
  assert (P : forall w', well_sized (fst (OnTick_poll v tip cfg host g1 w'))).
  { intros w'. eapply well_sized_polled; [|exact W1].
    apply (does_result _ _ _ w' (OnTick_poll_does v tip cfg host g1)). }
  assert (Fl : forall g2 w2, well_sized g2 ->
                 well_sized (fst (OnTick_flush v cfg host g2 w2))).
  { intros g2 w2 W2. eapply well_sized_flushed; [|exact W2].
    apply (does_result _ _ _ w2 (OnTick_flush_does v cfg host g2)). }
  destruct v.
  - specialize (P w1). destruct (OnTick_poll Original tip cfg host g1 w1) as [g2 w2].
    apply Fl, P.
  - destruct (EnableTrading cfg).
    + specialize (P w1). destruct (OnTick_poll Revised tip cfg host g1 w1) as [g2 w2].
      apply Fl, P.
    + apply Fl, W1.
Qed.

Lemma well_sized_OnTrade v cfg host g w :
  well_sized g -> well_sized (fst (OnTrade v cfg host g w)).
Proof.
  intros W. unfold OnTrade, bind, OrdersHistoryPool, ask.
  eapply well_sized_traded; [|exact W]. apply OnTrade_loop_traded.
Qed.

(** ** What needs no permission to trade *)

Lemma CollectTickData_housekeeping cfg v host g :
  does (housekeeping cfg) any (CollectTickData v host g).
Proof.
  unfold CollectTickData, MarketInfo_BID, MarketInfo_ASK, MarketInfo_SPREAD, Volume0,
    TimeCurrent.
  destruct v; does_auto.
Qed.

Lemma SendTickData_housekeeping v cfg host g :
  does (housekeeping cfg) any (SendTickData v cfg host g).
Proof.
  unfold SendTickData, GetTickCount.
  destruct v; does_auto; apply SendHttpRequest_does; simpl; auto.
Qed.

Lemma OnTick_flush_housekeeping v cfg host g :
  does (housekeeping cfg) any (OnTick_flush v cfg host g).
Proof.
  unfold OnTick_flush, GetTickCount.
  does_auto; apply SendTickData_housekeeping.
Qed.

Lemma OnTick_housekeeping v tip cfg host g :
  EnableTrading cfg = false -> does (housekeeping cfg) any (OnTick v tip cfg host g).
Proof.
  intros Off. unfold OnTick, OnTick_runs, OnTick_collect_and_poll. rewrite Off.
  destruct v.
  - rewrite orb_true_r. cbn [negb]. apply does_ret_any.
  - destruct (negb (negb (isConnected g))); [|apply does_ret_any].
    eapply does_bind.
    + eapply does_bind; [apply CollectTickData_housekeeping|]. intros g1 _.
      apply does_ret_any.
    + intros g1 _. apply OnTick_flush_housekeeping.
Qed.

Lemma OnInit_housekeeping v cfg host g :
  does (housekeeping cfg) any (OnInit v cfg host g).
Proof.
  unfold OnInit, TestBackendConnection, OrdersHistoryPool.
  destruct v; does_auto; apply SendHttpRequest_does; simpl; auto.
Qed.

Lemma OnDeinit_housekeeping v cfg host reason g :
  does (housekeeping cfg) any (OnDeinit v cfg host reason g).
Proof.
  unfold OnDeinit. does_auto; apply SendTickData_housekeeping.
Qed.

Lemma OnTrade_housekeeping v cfg host g :
  does (housekeeping cfg) any (OnTrade v cfg host g).
Proof.
  unfold OnTrade, OrdersHistoryPool.
  eapply does_bind; [apply does_ask|]. intros history _.
  generalize (rev history) as pool. clear history.
  intros pool. revert g. induction pool as [|[o|] pool IH]; intros g; simpl.
  - apply does_ret_any.
  - destruct v.
    + destruct (_ && _); [|apply IH].
      destruct (o_close_time o >? 0); [|apply IH].
      unfold LogClosedTradeToBackend.
      does_auto; apply SendHttpRequest_does; simpl; auto.
    + destruct (_ && _ && _); [|apply IH].
      does_auto; apply SendHttpRequest_does; simpl; auto.
  - apply IH.
Qed.

Lemma run_housekeeping v tip cfg host cbs :
  EnableTrading cfg = false ->
  forall g, does (housekeeping cfg) any (run v tip cfg host cbs g).
Proof.
  intros Off. induction cbs as [|cb cbs IH]; intros g; simpl.
  - apply does_ret_any.
  - eapply does_bind; [|intros g1 _; apply IH].
    destruct cb; simpl.
    + eapply does_bind; [apply OnInit_housekeeping|]. intros r _. apply does_ret_any.
    + apply OnTick_housekeeping, Off.
    + apply OnTrade_housekeeping.
    + apply OnDeinit_housekeeping.
Qed.

(** ** Close reports in order *)

Lemma descending_app a b :
  descending a -> descending b ->
  (forall x y, In x a -> In y b -> y < x) -> descending (a ++ b).
Proof.
  induction a as [|t a IH]; intros Da Db Hab; simpl; [exact Db|].
  destruct Da as [Fa Da]. split.
  - apply Forall_app. split; [exact Fa|].
    apply Forall_forall. intros y Hy. apply Hab; [left; reflexivity|exact Hy].
  - apply IH; auto. intros x y Hx Hy. apply Hab; [right; exact Hx|exact Hy].
Qed.

Lemma descending_NoDup l : descending l -> NoDup l.
Proof.
  induction l as [|t l IH]; intros D; constructor.
  - destruct D as [F _]. intros Hin.
    pose proof (proj1 (Forall_forall _ _) F t Hin) as Lt. simpl in Lt. lia.
  - apply IH. apply D.
Qed.

(** One callback of [Revised]: it reports at most one ticket, above the
    watermark it found, and leaves the watermark on that ticket; without a
    report the watermark does not go down. *)
Lemma step_reports tip cfg host cb g w :
  exists new,
    trace (snd (step Revised tip cfg host cb g w)) = new ++ trace w
    /\ lastLoggedTicket g <= lastLoggedTicket (fst (step Revised tip cfg host cb g w))
    /\ (reported_tickets new = []
        \/ exists t, reported_tickets new = [t]
                     /\ lastLoggedTicket g < t
                     /\ lastLoggedTicket (fst (step Revised tip cfg host cb g w)) = t).
Proof.
  destruct cb as [| | |reason]; simpl.
  - destruct (does_trace _ _ _ w (OnInit_does Revised cfg host g)) as (new & E & F).
    pose proof (OnInit_watermark cfg host g w) as L.
    unfold bind. destruct (OnInit Revised cfg host g w) as [[r g1] w1]. simpl in *.
    exists new. split; [exact E|]. split.
    + rewrite L. apply max_ticket_low.
    + left. apply reported_tickets_none. revert F. apply Forall_impl, other_not_close.
  - destruct (OnTick_does Revised tip cfg host g w) as (new & E & F & L & _).
    exists new. split; [exact E|]. split; [lia|].
    left. apply reported_tickets_none, F.
  - unfold OnTrade, bind, OrdersHistoryPool, ask.
    destruct (OnTrade_loop_watermark cfg host (rev (h_history host (calls w))) g
                {| calls := S (calls w); trace := trace w |}) as (new & E & L & Sh).
    exists new. split; [exact E|]. rewrite L. split; [apply max_ticket_low|].
    destruct Sh as [N|(t & N & A)]; [left; exact N|].
    right. exists t. rewrite N. unfold max_ticket. cbn [fold_right].
    repeat split; auto. lia.
  - destruct (OnDeinit_does Revised cfg host reason g w) as (new & E & F & L & _).
    exists new. split; [exact E|]. split; [lia|].
    left. apply reported_tickets_none, F.
Qed.

Lemma run_reports tip cfg host cbs : forall g w,
  exists new,
    trace (snd (run Revised tip cfg host cbs g w)) = new ++ trace w
    /\ lastLoggedTicket g <= lastLoggedTicket (fst (run Revised tip cfg host cbs g w))
    /\ descending (reported_tickets new)
    /\ Forall (fun t => lastLoggedTicket g < t
                        /\ t <= lastLoggedTicket (fst (run Revised tip cfg host cbs g w)))
         (reported_tickets new).
Proof.
  induction cbs as [|cb cbs IH]; intros g w; simpl.
  - exists []. simpl. repeat split; [lia|constructor].
  - unfold bind.
    destruct (step_reports tip cfg host cb g w) as (n1 & E1 & M1 & S1).
    destruct (step Revised tip cfg host cb g w) as [g1 w1]. simpl in E1, M1, S1.
    destruct (IH g1 w1) as (n2 & E2 & M2 & D2 & F2).
    set (g2 := fst (run Revised tip cfg host cbs g1 w1)) in *.
    exists (n2 ++ n1). split; [rewrite E2, E1; apply app_assoc|].
    split; [lia|].
    rewrite reported_tickets_app.
    assert (F1 : Forall (fun t => lastLoggedTicket g < t /\ t <= lastLoggedTicket g1)
                   (reported_tickets n1)).
    { destruct S1 as [->|(t & -> & A & B)]; [constructor|].
      constructor; [lia|constructor]. }
    assert (D1 : descending (reported_tickets n1)).
    { destruct S1 as [->|(t & -> & _)]; simpl; auto. }
    split.
    + apply descending_app; auto.
      intros x y Hx Hy.
      pose proof (proj1 (Forall_forall _ _) F2 x Hx) as Bx.
      pose proof (proj1 (Forall_forall _ _) F1 y Hy) as By.
      simpl in Bx, By. lia.
    + apply Forall_app. split.
      * revert F2. apply Forall_impl. intros t. lia.
      * revert F1. apply Forall_impl. intros t. lia.
Qed.

Lemma max_ticket_in l low t : In t l -> t <= max_ticket l low.
Proof.
  induction l as [|x l IH]; simpl; [contradiction|].
  intros [->|Hin]; [lia|]. specialize (IH Hin). lia.
Qed.

(** ** Which entry OnTrade reports *)

Lemma forallb_rev {A} (f : A -> bool) l : forallb f (rev l) = forallb f l.
Proof.
  induction l as [|x l IH]; simpl; [reflexivity|].
  rewrite forallb_app, IH. simpl. rewrite andb_true_r. apply andb_comm.
Qed.

(** [Revised] passes the entries that are not of this session or not
    above the watermark. *)
Lemma OnTrade_loop_revised_skip cfg host skipped rest g w :
  forallb (fun e => negb (fresh_ours cfg (lastLoggedTicket g) e)) skipped = true ->
  OnTrade_loop Revised cfg host (skipped ++ rest) g w
  = OnTrade_loop Revised cfg host rest g w.
Proof.
  induction skipped as [|[o|] skipped IH]; intros Hs; simpl in *; auto.
  apply andb_true_iff in Hs. destruct Hs as [Ho Hs].
  apply negb_true_iff in Ho. rewrite Ho. auto.
Qed.

(** [Original] passes the entries that are not of this session or have no
    close time. *)
Lemma OnTrade_loop_original_skip cfg host skipped rest g w :
  forallb (fun e => negb (closed_ours cfg e)) skipped = true ->
  OnTrade_loop Original cfg host (skipped ++ rest) g w
  = OnTrade_loop Original cfg host rest g w.
Proof.
  induction skipped as [|[o|] skipped IH]; intros Hs; simpl in *; auto.
  apply andb_true_iff in Hs. destruct Hs as [Ho Hs].
  apply negb_true_iff in Ho.
  destruct ((o_symbol o =? Symbol cfg)%string && (o_magic o =? MagicNumber cfg));
    [|auto].
  simpl in Ho. rewrite Ho. auto.
Qed.

(** The report of one close. *)
Lemma close_report_run v cfg host o w :
  exists prints,
    Forall is_print prints
    /\ calls (snd (SendHttpRequest v cfg host (BackendURL cfg ++ "/api/trades")
                     (close_payload o) w)) = S (calls w)
    /\ trace (snd (SendHttpRequest v cfg host (BackendURL cfg ++ "/api/trades")
                     (close_payload o) w))
       = prints ++ EvWebRequest "POST" (BackendURL cfg ++ "/api/trades")
                     (request_texts v cfg) (close_payload o) :: trace w.
Proof.
  destruct (SendHttpRequest_run v cfg host (BackendURL cfg ++ "/api/trades")
              (close_payload o) w) as (prints & E & F).
  rewrite E. exists prints. repeat split. exact F.
Qed.

Lemma OnTrade_revised_hit cfg host o rest g w :
  fresh_ours cfg (lastLoggedTicket g) (Some o) = true ->
  fst (OnTrade_loop Revised cfg host (Some o :: rest) g w)
  = set_lastLoggedTicket (o_ticket o) g
  /\ web_requests (trace (snd (OnTrade_loop Revised cfg host (Some o :: rest) g w)))
     = EvWebRequest "POST" (BackendURL cfg ++ "/api/trades") (request_texts Revised cfg)
         (close_payload o) :: web_requests (trace w).
Proof.
  intros Hf. simpl in *. rewrite Hf. unfold bind.
  destruct (close_report_run Revised cfg host o w) as (prints & F & _ & E).
  destruct (SendHttpRequest _ _ _ _ _ w) as [r w1]. simpl in E.
  destruct (negb (r =? EmptyString)%string); cbn; (split; [reflexivity|]);
    rewrite E; unfold web_requests at 1; cbn [filter is_web_request];
    fold (web_requests (prints ++ EvWebRequest "POST" (BackendURL cfg ++ "/api/trades")
                          (request_texts Revised cfg) (close_payload o) :: trace w));
    rewrite web_requests_app, (web_requests_prints prints F); reflexivity.
Qed.

Lemma OnTrade_original_hit cfg host o rest g w :
  closed_ours cfg (Some o) = true ->
  fst (OnTrade_loop Original cfg host (Some o :: rest) g w) = g
  /\ calls (snd (OnTrade_loop Original cfg host (Some o :: rest) g w)) = S (calls w)
  /\ web_requests (trace (snd (OnTrade_loop Original cfg host (Some o :: rest) g w)))
     = EvWebRequest "POST" (BackendURL cfg ++ "/api/trades") (request_texts Original cfg)
         (close_payload o) :: web_requests (trace w).
Proof.
  intros Hf. simpl in *. apply andb_true_iff in Hf. destruct Hf as [Ho Hc].
  rewrite Ho, Hc. unfold bind, LogClosedTradeToBackend, bind.
  destruct (close_report_run Original cfg host o w) as (prints & F & C & E).
  destruct (SendHttpRequest _ _ _ _ _ w) as [r w1]. simpl in E, C.
  destruct (negb (r =? EmptyString)%string); cbn; (split; [reflexivity|]);
    (split; [exact C|]);
    rewrite E; unfold web_requests at 1; cbn [filter is_web_request];
    fold (web_requests (prints ++ EvWebRequest "POST" (BackendURL cfg ++ "/api/trades")
                          (request_texts Original cfg) (close_payload o) :: trace w));
    rewrite web_requests_app, (web_requests_prints prints F); reflexivity.
Qed.

Lemma OnTrade_loop_nothing v cfg host pool g w :
  forallb (fun e => negb (match v with
                          | Original => closed_ours cfg e
                          | Revised => fresh_ours cfg (lastLoggedTicket g) e
                          end)) pool = true ->
  OnTrade_loop v cfg host pool g w = (g, w).
Proof.
  intros Hs. rewrite <- (app_nil_r pool). destruct v.
  - rewrite OnTrade_loop_original_skip; [reflexivity|exact Hs].
  - rewrite OnTrade_loop_revised_skip; [reflexivity|exact Hs].
Qed.

(** ** ValidateSignal and ExecuteSignal, step by step *)

Lemma ValidateSignal_run cfg host direction entryPrice sl tp w :
  let spread := h_spread host (calls w) in
  let positions := open_positions cfg (h_trades host (S (calls w))) in
  let bid := h_bid host (2 + calls w) in
  let ask_ := h_ask host (3 + calls w) in
  let tolerance := double_mul (double_of_int (Slippage cfg)) (h_Point host) in
  let said n msg := {| calls := n; trace := EvPrint msg :: trace w |} in
  ValidateSignal cfg host direction entryPrice sl tp w
  = if double_gt spread (double_of_int (MaxSpread cfg))
    then (false, said (S (calls w)) [PStr "Spread too high: "; PDbl spread])
    else if positions >=? MaxPositions cfg
    then (false, said (2 + calls w)%nat [PStr "Too many open positions: "; PInt positions])
    else if negb (direction =? "BUY")%string && negb (direction =? "SELL")%string
    then (false, said (2 + calls w)%nat [PStr "Invalid direction: "; PStr direction])
    else if (direction =? "BUY")%string
            && double_gt entryPrice (double_add ask_ tolerance)
    then (false, said (4 + calls w)%nat [PStr "BUY entry price too high"])
    else if (direction =? "SELL")%string
            && double_lt entryPrice (double_sub bid tolerance)
    then (false, said (4 + calls w)%nat [PStr "SELL entry price too low"])
    else (true, {| calls := (4 + calls w)%nat; trace := trace w |}).
Proof.
  intros spread positions bid ask_ tolerance said.
  unfold ValidateSignal, MarketInfo_SPREAD, CountOpenPositions, OrdersPool,
    MarketInfo_BID, MarketInfo_ASK, bind, ask, ret, Print, emit. cbn.
  fold spread. destruct (double_gt spread (double_of_int (MaxSpread cfg))); [reflexivity|].
  cbn. rewrite count_ours_rev. fold positions.
  destruct (positions >=? MaxPositions cfg); [reflexivity|].
  destruct (negb (direction =? "BUY")%string && negb (direction =? "SELL")%string);
    [reflexivity|].
  cbn. change (h_ask host (S (S (S (calls w))))) with ask_.
  change (h_bid host (S (S (calls w)))) with bid. fold tolerance.
  destruct ((direction =? "BUY")%string
            && double_gt entryPrice (double_add ask_ tolerance));
    [reflexivity|].
  destruct ((direction =? "SELL")%string
            && double_lt entryPrice (double_sub bid tolerance));
    reflexivity.
Qed.

(** A direction that is neither BUY nor SELL is never accepted. *)
Lemma ValidateSignal_refuses cfg host direction entryPrice sl tp w :
  direction <> "BUY" -> direction <> "SELL" ->
  fst (ValidateSignal cfg host direction entryPrice sl tp w) = false.
Proof.
  intros Hb Hs. rewrite ValidateSignal_run. cbv zeta.
  apply String.eqb_neq in Hb, Hs. rewrite Hb, Hs. cbn [negb andb].
  destruct (double_gt _ _); [reflexivity|]. destruct (_ >=? _); reflexivity.
Qed.

(** The trace of a validation holds prints only. *)
Lemma ValidateSignal_prints cfg host direction entryPrice sl tp w :
  exists prints,
    trace (snd (ValidateSignal cfg host direction entryPrice sl tp w)) = prints ++ trace w
    /\ Forall is_print prints.
Proof.
  rewrite ValidateSignal_run. cbv zeta.
  repeat (match goal with |- context [if ?c then _ else _] => destruct c end;
          [eexists [_]; split; [reflexivity|repeat constructor]|]).
  exists []. split; [reflexivity|constructor].
Qed.

(** ExecuteSignal: the order, then the report of the opened trade when
    the order got a ticket. *)
Lemma ExecuteSignal_run v cfg host direction entryPrice sl tp w :
  let buy := (direction =? "BUY")%string in
  let price := if buy then h_ask host (calls w) else h_bid host (calls w) in
  let reply := h_order_send host (S (calls w)) in
  let order := EvOrderSend (Symbol cfg) (if buy then OP_BUY else OP_SELL) (LotSize cfg) price
                 (Slippage cfg) sl tp "AI Scalping Signal" (MagicNumber cfg) 0 clrBlue in
  let report := EvWebRequest "POST" (BackendURL cfg ++ "/api/trades") (request_texts v cfg)
                  (TradeOpenPayload (os_ticket reply) (Symbol cfg) direction (LotSize cfg)
                     price (h_TimeCurrent host (2 + calls w)) sl tp) in
  exists before after,
    Forall is_print before /\ Forall is_print after
    /\ trace (snd (ExecuteSignal v cfg host direction entryPrice sl tp w))
       = if os_ticket reply >? 0
         then after ++ report :: before ++ order :: trace w
         else before ++ order :: trace w.
Proof.
  intros buy price reply order report.
  unfold ExecuteSignal. cbv zeta. fold buy. unfold bind at 1.
  assert (P : (if buy then MarketInfo_ASK host else MarketInfo_BID host) w
              = (price, {| calls := S (calls w); trace := trace w |})).
  { unfold price. destruct buy; reflexivity. }
  rewrite P. unfold bind at 1.
  change (OrderSend host (Symbol cfg) (if buy then OP_BUY else OP_SELL) (LotSize cfg) price
            (Slippage cfg) sl tp "AI Scalping Signal" (MagicNumber cfg) 0 clrBlue
            {| calls := S (calls w); trace := trace w |})
    with (reply, {| calls := S (S (calls w)); trace := order :: trace w |}).
  cbv beta iota.
  destruct (os_ticket reply >? 0).
  - unfold bind at 1. cbn [Print emit].
    unfold LogTradeToBackend, TimeCurrent. unfold bind at 1. cbn [ask calls trace].
    unfold bind.
    set (w2 := {| calls := S (S (S (calls w))); trace := _ :: order :: trace w |}).
    destruct (SendHttpRequest_run v cfg host (BackendURL cfg ++ "/api/trades")
                (TradeOpenPayload (os_ticket reply) (Symbol cfg) direction (LotSize cfg)
                   price (h_TimeCurrent host (S (S (calls w)))) sl tp) w2)
      as (prints & E & F).
    rewrite E. cbn [payload_empty].
    destruct (negb _); cbn.
    + eexists [_], (_ :: prints). split; [|split]. 3: reflexivity.
      * repeat constructor.
      * constructor; [exact I|exact F].
    + eexists [_], (_ :: prints). split; [|split]. 3: reflexivity.
      * repeat constructor.
      * constructor; [exact I|exact F].
  - cbn. eexists [_], []. split; [|split]. 3: reflexivity.
    + repeat constructor.
    + constructor.
Qed.

Lemma ValidateSignal_accepted cfg host direction entryPrice sl tp w :
  fst (ValidateSignal cfg host direction entryPrice sl tp w) = true ->
  snd (ValidateSignal cfg host direction entryPrice sl tp w)
  = {| calls := (4 + calls w)%nat; trace := trace w |}
  /\ (direction = "BUY" \/ direction = "SELL").
Proof.
  rewrite ValidateSignal_run. cbv zeta.
  destruct (double_gt _ _); [discriminate|].
  destruct (_ >=? _); [discriminate|].
  destruct (String.eqb_spec direction "BUY") as [B|B];
    destruct (String.eqb_spec direction "SELL") as [S|S]; cbn [negb andb];
    try discriminate;
    repeat (match goal with |- context [if ?c then _ else _] => destruct c end;
            try discriminate);
    intros _; split; auto.
Qed.

Lemma orders_sent_app a b : orders_sent (a ++ b) = orders_sent a ++ orders_sent b.
Proof. apply filter_app. Qed.

Lemma ExecuteSignal_orders v cfg host direction entryPrice sl tp w :
  orders_sent (trace (snd (ExecuteSignal v cfg host direction entryPrice sl tp w)))
  = EvOrderSend (Symbol cfg) (if (direction =? "BUY")%string then OP_BUY else OP_SELL)
      (LotSize cfg)
      (if (direction =? "BUY")%string then h_ask host (calls w) else h_bid host (calls w))
      (Slippage cfg) sl tp "AI Scalping Signal" (MagicNumber cfg) 0 clrBlue
    :: orders_sent (trace w).
Proof.
  destruct (ExecuteSignal_run v cfg host direction entryPrice sl tp w)
    as (before & after & Fb & Fa & E).
  rewrite E. destruct (_ >? 0).
  - rewrite orders_sent_app, (orders_sent_prints after Fa). cbn [app].
    change (orders_sent (?r :: ?l)) with (orders_sent l).
    rewrite orders_sent_app, (orders_sent_prints before Fb). reflexivity.
  - rewrite orders_sent_app, (orders_sent_prints before Fb). reflexivity.
Qed.

(** ** Requests for signals *)






(** * Further properties *)

(** ** ExtractValue *)

(** X1.  In both revisions, ExtractValue of a key whose search token (the
    key between double quotes, then a colon) occurs nowhere in the text
    returns the empty text. *)
Theorem ExtractValue_missing_key v tip json key :
  ~ (exists pre post, json = (pre ++ Extract.search_token key ++ post)%string) ->
  Extract.ExtractValue v tip json key = EmptyString.
Proof. apply FieldFacts.ExtractValue_absent. Qed.

Lemma ExtractValue_missing_key_witness :
  Extract.ExtractValue Revised mql4_library "{}" "k" = EmptyString.
Proof.
  apply (ExtractValue_missing_key Revised mql4_library "{}" "k").
  intros Occurs.
  apply (ExtractFacts.StringFind_contains "{}" (Extract.search_token "k")) in Occurs.
  - vm_compute in Occurs. apply Occurs. reflexivity.
  - discriminate.
Defined.

(** X2.  The ExtractValue of [Revised], at the first occurrence of the
    search token and in both readings of the library: when the token is
    followed by spaces and quotes, then a text that is not empty, holds no
    comma and no brace and neither starts nor ends with a space or quote,
    then spaces and quotes, then a comma, a brace or the end of the text,
    the result is that text. *)
Theorem ExtractValue_revised_field tip pre key lead core trail rest :
  let json := (pre ++ Extract.search_token key ++ lead ++ core ++ trail ++ rest)%string in
  StringFind json (Extract.search_token key) = StringLen pre ->
  core <> EmptyString ->
  padding lead = true -> padding trail = true ->
  undelimited core = true -> clear_of is_pad core = true ->
  Extract.ends_field rest = true ->
  Extract.ExtractValue Revised tip json key = core.
Proof.
  intros json Hf Hne Hl Ht Hu Hc Hr. simpl.
  apply FieldFacts.ExtractValue_revised_core; assumption.
Qed.

Lemma ExtractValue_revised_field_witness :
  Extract.ExtractValue Revised mql4_library sample_signal "direction" = "BUY".
Proof.
  apply (ExtractValue_revised_field mql4_library "{" "direction" (" " ++ dquote) "BUY"
           (dquote ++ " ")
           ("," ++ Extract.search_token "entry_price" ++ "1.10250,"
                ++ Extract.search_token "sl" ++ "1.1000}"));
    try reflexivity.
  discriminate.
Defined.

(** X3.  Both revisions, in both readings of the library, return a field
    that is not empty, holds no quote, comma or brace and has no blank at
    either end as it stands, when it follows the first occurrence of the
    search token at once and is followed by a comma, a brace or the end
    of the text. *)
Theorem ExtractValue_bare_field v tip pre key val rest :
  let json := (pre ++ Extract.search_token key ++ val ++ rest)%string in
  StringFind json (Extract.search_token key) = StringLen pre ->
  val <> EmptyString ->
  unquoted val = true -> undelimited val = true ->
  clear_of is_blank val = true ->
  Extract.ends_field rest = true ->
  Extract.ExtractValue v tip json key = val.
Proof.
  intros json Hf Hne Hq Hu Hc Hr. destruct v; simpl.
  - apply FieldFacts.ExtractValue_original_bare; assumption.
  - apply (FieldFacts.ExtractValue_revised_core tip pre key EmptyString val EmptyString rest);
      auto.
    unfold clear_of in *.
    destruct (first_char val) as [c|] eqn:Fc; [|reflexivity].
    destruct (last_char val) as [d|] eqn:Ld; [|reflexivity].
    assert (Q : forall s x, unquoted s = true ->
                (first_char s = Some x \/ last_char s = Some x) ->
                Ascii.eqb x "034" = false).
    { induction s as [|y s IH]; intros x Hs [E|E]; try discriminate.
      - simpl in E, Hs. injection E as ->.
        apply andb_true_iff in Hs. destruct Hs as [Hy _]. apply negb_true_iff, Hy.
      - simpl in Hs. apply andb_true_iff in Hs. destruct Hs as [Hy Hs].
        simpl in E. destruct s as [|z s'].
        + injection E as ->. apply negb_true_iff, Hy.
        + apply (IH x Hs). right. exact E. }
    apply andb_true_iff in Hc. destruct Hc as [Bc Bd].
    apply negb_true_iff in Bc, Bd.
    unfold is_blank in Bc, Bd. unfold is_pad.
    apply orb_false_iff in Bc. destruct Bc as [Bc _].
    apply orb_false_iff in Bc. destruct Bc as [Bc _].
    apply orb_false_iff in Bc. destruct Bc as [Bc _].
    apply orb_false_iff in Bd. destruct Bd as [Bd _].
    apply orb_false_iff in Bd. destruct Bd as [Bd _].
    apply orb_false_iff in Bd. destruct Bd as [Bd _].
    rewrite Bc, Bd, (Q val c Hq (or_introl Fc)), (Q val d Hq (or_intror Ld)).
    reflexivity.
Qed.

Lemma ExtractValue_bare_field_witness :
  Extract.ExtractValue Original mql4_library sample_signal "entry_price" = "1.10250"
  /\ Extract.ExtractValue Revised mql4_library sample_signal "entry_price" = "1.10250".
Proof.
  assert (Hne : "1.10250"%string <> EmptyString) by discriminate.
  split.
  - apply (ExtractValue_bare_field Original mql4_library
             ("{" ++ Extract.search_token "direction" ++ " " ++ dquote ++ "BUY" ++ dquote
                  ++ " ,")
             "entry_price" "1.10250" ("," ++ Extract.search_token "sl" ++ "1.1000}"));
      try reflexivity.
    exact Hne.
  - apply (ExtractValue_bare_field Revised mql4_library
             ("{" ++ Extract.search_token "direction" ++ " " ++ dquote ++ "BUY" ++ dquote
                  ++ " ,")
             "entry_price" "1.10250" ("," ++ Extract.search_token "sl" ++ "1.1000}"));
      try reflexivity.
    exact Hne.
Defined.

(** X4.  The ExtractValue of [Original], at the first occurrence of the
    search token and in both readings of the library: a value between
    double quotes whose opening quote follows the colon of the token at
    once, that is not empty and holds no quote and no backslash, and whose
    closing quote is followed by a comma, a brace or the end of the text,
    is returned whole and without its quotes, with the commas and braces
    it holds. *)
Theorem ExtractValue_original_quoted_field tip pre key val rest :
  let json :=
    (pre ++ Extract.search_token key ++ dquote ++ val ++ dquote ++ rest)%string in
  StringFind json (Extract.search_token key) = StringLen pre ->
  val <> EmptyString ->
  Extract.plain val = true -> Extract.ends_field rest = true ->
  Extract.ExtractValue Original tip json key = val.
Proof.
  intros json Hf Hne Hp Hr. simpl.
  apply ExtractFacts.ExtractValue_original_quoted; assumption.
Qed.

Lemma ExtractValue_original_quoted_field_witness :
  Extract.ExtractValue Original mql5_library
    ("{" ++ Extract.search_token "note" ++ dquote ++ "a,b}c" ++ dquote ++ ",x}") "note"
  = "a,b}c".
Proof.
  apply (ExtractValue_original_quoted_field mql5_library "{" "note" "a,b}c" ",x}");
    try reflexivity.
  discriminate.
Defined.

(** ** Uploads *)



(** X6.  The request of SendTickData: one POST to the ticks address of the
    backend that carries the symbol and the first [tickCount] entries of
    the buffer in their order.  Between the address and the timeout the
    call gives the Content-Type and Authorization text: as the headers in
    [Revised]; behind an empty text in [Original].  With an empty buffer
    nothing is sent. *)
Theorem SendTickData_request v cfg host g w :
  let after := SendTickData v cfg host g w in
  (tickCount g = 0 -> after = (g, w))
  /\ (tickCount g <> 0 ->
      web_requests (trace (snd after))
      = EvWebRequest "POST" (BackendURL cfg ++ "/api/ticks") (request_texts v cfg)
          (TicksPayload (Symbol cfg) (batch g)) :: web_requests (trace w)).
Proof.
  intros after. split.
  - intros Hz. unfold after, SendTickData. rewrite Hz. reflexivity.
  - intros Hn. destruct (SendTickData_run v cfg host g w Hn) as (prints & F & E).
    unfold after. rewrite E.
    destruct (_ && _); cbn [snd trace];
      rewrite web_requests_app, (web_requests_prints prints F); reflexivity.
Qed.

Lemma SendTickData_request_witness :
  web_requests (trace (snd (SendTickData Revised default_config calm_host
                              (connected_globals 2 0) initial_world)))
  = [EvWebRequest "POST" "https://ai-trading-backend-m1k7.onrender.com/api/ticks"
       (request_texts Revised default_config) (TicksPayload "EURUSD" [None; None])].
Proof.
  assert (Hn : tickCount (connected_globals 2 0) <> 0) by discriminate.
  rewrite (proj2 (SendTickData_request Revised default_config calm_host
                    (connected_globals 2 0) initial_world) Hn).
  reflexivity.
Defined.

(** X7.  CollectTickData on a buffer with room left writes the tick read
    from the terminal behind the ticks already buffered: the batch grows
    by that tick at its end, the array keeps its size, and five values are
    read from the terminal. *)
Theorem CollectTickData_appends v host g w :
  0 <= tickCount g < tickBufferSize ->
  (Z.to_nat (tickCount g) < List.length (tickData g))%nat ->
  let after := CollectTickData v host g w in
  let tick := {| tk_timestamp := h_TimeCurrent host (4 + calls w);
                 tk_bid := h_bid host (calls w);
                 tk_ask := h_ask host (1 + calls w);
                 tk_spread := h_spread host (2 + calls w);
                 tk_volume := h_volume host (3 + calls w) |} in
  batch (fst after) = batch g ++ [Some tick]
  /\ tickCount (fst after) = tickCount g + 1
  /\ List.length (tickData (fst after)) = List.length (tickData g)
  /\ calls (snd after) = (5 + calls w)%nat
  /\ web_requests (trace (snd after)) = web_requests (trace w).
Proof.
  intros [Hlo Hhi] Hin after tick.
  destruct (CollectTickData_run v host g w Hhi) as (prints & E & F).
  unfold after. rewrite E. cbn [fst snd]. fold tick.
  unfold batch. cbn [tickCount tickData set_tickCount set_tickData calls trace].
  repeat split.
  - replace (Z.to_nat (tickCount g + 1)) with (S (Z.to_nat (tickCount g))) by lia.
    apply array_set_firstn. exact Hin.
  - apply array_set_length.
  - rewrite web_requests_app, (web_requests_prints prints F). reflexivity.
Qed.

Lemma CollectTickData_appends_witness :
  batch (fst (CollectTickData Revised calm_host (connected_globals 2 0) initial_world))
  = [None; None;
     Some {| tk_timestamp := 1700000000; tk_bid := decimal 10998 4; tk_ask := decimal 11 1;
             tk_spread := double_of_int 10; tk_volume := 1 |}].
Proof.
  assert (Hc : 0 <= tickCount (connected_globals 2 0) < tickBufferSize)
    by (split; [discriminate|reflexivity]).
  assert (Hin : (Z.to_nat (tickCount (connected_globals 2 0))
                 < List.length (tickData (connected_globals 2 0)))%nat)
    by (vm_compute; lia).
  rewrite (proj1 (CollectTickData_appends Revised calm_host (connected_globals 2 0)
                    initial_world Hc Hin)).
  reflexivity.
Defined.

(** ** Session start and end *)

(** X8.  OnInit always returns INIT_SUCCEEDED.  It sends one GET to the
    health address, gives the buffer array its 500 entries, and leaves the
    tick count and the timers alone; the session is connected afterwards
    exactly when that request raised no error and its response holds the
    text [healthy]. *)
Theorem OnInit_connects v cfg host g w :
  let reply := h_web host (calls w) in
  let after := OnInit v cfg host g w in
  let g' := snd (fst after) in
  fst (fst after) = INIT_SUCCEEDED
  /\ (isConnected g' = true
      <-> wr_error reply = 0
          /\ exists pre post, wr_body reply = (pre ++ "healthy" ++ post)%string)
  /\ List.length (tickData g') = Z.to_nat tickBufferSize
  /\ tickCount g' = tickCount g
  /\ lastTickSend g' = lastTickSend g
  /\ lastSignalPoll g' = lastSignalPoll g
  /\ web_requests (trace (snd after))
     = EvWebRequest "GET" (BackendURL cfg ++ "/api/health") (request_texts v cfg) NoPayload
       :: web_requests (trace w).
Proof.
  intros reply after g'.
  destruct (OnInit_run v cfg host g w) as (prints & F & E).
  unfold g', after. rewrite E. cbn [fst snd trace]. fold reply.
  split; [reflexivity|]. split; [|split; [|split; [|split; [|split]]]].
  - assert (C : isConnected
                  match v with
                  | Original =>
                      set_isConnected
                        ((wr_error reply =? 0) && (StringFind (wr_body reply) "healthy" >=? 0))
                        (set_tickData (ArrayResize (tickData g) (Z.to_nat tickBufferSize)) g)
                  | Revised =>
                      set_lastLoggedTicket
                        (init_watermark cfg (rev (h_history host (S (calls w))))
                           (lastLoggedTicket g))
                        (set_isConnected
                           ((wr_error reply =? 0)
                            && (StringFind (wr_body reply) "healthy" >=? 0))
                           (set_tickData (ArrayResize (tickData g) (Z.to_nat tickBufferSize))
                              g))
                  end
                = (wr_error reply =? 0) && (StringFind (wr_body reply) "healthy" >=? 0))
      by (destruct v; reflexivity).
    rewrite C, andb_true_iff, Z.eqb_eq, Z.geb_le.
    rewrite (ExtractFacts.StringFind_contains (wr_body reply) "healthy") by discriminate.
    reflexivity.
  - destruct v; simpl; apply ArrayResize_length.
  - destruct v; reflexivity.
  - destruct v; reflexivity.
  - destruct v; reflexivity.
  - rewrite web_requests_app, (web_requests_prints prints F). reflexivity.
Qed.

Lemma OnInit_connects_witness :
  isConnected (snd (fst (OnInit Revised default_config restart_host initial_globals
                           initial_world))) = true.
Proof.
  destruct (OnInit_connects Revised default_config restart_host initial_globals
              initial_world) as (_ & Connected & _).
  apply Connected. split; [reflexivity|].
  exists EmptyString, EmptyString. reflexivity.
Defined.

(** X9.  OnDeinit empties the buffer array.  With a tick count above 0 it
    first calls SendTickData once, so the count is 0 afterwards only when
    that upload was delivered, and stays as it was, with the ticks gone,
    when it was not; with a count of 0 or less it sends nothing. *)
Theorem OnDeinit_outcome v cfg host reason g w :
  let reply := h_web host (calls w) in
  let after := OnDeinit v cfg host reason g w in
  tickData (fst after) = []
  /\ (tickCount g <= 0 ->
      fst after = set_tickData [] g
      /\ web_requests (trace (snd after)) = web_requests (trace w))
  /\ (0 < tickCount g ->
      web_requests (trace (snd after))
      = EvWebRequest "POST" (BackendURL cfg ++ "/api/ticks") (request_texts v cfg)
          (TicksPayload (Symbol cfg) (batch g)) :: web_requests (trace w)
      /\ (wr_error reply = 0 /\ wr_body reply <> EmptyString -> tickCount (fst after) = 0)
      /\ (wr_error reply <> 0 \/ wr_body reply = EmptyString ->
          tickCount (fst after) = tickCount g)).
Proof.
  intros reply after. unfold after. rewrite OnDeinit_run.
  set (w0 := {| calls := calls w;
                trace := EvPrint [PStr "AI Scalping EA deinitialized"] :: trace w |}).
  destruct (tickCount g >? 0) eqn:Pos.
  - apply Z.gtb_lt in Pos. assert (Hn : tickCount g <> 0) by lia.
    destruct (SendTickData_run v cfg host g w0 Hn) as (prints & F & E).
    cbn [calls w0] in E. fold reply in E. rewrite E.
    split; [destruct (_ && _); reflexivity|]. split; [intros; lia|]. intros _.
    assert (Rq : forall tr,
               web_requests
                 (prints
                  ++ EvWebRequest "POST" (BackendURL cfg ++ "/api/ticks") (request_texts v cfg)
                       (TicksPayload (Symbol cfg) (batch g)) :: trace w0)
               = tr -> EvWebRequest "POST" (BackendURL cfg ++ "/api/ticks")
                         (request_texts v cfg) (TicksPayload (Symbol cfg) (batch g))
                       :: web_requests (trace w) = tr).
    { intros tr <-. rewrite web_requests_app, (web_requests_prints prints F). reflexivity. }
    destruct (wr_error reply =? 0) eqn:Er; cbn [andb].
    + apply Z.eqb_eq in Er.
      destruct (String.eqb_spec (wr_body reply) EmptyString) as [B|B]; cbn [negb fst snd trace].
      * split; [symmetry; apply Rq; reflexivity|]. split.
        -- intros [_ N]. contradiction.
        -- reflexivity.
      * split; [symmetry; apply Rq; reflexivity|]. split.
        -- reflexivity.
        -- intros [N|N]; contradiction.
    + apply Z.eqb_neq in Er. cbn [fst snd trace].
      split; [symmetry; apply Rq; reflexivity|]. split.
      * intros [N _]. contradiction.
      * reflexivity.
  - rewrite Z.gtb_ltb in Pos. apply Z.ltb_ge in Pos.
    split; [reflexivity|]. split; [|intros; lia].
    intros _. split; reflexivity.
Qed.

Lemma OnDeinit_outcome_witness :
  let after := OnDeinit Revised default_config flaky_host 0 (connected_globals 3 0)
                 initial_world in
  tickData (fst after) = [] /\ tickCount (fst after) = 3.
Proof.
  intros after.
  destruct (OnDeinit_outcome Revised default_config flaky_host 0 (connected_globals 3 0)
              initial_world) as (Freed & _ & Sent).
  split; [exact Freed|].
  destruct Sent as (_ & _ & Kept); [reflexivity|].
  apply Kept. left. discriminate.
Defined.

(** X10.  From a session start on, over every sequence of ticks and trade
    notifications, the buffer array keeps its 500 entries and the tick
    count stays between 0 and 500: the entry that CollectTickData writes
    and the entries that SendTickData reads are inside the array. *)
Theorem buffer_stays_in_bounds v tip cfg host cbs g w :
  0 <= tickCount g <= tickBufferSize ->
  forallb tick_or_trade cbs = true ->
  let final := fst (run v tip cfg host (CbInit :: cbs) g w) in
  List.length (tickData final) = Z.to_nat tickBufferSize
  /\ 0 <= tickCount final <= tickBufferSize
  /\ (tickCount final < tickBufferSize ->
      (Z.to_nat (tickCount final) < List.length (tickData final))%nat)
  /\ (Z.to_nat (tickCount final) <= List.length (tickData final))%nat.
Proof.
  intros Hc Hcbs final.
  assert (W : well_sized final).
  { unfold final. cbn [run]. unfold bind at 1. cbn [step]. unfold bind at 1.
    destruct (OnInit_run v cfg host g w) as (prints & _ & E). rewrite E.
    cbn [ret snd fst].
    set (g1 := match v with Original => _ | Revised => _ end).
    set (w1 := {| calls := _; trace := _ |}).
    assert (W1 : well_sized g1).
    { unfold g1. split.
      - destruct v; simpl; apply ArrayResize_length.
      - destruct v; simpl; exact Hc. }
    clearbody g1 w1. clear E.
    revert g1 w1 W1. induction cbs as [|cb cbs IH]; intros g1 w1 W1; [exact W1|].
    simpl in Hcbs. apply andb_true_iff in Hcbs. destruct Hcbs as [Hcb Hcbs].
    cbn [run]. unfold bind.
    assert (S1 : well_sized (fst (step v tip cfg host cb g1 w1))).
    { destruct cb; try discriminate Hcb; simpl.
      - apply well_sized_OnTick, W1.
      - apply well_sized_OnTrade, W1. }
    destruct (step v tip cfg host cb g1 w1) as [g2 w2]. apply (IH Hcbs), S1. }
  destruct W as [L [Lo Hi]]. unfold tickBufferSize in *.
  repeat split; try assumption; rewrite L; lia.
Qed.

Lemma buffer_stays_in_bounds_witness :
  let final := fst (run Revised mql4_library default_config restart_host
                      [CbInit; CbTick; CbTrade; CbTick] initial_globals initial_world) in
  List.length (tickData final) = 500%nat /\ 0 <= tickCount final <= 500.
Proof.
  intros final.
  assert (Hc : 0 <= tickCount initial_globals <= tickBufferSize)
    by (split; discriminate).
  destruct (buffer_stays_in_bounds Revised mql4_library default_config restart_host
              [CbTick; CbTrade; CbTick] initial_globals initial_world Hc eq_refl)
    as (L & B & _).
  split; [exact L|exact B].
Defined.

(** X11.  While the session is not connected (and, in [Original], also
    while trading is disabled) ticks do nothing: whatever their number,
    the global variables and the world stay as they were; no tick is
    collected and nothing is sent. *)
Theorem ticks_do_nothing_offline v tip cfg host n g w :
  isConnected g = false \/ (v = Original /\ EnableTrading cfg = false) ->
  run v tip cfg host (repeat CbTick n) g w = (g, w).
Proof.
  intros Off.
  assert (R : OnTick_runs v cfg g = false).
  { unfold OnTick_runs. destruct Off as [C|[-> T]].
    - rewrite C. destruct v; reflexivity.
    - rewrite T. destruct (isConnected g); reflexivity. }
  induction n as [|n IH]; [reflexivity|].
  cbn [repeat run step]. unfold bind, OnTick. rewrite R. exact IH.
Qed.

Lemma ticks_do_nothing_offline_witness :
  run Original mql4_library default_config calm_host (repeat CbTick 3) (connected_globals 0 0)
    initial_world
  = (connected_globals 0 0, initial_world).
Proof.
  apply (ticks_do_nothing_offline Original mql4_library default_config calm_host 3).
  right. split; reflexivity.
Defined.

(** ** Trading disabled *)

(** X12.  With [EnableTrading] false, in both revisions and over every
    sequence of callbacks, the program only prints, checks the health of
    the backend, uploads ticks and reports closes, each at its own
    address: it submits no order, reports no opened trade and never asks
    for signals. *)
Theorem trading_disabled_sends_no_order v tip cfg host cbs g w :
  EnableTrading cfg = false ->
  let after := snd (run v tip cfg host cbs g w) in
  (exists new, trace after = new ++ trace w /\ Forall (housekeeping cfg) new)
  /\ orders_sent (trace after) = orders_sent (trace w)
  /\ signal_polls cfg (trace after) = signal_polls cfg (trace w).
Proof.
  intros Off after.
  destruct (run_housekeeping v tip cfg host cbs Off g w) as (new & E & F & _).
  fold after in E. split; [exists new; auto|]. rewrite E. split.
  - unfold orders_sent. rewrite filter_app.
    replace (filter is_order_send new) with (@nil Effect); [reflexivity|].
    symmetry. clear E. induction F as [|e l He _ IH]; [reflexivity|].
    simpl. rewrite (housekeeping_no_order cfg e He). exact IH.
  - unfold signal_polls. rewrite filter_app, length_app.
    replace (filter (is_signal_poll cfg) new) with (@nil Effect); [reflexivity|].
    symmetry. clear E. induction F as [|e l He _ IH]; [reflexivity|].
    simpl. rewrite (housekeeping_no_poll cfg e He). exact IH.
Qed.

Lemma trading_disabled_sends_no_order_witness :
  orders_sent (trace (snd (run Revised mql4_library default_config calm_host
                             [CbInit; CbTick; CbTrade; CbTick; CbDeinit 0]
                             initial_globals initial_world))) = [].
Proof.
  destruct (trading_disabled_sends_no_order Revised mql4_library default_config calm_host
              [CbInit; CbTick; CbTrade; CbTick; CbDeinit 0] initial_globals initial_world
              eq_refl) as (_ & None_sent & _).
  exact None_sent.
Defined.

(** ** Close reports *)

(** X13.  In [Revised], over every sequence of callbacks from any state,
    the tickets of the close reports sent grow strictly from one report to
    the next and all lie above the watermark the sequence started with: no
    ticket is reported twice. *)
Theorem close_reports_never_repeat tip cfg host cbs g w :
  exists new,
    trace (snd (run Revised tip cfg host cbs g w)) = new ++ trace w
    /\ descending (reported_tickets new)
    /\ NoDup (reported_tickets new)
    /\ Forall (fun t => lastLoggedTicket g < t) (reported_tickets new).
Proof.
  destruct (run_reports tip cfg host cbs g w) as (new & E & _ & D & F).
  exists new. split; [exact E|]. split; [exact D|]. split.
  - apply descending_NoDup, D.
  - revert F. apply Forall_impl. intros t [A _]. exact A.
Qed.

(** X14.  In [Revised], an order of this session that is in the history
    when OnInit scans it is never reported afterwards, whatever callbacks
    follow the session start. *)
Theorem old_closes_never_reported tip cfg host cbs g w ticket :
  In ticket (our_tickets cfg (h_history host (S (calls w)))) ->
  let started := OnInit Revised cfg host g w in
  exists new,
    trace (snd (run Revised tip cfg host cbs (snd (fst started)) (snd started)))
    = new ++ trace (snd started)
    /\ ~ In ticket (reported_tickets new).
Proof.
  intros Hin started.
  destruct (run_reports tip cfg host cbs (snd (fst started)) (snd started))
    as (new & E & _ & _ & F).
  exists new. split; [exact E|]. intros Hrep.
  pose proof (proj1 (Forall_forall _ _) F ticket Hrep) as [Above _].
  unfold started in Above. rewrite OnInit_watermark in Above.
  pose proof (max_ticket_in _ (lastLoggedTicket g) ticket Hin). lia.
Qed.

Lemma old_closes_never_reported_witness :
  let started := OnInit Revised default_config restart_host initial_globals initial_world in
  ~ In 7 (reported_tickets
            (trace (snd (run Revised mql4_library default_config restart_host [CbTrade; CbTrade]
                           (snd (fst started)) (snd started))))).
Proof.
  intros started.
  assert (Hin : In 7 (our_tickets default_config
                        (h_history restart_host (S (calls initial_world)))))
    by (left; reflexivity).
  destruct (old_closes_never_reported mql4_library default_config restart_host [CbTrade; CbTrade]
              initial_globals initial_world 7 Hin) as (new & E & Never).
  fold started in E. rewrite E, reported_tickets_app.
  intros Hrep. apply in_app_or in Hrep. destruct Hrep as [H|H]; [exact (Never H)|].
  vm_compute in H. exact H.
Defined.

(** X15.  OnTrade of [Revised] reads the history once.  It reports the
    entry at the highest position that is selectable, of this session and
    above the watermark, with one POST of its close data to the trades
    address, and moves the watermark to its ticket, whatever the backend
    answers; entries at lower positions are not looked at.  When no entry
    qualifies it does nothing else. *)
Theorem OnTrade_revised_reports cfg host g w :
  let history := h_history host (calls w) in
  let after := OnTrade Revised cfg host g w in
  (forallb (fun e => negb (fresh_ours cfg (lastLoggedTicket g) e)) history = true ->
   after = (g, {| calls := S (calls w); trace := trace w |}))
  /\ (forall front o back,
        history = front ++ Some o :: back ->
        fresh_ours cfg (lastLoggedTicket g) (Some o) = true ->
        forallb (fun e => negb (fresh_ours cfg (lastLoggedTicket g) e)) back = true ->
        fst after = set_lastLoggedTicket (o_ticket o) g
        /\ web_requests (trace (snd after))
           = EvWebRequest "POST" (BackendURL cfg ++ "/api/trades") (request_texts Revised cfg)
               (close_payload o) :: web_requests (trace w)).
Proof.
  intros history after. unfold after, OnTrade, bind, OrdersHistoryPool, ask.
  fold history. split.
  - intros Hn. apply (OnTrade_loop_nothing Revised). rewrite forallb_rev. exact Hn.
  - intros front o back Hh Ho Hb. rewrite Hh, rev_app_distr. cbn [rev].
    rewrite <- app_assoc. cbn [app].
    rewrite OnTrade_loop_revised_skip by (rewrite forallb_rev; exact Hb).
    apply (OnTrade_revised_hit cfg host o (rev front) g
             {| calls := S (calls w); trace := trace w |} Ho).
Qed.

Lemma OnTrade_revised_reports_witness :
  lastLoggedTicket (fst (OnTrade Revised default_config restart_host initial_globals
                           initial_world)) = 7.
Proof.
  destruct (OnTrade_revised_reports default_config restart_host initial_globals
              initial_world) as (_ & Hit).
  destruct (Hit [] (sample_order 7) [] eq_refl eq_refl eq_refl) as (Moved & _).
  rewrite Moved. reflexivity.
Defined.

(** X16.  OnTrade of [Original] reports the entry at the highest position
    that is selectable, of this session and has a close time, and changes
    no global variable: it keeps no record of what it reported, so with an
    unchanged history two notifications send the same report twice. *)
Theorem OnTrade_original_repeats cfg host tip g w front o back :
  (forall n, h_history host n = front ++ Some o :: back) ->
  closed_ours cfg (Some o) = true ->
  forallb (fun e => negb (closed_ours cfg e)) back = true ->
  let report := EvWebRequest "POST" (BackendURL cfg ++ "/api/trades") (request_texts Original cfg)
                  (close_payload o) in
  fst (OnTrade Original cfg host g w) = g
  /\ web_requests (trace (snd (OnTrade Original cfg host g w)))
     = report :: web_requests (trace w)
  /\ web_requests (trace (snd (run Original tip cfg host [CbTrade; CbTrade] g w)))
     = report :: report :: web_requests (trace w).
Proof.
  intros Hh Ho Hb report.
  assert (One : forall g0 w0,
             fst (OnTrade Original cfg host g0 w0) = g0
             /\ web_requests (trace (snd (OnTrade Original cfg host g0 w0)))
                = report :: web_requests (trace w0)).
  { intros g0 w0. unfold OnTrade, bind, OrdersHistoryPool, ask.
    rewrite Hh, rev_app_distr. cbn [rev]. rewrite <- app_assoc. cbn [app].
    rewrite OnTrade_loop_original_skip by (rewrite forallb_rev; exact Hb).
    destruct (OnTrade_original_hit cfg host o (rev front) g0
                {| calls := S (calls w0); trace := trace w0 |} Ho) as (G & _ & R).
    split; [exact G|exact R]. }
  destruct (One g w) as [G1 R1]. split; [exact G1|]. split; [exact R1|].
  cbn [run step]. unfold bind.
  destruct (OnTrade Original cfg host g w) as [g1 w1]. simpl in G1, R1.
  destruct (One g1 w1) as [G2 R2].
  destruct (OnTrade Original cfg host g1 w1) as [g2 w2]. simpl in *.
  rewrite R2, R1. reflexivity.
Qed.

Lemma OnTrade_original_repeats_witness :
  List.length
    (web_requests (trace (snd (run Original mql4_library default_config restart_host
                                 [CbTrade; CbTrade] initial_globals initial_world))))
  = 2%nat.
Proof.
  assert (Hh : forall n, h_history restart_host n = [] ++ Some (sample_order 7) :: [])
    by (intros n; reflexivity).
  destruct (OnTrade_original_repeats default_config restart_host mql4_library initial_globals
              initial_world [] (sample_order 7) [] Hh eq_refl eq_refl) as (_ & _ & Twice).
  rewrite Twice. reflexivity.
Defined.

(** ** Signals *)

(** X17.  ValidateSignal accepts a signal exactly when none of its tests
    fires: the spread read is not above [MaxSpread], this session has
    fewer than [MaxPositions] open positions, and the signal is a BUY
    whose entry price is not above the ask plus [Slippage * Point] or a
    SELL whose entry price is not below the bid minus [Slippage * Point].
    The comparisons, the product, the sum and the difference are those of
    doubles, so a NaN fires no test.  The stop loss and the take profit
    play no part.  An accepted signal prints nothing; a rejected one
    prints one message. *)
Theorem ValidateSignal_accepts_iff cfg host direction entryPrice sl tp w :
  let spread := h_spread host (calls w) in
  let positions := open_positions cfg (h_trades host (S (calls w))) in
  let bid := h_bid host (2 + calls w) in
  let ask_ := h_ask host (3 + calls w) in
  let tolerance := double_mul (double_of_int (Slippage cfg)) (h_Point host) in
  let verdict := ValidateSignal cfg host direction entryPrice sl tp w in
  (fst verdict = true
   <-> double_gt spread (double_of_int (MaxSpread cfg)) = false
       /\ positions < MaxPositions cfg
       /\ ((direction = "BUY"
            /\ double_gt entryPrice (double_add ask_ tolerance) = false)
           \/ (direction = "SELL"
               /\ double_lt entryPrice (double_sub bid tolerance) = false)))
  /\ (fst verdict = true -> trace (snd verdict) = trace w)
  /\ (fst verdict = false -> exists message, trace (snd verdict) = EvPrint message :: trace w).
Proof.
  intros spread positions bid ask_ tolerance verdict.
  unfold verdict. rewrite ValidateSignal_run. cbv zeta.
  fold spread positions bid ask_ tolerance.
  destruct (double_gt spread (double_of_int (MaxSpread cfg))) eqn:Sp.
  { cbn [fst snd trace]. split; [|split].
    - split; [discriminate|]. intros (L & _). discriminate L.
    - discriminate.
    - intros _. eexists. reflexivity. }
  destruct (positions >=? MaxPositions cfg) eqn:Po.
  { apply Z.geb_le in Po. cbn [fst snd trace]. split; [|split].
    - split; [discriminate|]. intros (_ & L & _). lia.
    - discriminate.
    - intros _. eexists. reflexivity. }
  rewrite Z.geb_leb in Po. apply Z.leb_gt in Po.
  destruct (String.eqb_spec direction "BUY") as [B|B].
  - subst direction. cbn [negb andb String.eqb Ascii.eqb Bool.eqb].
    destruct (double_gt entryPrice (double_add ask_ tolerance)) eqn:G; cbn [fst snd trace].
    + split; [|split].
      * split; [discriminate|]. intros (_ & _ & [[_ L]|[N _]]); discriminate.
      * discriminate.
      * intros _. eexists. reflexivity.
    + split; [|split].
      * split; [|reflexivity]. intros _. auto.
      * reflexivity.
      * discriminate.
  - destruct (String.eqb_spec direction "SELL") as [S|S]; cbn [negb andb].
    + subst direction.
      destruct (double_lt entryPrice (double_sub bid tolerance)) eqn:G; cbn [fst snd trace].
      * split; [|split].
        -- split; [discriminate|]. intros (_ & _ & [[N _]|[_ L]]); discriminate.
        -- discriminate.
        -- intros _. eexists. reflexivity.
      * split; [|split].
        -- split; [|reflexivity]. intros _. auto.
        -- reflexivity.
        -- discriminate.
    + cbn [fst snd trace]. split; [|split].
      * split; [discriminate|]. intros (_ & _ & [[N _]|[N _]]); contradiction.
      * discriminate.
      * intros _. eexists. reflexivity.
Qed.

Lemma ValidateSignal_accepts_iff_witness :
  fst (ValidateSignal default_config yen_host "BUY" (decimal 15003 2) double_zero double_zero
         initial_world) = true.
Proof.
  destruct (ValidateSignal_accepts_iff default_config yen_host "BUY" (decimal 15003 2)
              double_zero double_zero initial_world) as (Accepts & _).
  apply Accepts. split; [|split].
  - reflexivity.
  - reflexivity.
  - left. split; reflexivity.
Defined.

(** X18.  ExecuteSignal reports an opened trade exactly when OrderSend
    returned a ticket above 0: then it sends one POST to the trades
    address with that ticket, the direction, the lot size, the price of
    the order, the time and the stop loss and take profit of the signal.
    A failed order sends nothing to the backend. *)
Theorem ExecuteSignal_reports_open v cfg host direction entryPrice sl tp w :
  let price := if (direction =? "BUY")%string
               then h_ask host (calls w) else h_bid host (calls w) in
  let reply := h_order_send host (S (calls w)) in
  let after := snd (ExecuteSignal v cfg host direction entryPrice sl tp w) in
  web_requests (trace after)
  = (if os_ticket reply >? 0
     then [EvWebRequest "POST" (BackendURL cfg ++ "/api/trades") (request_texts v cfg)
             (TradeOpenPayload (os_ticket reply) (Symbol cfg) direction (LotSize cfg) price
                (h_TimeCurrent host (2 + calls w)) sl tp)]
     else [])
    ++ web_requests (trace w).
Proof.
  intros price reply after. unfold after.
  destruct (ExecuteSignal_run v cfg host direction entryPrice sl tp w)
    as (before & later & Fb & Fl & E).
  rewrite E. fold price reply. destruct (os_ticket reply >? 0).
  - rewrite web_requests_app, (web_requests_prints later Fl). cbn [app].
    unfold web_requests at 1. cbn [filter is_web_request].
    fold (web_requests (before ++ EvOrderSend (Symbol cfg)
                          (if (direction =? "BUY")%string then OP_BUY else OP_SELL)
                          (LotSize cfg) price (Slippage cfg) sl tp "AI Scalping Signal"
                          (MagicNumber cfg) 0 clrBlue :: trace w)).
    rewrite web_requests_app, (web_requests_prints before Fb). reflexivity.
  - rewrite web_requests_app, (web_requests_prints before Fb). reflexivity.
Qed.

(** X19.  A decoded signal leads to an order only through ValidateSignal:
    when the validation rejects it nothing is submitted and nothing is
    sent to the backend; when it accepts, the direction is BUY or SELL
    and one order is submitted, a buy at the ask or a sell at the bid read
    after the validation, with the lot size, slippage and magic number of
    the configuration and the stop loss and take profit decoded from the
    response. *)
Theorem signal_needs_validation v tip cfg host response w :
  let direction := Extract.ExtractValue v tip response "direction" in
  let entryPrice :=
    h_StringToDouble host (Extract.ExtractValue v tip response "entry_price") in
  let sl := h_StringToDouble host (Extract.ExtractValue v tip response "sl") in
  let tp := h_StringToDouble host (Extract.ExtractValue v tip response "tp") in
  let accepted := fst (ValidateSignal cfg host direction entryPrice sl tp w) in
  let after := snd (CheckForSignals_handle v tip cfg host response w) in
  (accepted = false ->
   orders_sent (trace after) = orders_sent (trace w)
   /\ web_requests (trace after) = web_requests (trace w))
  /\ (accepted = true ->
      (direction = "BUY" \/ direction = "SELL")
      /\ orders_sent (trace after)
         = EvOrderSend (Symbol cfg)
             (if (direction =? "BUY")%string then OP_BUY else OP_SELL) (LotSize cfg)
             (if (direction =? "BUY")%string
              then h_ask host (4 + calls w) else h_bid host (4 + calls w))
             (Slippage cfg) sl tp "AI Scalping Signal" (MagicNumber cfg) 0 clrBlue
           :: orders_sent (trace w)).
Proof.
  intros direction entryPrice sl tp accepted after.
  unfold after, CheckForSignals_handle. cbv zeta.
  fold direction entryPrice sl tp.
  unfold bind. cbn [Print emit].
  set (w0 := {| calls := calls w; trace := _ :: trace w |}).
  assert (A0 : fst (ValidateSignal cfg host direction entryPrice sl tp w0) = accepted).
  { unfold accepted. rewrite !ValidateSignal_run. cbv zeta. cbn [calls w0].
    repeat (match goal with |- context [if ?c then _ else _] => destruct c end;
            [reflexivity|]).
    reflexivity. }
  destruct (ValidateSignal_prints cfg host direction entryPrice sl tp w0)
    as (prints & E & F).
  pose proof (ValidateSignal_accepted cfg host direction entryPrice sl tp w0) as Acc.
  destruct (ValidateSignal cfg host direction entryPrice sl tp w0) as [ok w1].
  simpl in A0, E, Acc. subst ok. split.
  - intros N. rewrite N. cbn [negb Print emit snd trace]. rewrite E.
    split.
    + change (orders_sent (?e :: ?l)) with (orders_sent l).
      rewrite orders_sent_app, (orders_sent_prints prints F). reflexivity.
    + change (web_requests (?e :: ?l)) with (web_requests l).
      rewrite web_requests_app, (web_requests_prints prints F). reflexivity.
  - intros Y. rewrite Y in *. cbn [negb]. destruct (Acc eq_refl) as [W1 D].
    split; [exact D|]. rewrite ExecuteSignal_orders, W1. reflexivity.
Qed.

Lemma signal_needs_validation_witness :
  orders_sent
    (trace (snd (CheckForSignals_handle Revised mql4_library default_config wide_spread_host
                   sample_signal initial_world))) = [].
Proof.
  destruct (signal_needs_validation Revised mql4_library default_config wide_spread_host
              sample_signal initial_world) as (Rejected & _).
  destruct Rejected as (None_sent & _); [reflexivity|].
  exact None_sent.
Defined.

(** X20.  A response without a direction field never leads to an order:
    when the search token of [direction] occurs nowhere in the response,
    CheckForSignals submits nothing, in both revisions and whatever the
    market and the other fields are. *)
Theorem no_direction_no_order v tip cfg host w :
  let response := fst (SendHttpRequest v cfg host (BackendURL cfg ++ "/api/signals")
                         NoPayload w) in
  ~ (exists pre post,
       response = (pre ++ Extract.search_token "direction" ++ post)%string) ->
  orders_sent (trace (snd (CheckForSignals v tip cfg host w))) = orders_sent (trace w).
Proof.
  intros response Habs.
  unfold CheckForSignals, bind.
  destruct (SendHttpRequest_run v cfg host (BackendURL cfg ++ "/api/signals") NoPayload w)
    as (prints & E & F).
  unfold response in Habs. rewrite E in *. cbn [fst] in Habs.
  set (body := if wr_error (h_web host (calls w)) =? 0
               then wr_body (h_web host (calls w)) else EmptyString) in *.
  set (w1 := {| calls := S (calls w); trace := _ |}).
  assert (O1 : orders_sent (trace w1) = orders_sent (trace w)).
  { unfold w1. cbn [trace]. rewrite orders_sent_app, (orders_sent_prints prints F).
    reflexivity. }
  destruct (no_signal_response v body); [exact O1|].
  pose proof (FieldFacts.ExtractValue_absent tip v body "direction" Habs) as D.
  unfold CheckForSignals_handle. cbv zeta. rewrite D.
  unfold bind at 1. cbn [Print emit].
  set (w2 := {| calls := calls w1; trace := _ :: trace w1 |}).
  unfold bind.
  destruct (ValidateSignal_prints cfg host EmptyString
              (h_StringToDouble host (Extract.ExtractValue v tip body "entry_price"))
              (h_StringToDouble host (Extract.ExtractValue v tip body "sl"))
              (h_StringToDouble host (Extract.ExtractValue v tip body "tp")) w2)
    as (vp & Ev & Fv).
  pose proof (ValidateSignal_refuses cfg host EmptyString
                (h_StringToDouble host (Extract.ExtractValue v tip body "entry_price"))
                (h_StringToDouble host (Extract.ExtractValue v tip body "sl"))
                (h_StringToDouble host (Extract.ExtractValue v tip body "tp")) w2) as R.
  destruct (ValidateSignal _ _ _ _ _ _ w2) as [ok w3]. simpl in Ev, R.
  rewrite R by discriminate. cbn [negb Print emit snd trace].
  change (orders_sent (?e :: ?l)) with (orders_sent l).
  rewrite Ev, orders_sent_app, (orders_sent_prints vp Fv).
  unfold w2. cbn [trace]. exact O1.
Qed.

Lemma no_direction_no_order_witness :
  orders_sent (trace (snd (CheckForSignals Original mql4_library default_config calm_host
                             initial_world))) = [].
Proof.
  apply (no_direction_no_order Original mql4_library default_config calm_host initial_world).
  intros Occurs.
  apply (ExtractFacts.StringFind_contains _ (Extract.search_token "direction")) in Occurs.
  - vm_compute in Occurs. apply Occurs. reflexivity.
  - discriminate.
Defined.

(** ** Timers and the full buffer *)



(** X22.  A tick that arrives on a full buffer, with the session running,
    is dropped and makes OnTick attempt one upload of the 500 buffered
    ticks, the last request of the call; the buffer array is untouched.
    When the upload is delivered (WebRequest raised no error and the
    response is not empty) the tick count is 0 afterwards; when it is not,
    the count is still 500 and the session still connected, so that the
    next tick tries again. *)
Theorem full_buffer_retries v tip cfg host g w :
  tickCount g = tickBufferSize ->
  isConnected g = true ->
  v = Revised \/ EnableTrading cfg = true ->
  let mid := OnTick_collect_and_poll v tip cfg host g w in
  let reply := h_web host (calls (snd mid)) in
  let after := OnTick v tip cfg host g w in
  tick_uploads (trace (snd after)) = S (tick_uploads (trace w))
  /\ hd_error (web_requests (trace (snd after)))
     = Some (EvWebRequest "POST" (BackendURL cfg ++ "/api/ticks") (request_texts v cfg)
               (TicksPayload (Symbol cfg) (batch g)))
  /\ tickData (fst after) = tickData g
  /\ (wr_error reply = 0 /\ wr_body reply <> EmptyString -> tickCount (fst after) = 0)
  /\ (wr_error reply <> 0 \/ wr_body reply = EmptyString ->
      tickCount (fst after) = tickBufferSize /\ isConnected (fst after) = true).
Proof.
  intros Full Conn Run mid reply after.
  assert (R : OnTick_runs v cfg g = true).
  { unfold OnTick_runs. rewrite Conn. destruct Run as [->|T]; [reflexivity|].
    rewrite T. destruct v; reflexivity. }
  assert (C : CollectTickData v host g w = (g, w)).
  { unfold CollectTickData. rewrite Full. reflexivity. }
  assert (M : exists g1 w1 new,
             mid = (g1, w1)
             /\ polled g g1 /\ trace w1 = new ++ trace w /\ Forall other_effect new).
  { unfold mid, OnTick_collect_and_poll, bind. rewrite C.
    assert (P : exists g1 w1 new,
               OnTick_poll v tip cfg host g w = (g1, w1)
               /\ polled g g1 /\ trace w1 = new ++ trace w /\ Forall other_effect new).
    { destruct (OnTick_poll_does v tip cfg host g w) as (new & E & F & Pd).
      destruct (OnTick_poll v tip cfg host g w) as [g1 w1]. simpl in *.
      exists g1, w1, new. auto. }
    destruct v; [exact P|].
    destruct (EnableTrading cfg); [exact P|].
    exists g, w, []. repeat split; [left; reflexivity|constructor]. }
  destruct M as (g1 & w1 & new & E1 & Pd & Tr & Fo).
  assert (B1 : batch g1 = batch g /\ tickData g1 = tickData g /\ tickCount g1 = tickCount g
               /\ isConnected g1 = isConnected g).
  { destruct Pd as [->|[now ->]]; repeat split. }
  destruct B1 as (Bt & Td & Tc & Ic).
  assert (A : after = SendTickData v cfg host g1 w1).
  { unfold after, OnTick. rewrite R. unfold bind. fold mid. rewrite E1.
    unfold OnTick_flush. rewrite Tc, Full. reflexivity. }
  assert (Hn : tickCount g1 <> 0) by (rewrite Tc, Full; discriminate).
  destruct (SendTickData_run v cfg host g1 w1 Hn) as (prints & Fp & E).
  assert (Rp : reply = h_web host (calls w1)) by (unfold reply; rewrite E1; reflexivity).
  rewrite <- Rp in E. rewrite A, E, Bt.
  assert (U : tick_uploads (trace w1) = tick_uploads (trace w)).
  { rewrite Tr, tick_uploads_app, tick_uploads_none; [reflexivity|].
    revert Fo. apply Forall_impl, other_not_upload. }
  destruct (wr_error reply =? 0) eqn:Er; cbn [andb].
  - apply Z.eqb_eq in Er.
    destruct (String.eqb_spec (wr_body reply) EmptyString) as [B|B];
      cbn [negb fst snd trace].
    + split; [|split; [|split; [|split]]].
      * rewrite tick_uploads_app, (tick_uploads_prints prints Fp). cbn. rewrite <- U.
        reflexivity.
      * rewrite web_requests_app, (web_requests_prints prints Fp). reflexivity.
      * exact Td.
      * intros [_ N]. contradiction.
      * intros _. rewrite Tc, Ic. split; [exact Full|exact Conn].
    + split; [|split; [|split; [|split]]].
      * rewrite tick_uploads_app, (tick_uploads_prints prints Fp). cbn. rewrite <- U.
        reflexivity.
      * rewrite web_requests_app, (web_requests_prints prints Fp). reflexivity.
      * exact Td.
      * reflexivity.
      * intros [N|N]; contradiction.
  - apply Z.eqb_neq in Er. cbn [fst snd trace].
    split; [|split; [|split; [|split]]].
    + rewrite tick_uploads_app, (tick_uploads_prints prints Fp). cbn. rewrite <- U.
      reflexivity.
    + rewrite web_requests_app, (web_requests_prints prints Fp). reflexivity.
    + exact Td.
    + intros [N _]. contradiction.
    + intros _. rewrite Tc, Ic. split; [exact Full|exact Conn].
Qed.

Lemma full_buffer_retries_witness :
  let after := OnTick Revised mql4_library default_config flaky_host (connected_globals 500 0)
                 initial_world in
  tick_uploads (trace (snd after)) = 1%nat /\ tickCount (fst after) = 500.
Proof.
  intros after.
  destruct (full_buffer_retries Revised mql4_library default_config flaky_host
              (connected_globals 500 0) initial_world eq_refl eq_refl (or_introl eq_refl))
    as (Once & _ & _ & _ & Kept).
  split; [exact Once|].
  apply Kept. left. discriminate.
Defined.

(** ** CountOpenPositions *)

(** X23.  CountOpenPositions reads the pool of open orders once and
    returns the number of its entries that can be selected and carry the
    symbol and the magic number of this session, a number between 0 and
    the size of the pool; it sends and prints nothing. *)
Theorem CountOpenPositions_counts cfg host w :
  let pool := h_trades host (calls w) in
  CountOpenPositions cfg host w
  = (open_positions cfg pool, {| calls := S (calls w); trace := trace w |})
  /\ 0 <= fst (CountOpenPositions cfg host w) <= Z.of_nat (List.length pool).
Proof.
  intros pool.
  assert (E : CountOpenPositions cfg host w
              = (open_positions cfg pool, {| calls := S (calls w); trace := trace w |})).
  { unfold CountOpenPositions, OrdersPool, bind, ask, ret. fold pool.
    rewrite count_ours_rev. reflexivity. }
  split; [exact E|]. rewrite E. cbn [fst]. unfold open_positions.
  pose proof (filter_length_le (order_is_ours cfg) pool). lia.
Qed.
